(** * sslip.io DNS server: the [xip] package

    A shallow embedding of [sslip.io-dns-server/xip/xip.go] and the
    properties of its name parser, customization table, blocklist,
    key-value TXT protocol and question dispatcher.

    Conventions.
    - Go strings are byte strings; they are modelled as [string], and as
      [list ascii] inside the regular-expression engine.  Names are taken
      to be ASCII: [strings.ToLower] is modelled on the letters A-Z.
    - A byte is a [Z] in [0, 256); [net.IP] (a byte slice) is a [list Z],
      the nil slice being the empty list.
    - Go's [int] counters are [Z] with the 64-bit wrap-around written out.
    - The package-level maps [Customizations] and [TxtKvCustomizations]
      are mutable globals in the source; every function that reads them
      takes the current table as an argument. *)

From Stdlib Require Import ZArith List Ascii String Bool Lia.
From stdpp Require Import gmap strings.
Import ListNotations.

Local Open Scope Z_scope.

(** ** Regular expressions (the subset of Go's [regexp] syntax the package uses) *)

Module Regexp.

Inductive re : Type :=
| ReEmpty
| ReClass (neg : bool) (ranges : list (ascii * ascii))
| ReAnyNotNL
| ReBol
| ReEol
| ReCat (a b : re)
| ReAlt (a b : re)
| ReRep (a : re) (lo : nat) (hi : option nat)
| ReCap (i : nat) (a : re).

Definition code (c : ascii) : N := N_of_ascii c.

Definition in_range (c : ascii) (r : ascii * ascii) : bool :=
  (code (fst r) <=? code c)%N && (code c <=? code (snd r))%N.

Definition in_class (neg : bool) (ranges : list (ascii * ascii)) (c : ascii) : bool :=
  xorb neg (existsb (in_range c) ranges).

Definition is_upper (c : ascii) : bool := in_range c ("A", "Z")%char.
Definition is_lower (c : ascii) : bool := in_range c ("a", "z")%char.
Definition is_digit (c : ascii) : bool := in_range c ("0", "9")%char.

Definition lower_ascii (c : ascii) : ascii :=
  if is_upper c then ascii_of_N (code c + 32) else c.
Definition upper_ascii (c : ascii) : ascii :=
  if is_lower c then ascii_of_N (code c - 32) else c.

(** *** Parsing a pattern *)

Definition lit (fold : bool) (c : ascii) : re :=
  if fold && (is_upper c || is_lower c)
  then ReClass false [(upper_ascii c, upper_ascii c); (lower_ascii c, lower_ascii c)]
  else ReClass false [(c, c)].

Definition cat (a b : re) : re :=
  match b with ReEmpty => a | _ => ReCat a b end.

Definition digit_val (c : ascii) : nat := N.to_nat (code c - 48).

Fixpoint p_nat (acc : nat) (s : list ascii) : nat * list ascii :=
  match s with
  | c :: t => if is_digit c then p_nat (10 * acc + digit_val c) t else (acc, s)
  | [] => (acc, s)
  end.

(** [{n}], [{n,}] and [{n,m}] after the opening brace. *)
Definition p_bounds (s : list ascii) : option (nat * option nat * list ascii) :=
  match s with
  | c :: _ =>
      if is_digit c then
        let '(lo, s1) := p_nat 0 s in
        match s1 with
        | "}"%char :: s2 => Some (lo, Some lo, s2)
        | ","%char :: "}"%char :: s2 => Some (lo, None, s2)
        | ","%char :: (d :: _) as s2 =>
            if is_digit d then
              let '(hi, s3) := p_nat 0 s2 in
              match s3 with
              | "}"%char :: s4 => Some (lo, Some hi, s4)
              | _ => None
              end
            else None
        | _ => None
        end
      else None
  | [] => None
  end.

Definition p_quant (a : re) (s : list ascii) : option (re * list ascii) :=
  match s with
  | "?"%char :: t => Some (ReRep a 0 (Some 1%nat), t)
  | "*"%char :: t => Some (ReRep a 0 None, t)
  | "+"%char :: t => Some (ReRep a 1 None, t)
  | "{"%char :: t =>
      match p_bounds t with
      | Some (lo, hi, t') => Some (ReRep a lo hi, t')
      | None => None
      end
  | _ => Some (a, s)
  end.

(** The items of a bracket expression, after [[] or [[^]. *)
Fixpoint p_class (f : nat) (acc : list (ascii * ascii)) (s : list ascii)
  : option (list (ascii * ascii) * list ascii) :=
  match f with
  | O => None
  | S f =>
      match s with
      | [] => None
      | "]"%char :: t => Some (rev acc, t)
      | "\"%char :: c :: "-"%char :: d :: t =>
          if Ascii.eqb d "]" then p_class f ((c, c) :: acc) ("-"%char :: d :: t)
          else p_class f ((c, d) :: acc) t
      | "\"%char :: c :: t => p_class f ((c, c) :: acc) t
      | c :: "-"%char :: d :: t =>
          if Ascii.eqb d "]" then p_class f ((c, c) :: acc) ("-"%char :: d :: t)
          else p_class f ((c, d) :: acc) t
      | c :: t => p_class f ((c, c) :: acc) t
      end
  end.

Fixpoint p_alt (f : nat) (fold : bool) (n : nat) (s : list ascii)
  : option (re * nat * list ascii) :=
  match f with
  | O => None
  | S f =>
      match p_cat f fold n s with
      | Some (a, n1, "|"%char :: s1) =>
          match p_alt f fold n1 s1 with
          | Some (b, n2, s2) => Some (ReAlt a b, n2, s2)
          | None => None
          end
      | r => r
      end
  end
with p_cat (f : nat) (fold : bool) (n : nat) (s : list ascii)
  : option (re * nat * list ascii) :=
  match f with
  | O => None
  | S f =>
      match s with
      | [] => Some (ReEmpty, n, s)
      | "|"%char :: _ => Some (ReEmpty, n, s)
      | ")"%char :: _ => Some (ReEmpty, n, s)
      | _ =>
          match p_atom f fold n s with
          | Some (a, n1, s1) =>
              match p_quant a s1 with
              | Some (a', s2) =>
                  match p_cat f fold n1 s2 with
                  | Some (b, n2, s3) => Some (cat a' b, n2, s3)
                  | None => None
                  end
              | None => None
              end
          | None => None
          end
      end
  end
with p_atom (f : nat) (fold : bool) (n : nat) (s : list ascii)
  : option (re * nat * list ascii) :=
  match f with
  | O => None
  | S f =>
      match s with
      | [] => None
      | "("%char :: t =>
          match p_alt f fold (S n) t with
          | Some (a, n1, ")"%char :: t1) => Some (ReCap n a, n1, t1)
          | _ => None
          end
      | "["%char :: "^"%char :: t =>
          match p_class (S (List.length t)) [] t with
          | Some (rs, t1) => Some (ReClass true rs, n, t1)
          | None => None
          end
      | "["%char :: t =>
          match p_class (S (List.length t)) [] t with
          | Some (rs, t1) => Some (ReClass false rs, n, t1)
          | None => None
          end
      | "\"%char :: c :: t => Some (lit fold c, n, t)
      | "\"%char :: [] => None
      | "."%char :: t => Some (ReAnyNotNL, n, t)
      | "^"%char :: t => Some (ReBol, n, t)
      | "$"%char :: t => Some (ReEol, n, t)
      | "?"%char :: _ | "*"%char :: _ | "+"%char :: _ | ")"%char :: _ => None
      | c :: t => Some (lit fold c, n, t)
      end
  end.

(** [regexp.Compile]: an optional leading [(?i)], then the pattern; the
    whole match is group 0, so the first parenthesis is group 1. *)
Definition Compile (p : string) : option re :=
  let s := list_ascii_of_string p in
  let '(fold, s) :=
    match s with
    | "("%char :: "?"%char :: "i"%char :: ")"%char :: t => (true, t)
    | _ => (false, s)
    end in
  match p_alt (S (3 * List.length s)) fold 1 s with
  | Some (r, _, []) => Some r
  | _ => None
  end.

(** [regexp.MustCompile] panics on a malformed pattern; every pattern of
    the package compiles (see [patterns_compile]), so the fallback, a
    pattern that matches nothing, is never used. *)
Definition MustCompile (p : string) : re :=
  match Compile p with
  | Some r => r
  | None => ReClass false []
  end.

(** *** Matching *)

(** Capture groups: the most recent binding of a group comes first. *)
Definition caps : Type := list (nat * (nat * nat)).

(** A thread of the matcher: the position reached, the input left, the
    groups captured. *)
Definition thread : Type := nat * list ascii * caps.

Definition bind (ts : list thread) (k : thread -> list thread) : list thread :=
  flat_map k ts.

(** At most [extra] further greedy iterations of [step]. *)
Fixpoint rep_opt (step : thread -> list thread) (extra : nat) (t : thread)
  : list thread :=
  match extra with
  | O => [t]
  | S e => bind (step t) (rep_opt step e) ++ [t]
  end.

Fixpoint rep_min (step : thread -> list thread) (lo extra : nat) (t : thread)
  : list thread :=
  match lo with
  | O => rep_opt step extra t
  | S l => bind (step t) (rep_min step l extra)
  end.

(** All the ways [r] matches at the thread, in the order a backtracking
    matcher tries them: the left alternative first, more repetitions
    first. *)
Fixpoint run (r : re) (t : thread) : list thread :=
  let '(pos, rest, cs) := t in
  match r with
  | ReEmpty => [t]
  | ReClass neg rs =>
      match rest with
      | c :: rest' => if in_class neg rs c then [(S pos, rest', cs)] else []
      | [] => []
      end
  | ReAnyNotNL =>
      match rest with
      | c :: rest' => if Ascii.eqb c "010" then [] else [(S pos, rest', cs)]
      | [] => []
      end
  | ReBol => if Nat.eqb pos 0 then [t] else []
  | ReEol => match rest with [] => [t] | _ => [] end
  | ReCat a b => bind (run a t) (run b)
  | ReAlt a b => run a t ++ run b t
  | ReRep a lo hi =>
      match hi with
      | Some h => rep_min (run a) lo (h - lo) t
      | None => rep_min (run a) lo (List.length rest) t
      end
  | ReCap i a =>
      map (fun '(pos', rest', cs') => (pos', rest', (i, (pos, pos')) :: cs')) (run a t)
  end.

(** A match: where it starts, where it ends, and its groups. *)
Record found : Type := Found { m_start : nat; m_end : nat; m_caps : caps }.

Definition thread_end (t : thread) : nat := fst (fst t).

(** Leftmost-first keeps the first thread; after [Longest] the winner is
    the first thread among those that end furthest. *)
Fixpoint pick_longest (best : thread) (ts : list thread) : thread :=
  match ts with
  | [] => best
  | t :: ts' =>
      if Nat.ltb (thread_end best) (thread_end t) then pick_longest t ts'
      else pick_longest best ts'
  end.

Definition pick (longest : bool) (ts : list thread) : option thread :=
  match ts with
  | [] => None
  | t :: ts' => Some (if longest then pick_longest t ts' else t)
  end.

Definition match_at (longest : bool) (r : re) (pos : nat) (rest : list ascii)
  : option found :=
  match pick longest (run r (pos, rest, [])) with
  | Some (e, _, cs) => Some (Found pos e cs)
  | None => None
  end.

(** The leftmost match at or after [pos], [rest] being the input from [pos] on. *)
Fixpoint find_from (longest : bool) (r : re) (pos : nat) (rest : list ascii)
  : option found :=
  match match_at longest r pos rest with
  | Some m => Some m
  | None =>
      match rest with
      | [] => None
      | _ :: rest' => find_from longest r (S pos) rest'
      end
  end.

Definition find (longest : bool) (r : re) (s : list ascii) : option found :=
  find_from longest r 0 s.

Definition lookup_cap (i : nat) (cs : caps) : option (nat * nat) :=
  match List.find (fun e => Nat.eqb (fst e) i) cs with
  | Some (_, span) => Some span
  | None => None
  end.

Definition slice (s : list ascii) (a b : nat) : list ascii :=
  firstn (b - a) (skipn a s).

(** [re.MatchString(s)] and [re.Match(b)]. *)
Definition MatchString (r : re) (s : string) : bool :=
  match find false r (list_ascii_of_string s) with
  | Some _ => true
  | None => false
  end.

(** [re.FindSubmatch(b)[i]] for [i >= 1]: [None] when there is no match (the
    source would index a nil slice), the empty string for a group that
    took no part in the match. *)
Definition FindSubmatch (longest : bool) (r : re) (s : string) (i : nat)
  : option string :=
  let l := list_ascii_of_string s in
  match find longest r l with
  | Some m =>
      match lookup_cap i (m_caps m) with
      | Some (a, b) => Some (string_of_list_ascii (slice l a b))
      | None => Some EmptyString
      end
  | None => None
  end.

(** [re.ReplaceAllString(s, "")]: delete every match, scanning left to
    right; an empty match lets one byte through. *)
Fixpoint delete_all (f : nat) (r : re) (pos : nat) (rest : list ascii)
  : list ascii :=
  match f with
  | O => rest
  | S f =>
      match find_from false r pos rest with
      | None => rest
      | Some m =>
          let before := firstn (m_start m - pos) rest in
          let after := skipn (m_end m - pos) rest in
          if Nat.ltb (m_start m) (m_end m)
          then before ++ delete_all f r (m_end m) after
          else
            match after with
            | [] => before
            | c :: after' => before ++ c :: delete_all f r (S (m_end m)) after'
            end
      end
  end.

Definition DeleteAllString (r : re) (s : string) : string :=
  let l := list_ascii_of_string s in
  string_of_list_ascii (delete_all (S (List.length l)) r 0 l).

End Regexp.

(** ** The parts of Go's [net] package the server calls *)

Module Net.

Import Regexp.

(** [net.IP] is a byte slice; nil has length 0. *)
Definition IP : Type := list Z.
Definition IPMask : Type := list Z.
Record IPNet : Type := mkIPNet { net_IP : IP; net_Mask : IPMask }.

Definition IPv4len : nat := 4.
Definition IPv6len : nat := 16.
Definition big : Z := 16777215.

Definition byte (n : Z) : Z := Z.land n 255.

Definition v4InV6Prefix : list Z := [0; 0; 0; 0; 0; 0; 0; 0; 0; 0; 255; 255].

Definition IPv4 (a b c d : Z) : IP := v4InV6Prefix ++ [a; b; c; d].

Definition isZeros (p : list Z) : bool := forallb (Z.eqb 0) p.

Definition list_eqb (a b : list Z) : bool :=
  Nat.eqb (List.length a) (List.length b) && forallb (fun '(x, y) => Z.eqb x y) (combine a b).

(** Reading index [i] of a slice known to be long enough. *)
Definition at_ (p : list Z) (i : nat) : Z := nth i p 0.

Definition To4 (ip : IP) : IP :=
  if Nat.eqb (List.length ip) IPv4len then ip
  else if Nat.eqb (List.length ip) IPv6len && isZeros (firstn 10 ip)
          && Z.eqb (at_ ip 10) 255 && Z.eqb (at_ ip 11) 255
  then firstn 4 (skipn 12 ip)
  else [].

Definition To16 (ip : IP) : IP :=
  if Nat.eqb (List.length ip) IPv4len
  then IPv4 (at_ ip 0) (at_ ip 1) (at_ ip 2) (at_ ip 3)
  else if Nat.eqb (List.length ip) IPv6len then ip
  else [].

Definition is_nil (ip : IP) : bool := Nat.eqb (List.length ip) 0.

(** [IP.IsPrivate]: RFC 1918 for IPv4, RFC 4193 for IPv6. *)
Definition IsPrivate (ip : IP) : bool :=
  let ip4 := To4 ip in
  if negb (is_nil ip4) then
    Z.eqb (at_ ip4 0) 10
    || (Z.eqb (at_ ip4 0) 172 && Z.eqb (Z.land (at_ ip4 1) 240) 16)
    || (Z.eqb (at_ ip4 0) 192 && Z.eqb (at_ ip4 1) 168)
  else
    Nat.eqb (List.length ip) IPv6len && Z.eqb (Z.land (at_ ip 0) 254) 252.

Definition digit (c : ascii) : Z := Z.of_N (code c) - 48.

(** The loop of [dtoi]: [None] once the number reaches [big]. *)
Fixpoint dtoi_loop (s : list ascii) (n : Z) (i : nat) : option (Z * nat) :=
  match s with
  | c :: t =>
      if is_digit c then
        let n' := n * 10 + digit c in
        if n' >=? big then None else dtoi_loop t n' (S i)
      else Some (n, i)
  | [] => Some (n, i)
  end.

(** [dtoi]: the number, the characters consumed; [None] for [ok = false]. *)
Definition dtoi (s : list ascii) : option (Z * nat) :=
  match dtoi_loop s 0 0 with
  | Some (n, i) => if Nat.eqb i 0 then None else Some (n, i)
  | None => None
  end.

Definition hexval (c : ascii) : option Z :=
  if is_digit c then Some (Z.of_N (code c) - 48)
  else if in_range c ("a", "f")%char then Some (Z.of_N (code c) - 97 + 10)
  else if in_range c ("A", "F")%char then Some (Z.of_N (code c) - 65 + 10)
  else None.

Fixpoint xtoi_loop (s : list ascii) (n : Z) (i : nat) : option (Z * nat) :=
  match s with
  | c :: t =>
      match hexval c with
      | Some v =>
          let n' := n * 16 + v in
          if n' >=? big then None else xtoi_loop t n' (S i)
      | None => Some (n, i)
      end
  | [] => Some (n, i)
  end.

Definition xtoi (s : list ascii) : option (Z * nat) :=
  match xtoi_loop s 0 0 with
  | Some (n, i) => if Nat.eqb i 0 then None else Some (n, i)
  | None => None
  end.

(** The body of the loop of [parseIPv4], for the octets [i .. 3]: [k]
    counts the iterations left, [p] holds the octets read so far. *)
Fixpoint parseIPv4_loop (k i : nat) (s : list ascii) (p : list Z)
  : option (list Z * list ascii) :=
  match k with
  | O => Some (p, s)
  | S k' =>
      match s with
      | [] => None
      | c0 :: s' =>
          let after_dot :=
            if Nat.ltb 0 i
            then (if Ascii.eqb c0 "." then Some s' else None)
            else Some s in
          match after_dot with
          | None => None
          | Some s1 =>
              match dtoi s1 with
              | None => None
              | Some (n, c) =>
                  if n >? 255 then None
                  else if Nat.ltb 1 c && Ascii.eqb (hd "000"%char s1) "0" then None
                  else parseIPv4_loop k' (S i) (skipn c s1) (p ++ [byte n])
              end
          end
      end
  end.

Definition parseIPv4 (s : list ascii) : IP :=
  match parseIPv4_loop 4 0 s [] with
  | Some (p, []) => IPv4 (at_ p 0) (at_ p 1) (at_ p 2) (at_ p 3)
  | _ => []
  end.

(** The state of the loop of [parseIPv6]: the array being filled, the
    index [i], the input left and the position of the ellipsis
    ([None] for -1). *)
Record v6state : Type :=
  V6 { v6_ip : list Z; v6_i : nat; v6_s : list ascii; v6_ellipsis : option nat }.

(** One pass through the loop: [None] is [return nil]; otherwise the new
    state and whether the loop goes on ([false] after a [break]).  A group
    of more than four hexadecimal digits is refused, whatever its value. *)
Definition parseIPv6_step (st : v6state) : option (v6state * bool) :=
  let '(V6 ip i s ellipsis) := st in
  match xtoi s with
  | None => None
  | Some (n, c) =>
      if n >? 65535 then None
      else if Nat.ltb 4 c then None
      else if Nat.ltb c (List.length s) && Ascii.eqb (nth c s "000"%char) "." then
        if (match ellipsis with None => true | Some _ => false end)
           && negb (Nat.eqb i (IPv6len - IPv4len)) then None
        else if Nat.ltb IPv6len (i + IPv4len) then None
        else
          let ip4 := parseIPv4 s in
          if is_nil ip4 then None
          else
            let ip := <[i := at_ ip4 12]> ip in
            let ip := <[S i := at_ ip4 13]> ip in
            let ip := <[S (S i) := at_ ip4 14]> ip in
            let ip := <[S (S (S i)) := at_ ip4 15]> ip in
            Some (V6 ip (i + IPv4len) [] ellipsis, false)
      else
        let ip := <[i := byte (Z.shiftr n 8)]> ip in
        let ip := <[S i := byte n]> ip in
        let i := (i + 2)%nat in
        let s := skipn c s in
        match s with
        | [] => Some (V6 ip i s ellipsis, false)
        | c0 :: s1 =>
            if negb (Ascii.eqb c0 ":") || Nat.eqb (List.length s) 1 then None
            else
              if Ascii.eqb (hd "000"%char s1) ":" then
                match ellipsis with
                | Some _ => None
                | None =>
                    let s2 := skipn 1 s1 in
                    match s2 with
                    | [] => Some (V6 ip i s2 (Some i), false)
                    | _ => Some (V6 ip i s2 (Some i), true)
                    end
                end
              else Some (V6 ip i s1 ellipsis, true)
        end
  end.

(** [for i < IPv6len]: every pass that goes on adds 2 to [i], so 8 passes
    are enough; [k] counts them. *)
Fixpoint parseIPv6_loop (k : nat) (st : v6state) : option v6state :=
  match k with
  | O => Some st
  | S k' =>
      if Nat.ltb (v6_i st) IPv6len then
        match parseIPv6_step st with
        | None => None
        | Some (st', true) => parseIPv6_loop k' st'
        | Some (st', false) => Some st'
        end
      else Some st
  end.

(** [for j := i - 1; j >= ellipsis; j-- { ip[j+n] = ip[j] }], [cnt] being
    the number of indices left to move. *)
Fixpoint move_up (cnt j n : nat) (ip : list Z) : list Z :=
  match cnt with
  | O => ip
  | S cnt' => move_up cnt' (j - 1) n (<[(j + n)%nat := at_ ip j]> ip)
  end.

(** [for j := ellipsis + n - 1; j >= ellipsis; j-- { ip[j] = 0 }]. *)
Fixpoint zero_fill (cnt j : nat) (ip : list Z) : list Z :=
  match cnt with
  | O => ip
  | S cnt' => zero_fill cnt' (j - 1) (<[j := 0]> ip)
  end.

Definition parseIPv6 (s0 : list ascii) : IP :=
  let ip0 := repeat 0 IPv6len in
  let start :=
    match s0 with
    | ":"%char :: ":"%char :: s => (Some 0%nat, s)
    | _ => (None, s0)
    end in
  let '(ellipsis, s) := start in
  match ellipsis, s with
  | Some _, [] => ip0
  | _, _ =>
      match parseIPv6_loop 8 (V6 ip0 0 s ellipsis) with
      | None => []
      | Some (V6 ip i s ellipsis) =>
          match s with
          | _ :: _ => []
          | [] =>
              if Nat.ltb i IPv6len then
                match ellipsis with
                | None => []
                | Some e =>
                    let n := (IPv6len - i)%nat in
                    let ip := move_up (i - e) (i - 1) n ip in
                    zero_fill n (e + n - 1) ip
                end
              else
                match ellipsis with
                | Some _ => []
                | None => ip
                end
          end
      end
  end.

(** [net.ParseIP]: the first '.' or ':' decides the family. *)
Fixpoint ParseIP_scan (whole rest : list ascii) : IP :=
  match rest with
  | [] => []
  | c :: t =>
      if Ascii.eqb c "." then parseIPv4 whole
      else if Ascii.eqb c ":" then parseIPv6 whole
      else ParseIP_scan whole t
  end.

Definition ParseIP (s : string) : IP :=
  let l := list_ascii_of_string s in ParseIP_scan l l.

(** [CIDRMask(ones, bits)] for [bits] 32 or 128 and [0 <= ones <= bits]. *)
Fixpoint CIDRMask_loop (l : nat) (n : Z) : list Z :=
  match l with
  | O => []
  | S l' =>
      if n >=? 8 then 255 :: CIDRMask_loop l' (n - 8)
      else Z.lxor 255 (Z.shiftr 255 n) :: CIDRMask_loop l' 0
  end.

Definition CIDRMask (ones : Z) (bits : nat) : IPMask :=
  if negb (Nat.eqb bits (8 * IPv4len)) && negb (Nat.eqb bits (8 * IPv6len)) then []
  else if (ones <? 0) || (ones >? Z.of_nat bits) then []
  else CIDRMask_loop (bits / 8) ones.

Definition allFF (p : list Z) : bool := forallb (Z.eqb 255) p.

Definition IP_Mask (ip : IP) (mask : IPMask) : IP :=
  let mask :=
    if Nat.eqb (List.length mask) IPv6len && Nat.eqb (List.length ip) IPv4len
       && allFF (firstn 12 mask)
    then skipn 12 mask else mask in
  let ip :=
    if Nat.eqb (List.length mask) IPv4len && Nat.eqb (List.length ip) IPv6len
       && list_eqb (firstn 12 ip) v4InV6Prefix
    then skipn 12 ip else ip in
  if negb (Nat.eqb (List.length ip) (List.length mask)) then []
  else map (fun '(b, m) => Z.land b m) (combine ip mask).

Fixpoint index_byte (c : ascii) (s : list ascii) : option nat :=
  match s with
  | [] => None
  | d :: t => if Ascii.eqb c d then Some 0%nat else option_map S (index_byte c t)
  end.

(** [net.ParseCIDR]: [None] stands for the error result. *)
Definition ParseCIDR (s : string) : option IPNet :=
  let l := list_ascii_of_string s in
  match index_byte "/" l with
  | None => None
  | Some i =>
      let addr := firstn i l in
      let mask := skipn (S i) l in
      let ip4 := parseIPv4 addr in
      let '(iplen, ip) :=
        if is_nil ip4 then (IPv6len, parseIPv6 addr) else (IPv4len, ip4) in
      match dtoi mask with
      | None => None
      | Some (n, j) =>
          if is_nil ip || negb (Nat.eqb j (List.length mask))
             || (n <? 0) || (n >? Z.of_nat (8 * iplen))
          then None
          else
            let m := CIDRMask n (8 * iplen) in
            Some (mkIPNet (IP_Mask ip m) m)
      end
  end.

Definition networkNumberAndMask (n : IPNet) : IP * IPMask :=
  let ip4 := To4 (net_IP n) in
  let ip := if is_nil ip4 then net_IP n else ip4 in
  if is_nil ip4 && negb (Nat.eqb (List.length ip) IPv6len) then ([], [])
  else if Nat.eqb (List.length (net_Mask n)) IPv4len then
    if negb (Nat.eqb (List.length ip) IPv4len) then ([], [])
    else (ip, net_Mask n)
  else if Nat.eqb (List.length (net_Mask n)) IPv6len then
    if Nat.eqb (List.length ip) IPv4len then (ip, skipn 12 (net_Mask n))
    else (ip, net_Mask n)
  else ([], []).

(** [IPNet.Contains]. *)
Definition Contains (n : IPNet) (ip : IP) : bool :=
  let '(nn, m) := networkNumberAndMask n in
  let x := To4 ip in
  let ip := if negb (is_nil x) then x else ip in
  if negb (Nat.eqb (List.length ip) (List.length nn)) then false
  else
    forallb (fun '(a, b, k) => Z.eqb (Z.land a k) (Z.land b k))
            (combine (combine nn ip) m).

End Net.

(** ** The parts of Go's [strings] package the server calls *)

Module strings.

Import Regexp.

Definition map_string (f : ascii -> ascii) (s : string) : string :=
  string_of_list_ascii (map f (list_ascii_of_string s)).

(** [strings.ToLower] on text of 7-bit bytes, where it maps the letters
    A-Z to a-z and leaves every other byte.  On other text Go decodes
    runes, lower-cases each and encodes them again (a byte that is no
    UTF-8 becomes U+FFFD); such text is not modelled, and the bytes from
    128 on are left as they are. *)
Definition ToLower (s : string) : string := map_string lower_ascii s.

(** [strings.Replace(s, old, new, -1)] for one-byte [old] and [new]. *)
Definition ReplaceByte (s : string) (old new : ascii) : string :=
  map_string (fun c => if Ascii.eqb c old then new else c) s.

(** [strings.Split(s, sep)] for a one-byte separator: the pieces between
    the separators, so one more piece than there are separators. *)
Fixpoint split_on (sep : ascii) (s : list ascii) : list (list ascii) :=
  match s with
  | [] => [[]]
  | c :: t =>
      match split_on sep t with
      | p :: ps => if Ascii.eqb c sep then [] :: p :: ps else (c :: p) :: ps
      | [] => [[c]]
      end
  end.

Definition Split (s : string) (sep : ascii) : list string :=
  map string_of_list_ascii (split_on sep (list_ascii_of_string s)).

(** [strings.Join(elems, sep)]. *)
Fixpoint Join (elems : list string) (sep : string) : string :=
  match elems with
  | [] => EmptyString
  | [e] => e
  | e :: rest => e ++ sep ++ Join rest sep
  end.

Fixpoint has_prefix (p s : list ascii) : bool :=
  match p, s with
  | [], _ => true
  | a :: p', b :: s' => Ascii.eqb a b && has_prefix p' s'
  | _ :: _, [] => false
  end.

Fixpoint contains (s sub : list ascii) : bool :=
  has_prefix sub s ||
  match s with
  | [] => false
  | _ :: t => contains t sub
  end.

(** [strings.Contains(s, substr)]. *)
Definition Contains (s substr : string) : bool :=
  contains (list_ascii_of_string s) (list_ascii_of_string substr).

End strings.

(** ** The parts of [golang.org/x/net/dns/dnsmessage] the server uses *)

Module dnsmessage.

(** A [Name] is the string of its first [Length] bytes. *)
Definition Name : Type := string.

Definition nameLen : nat := 255.

(** [NewName]: the zero [Name] and an error for more than 255 bytes. *)
Definition NewName (name : string) : Name * bool :=
  if Nat.ltb nameLen (String.length name) then (EmptyString, false)
  else (name, true).

(** [Type] is a [uint16]; [TypeOther] stands for every value without a
    case of its own in the dispatcher. *)
Inductive Type_ : Type :=
| TypeA | TypeNS | TypeCNAME | TypeSOA | TypeMX | TypeTXT | TypeAAAA | TypeALL
| TypeOther (n : Z).

Definition ClassINET : Z := 1.

Inductive RCode : Type := RCodeSuccess | RCodeNotImplemented.

Record Header : Type := mkHeader {
  ID : Z;
  Response : bool;
  OpCode : Z;
  Authoritative : bool;
  Truncated : bool;
  RecursionDesired : bool;
  RecursionAvailable : bool;
  RCode_ : RCode
}.

Record Question : Type := mkQuestion { QName : Name; QType : Type_; QClass : Z }.

Record ResourceHeader : Type := mkResourceHeader {
  Name_ : Name;
  Type__ : Type_;
  Class : Z;
  TTL : Z;
  Length : Z
}.

Record AResource : Type := mkA { A : list Z }.
Record AAAAResource : Type := mkAAAA { AAAA : list Z }.
Record CNAMEResource : Type := mkCNAME { CNAME : Name }.
Record MXResource : Type := mkMX { Pref : Z; MX : Name }.
Record NSResource : Type := mkNS { NS : Name }.
Record TXTResource : Type := mkTXT { TXT : list string }.
Record SOAResource : Type := mkSOA {
  SOA_NS : Name;
  MBox : Name;
  Serial : Z;
  Refresh : Z;
  Retry : Z;
  Expire : Z;
  MinTTL : Z
}.

(** A resource body, tagged with its kind. *)
Inductive ResourceBody : Type :=
| BodyA (r : AResource)
| BodyAAAA (r : AAAAResource)
| BodyCNAME (r : CNAMEResource)
| BodyMX (r : MXResource)
| BodyNS (r : NSResource)
| BodySOA (r : SOAResource)
| BodyTXT (r : TXTResource).

(** [realType] of a resource body. *)
Definition realType (b : ResourceBody) : Type_ :=
  match b with
  | BodyA _ => TypeA
  | BodyAAAA _ => TypeAAAA
  | BodyCNAME _ => TypeCNAME
  | BodyMX _ => TypeMX
  | BodyNS _ => TypeNS
  | BodySOA _ => TypeSOA
  | BodyTXT _ => TypeTXT
  end.

(** A resource record as it is written to the message. *)
Record Resource : Type := mkResource { RHeader : ResourceHeader; Body : ResourceBody }.

Inductive section : Type :=
| sectionNotStarted | sectionHeader | sectionQuestions | sectionAnswers
| sectionAuthorities | sectionAdditionals | sectionDone.

Definition section_rank (s : section) : nat :=
  match s with
  | sectionNotStarted => 0
  | sectionHeader => 1
  | sectionQuestions => 2
  | sectionAnswers => 3
  | sectionAuthorities => 4
  | sectionAdditionals => 5
  | sectionDone => 6
  end.

(** The message under construction.  Packing to bytes is outside the
    model, and with it the packing errors (a name that is not in
    canonical form, a TXT string above 255 bytes, a section above 65535
    records): a [Builder] holds the records of each section. *)
Record Builder : Type := mkBuilder {
  b_header : Header;
  b_section : section;
  b_questions : list Question;
  b_answers : list Resource;
  b_authorities : list Resource;
  b_additionals : list Resource
}.

Inductive error : Type :=
| ErrNotStarted
| ErrSectionDone
| errors_New (msg : string)
| fmt_Errorf (msg : string) (wrapped : string).

Definition errNonCanonicalName : error :=
  errors_New "name is not in canonical format (it must end with a .)".
Definition errSegTooLong : error := errors_New "segment length too long".
Definition errZeroSegLen : error := errors_New "zero length segment".

(** The loop of [Name.pack] over the segments that the dots of the name
    close, in turn: a segment of 64 bytes or more, or of none, is
    refused. *)
Fixpoint pack_segments (segs : list (list ascii)) : option error :=
  match segs with
  | [] => None
  | seg :: rest =>
      if Nat.leb 64 (List.length seg) then Some errSegTooLong
      else if Nat.eqb (List.length seg) 0 then Some errZeroSegLen
      else pack_segments rest
  end.

(** The error of [Name.pack], [None] for none: the name must end with a
    dot; the root name is allowed; every other name goes through the
    loop.  This is the answer when no suffix of the name is in the
    compression table; a suffix found there is written as a pointer and
    its segments are not looked at, so that a name accepted here is
    accepted with any table, and a name that does not end with a dot is
    refused with any table. *)
Definition Name_pack (n : Name) : option error :=
  let l := list_ascii_of_string n in
  match rev l with
  | [] => Some errNonCanonicalName
  | c :: _ =>
      if negb (Ascii.eqb c ".") then Some errNonCanonicalName
      else if Nat.eqb (List.length l) 1 then None
      else pack_segments (removelast (strings.split_on "." l))
  end.

Definition NewBuilder (h : Header) : Builder :=
  mkBuilder h sectionHeader [] [] [] [].

(** [startCheck] followed by the change of section. *)
Definition start (s : section) (b : Builder) : Builder + error :=
  if Nat.leb (section_rank (b_section b)) (section_rank sectionNotStarted)
  then inr ErrNotStarted
  else if Nat.ltb (section_rank s) (section_rank (b_section b))
  then inr ErrSectionDone
  else inl (mkBuilder (b_header b) s (b_questions b) (b_answers b)
                      (b_authorities b) (b_additionals b)).

Definition StartQuestions := start sectionQuestions.
Definition StartAnswers := start sectionAnswers.
Definition StartAuthorities := start sectionAuthorities.
Definition StartAdditionals := start sectionAdditionals.

Definition Question_ (q : Question) (b : Builder) : Builder + error :=
  if Nat.ltb (section_rank (b_section b)) (section_rank sectionQuestions)
  then inr ErrNotStarted
  else if Nat.ltb (section_rank sectionQuestions) (section_rank (b_section b))
  then inr ErrSectionDone
  else inl (mkBuilder (b_header b) (b_section b) (b_questions b ++ [q])
                      (b_answers b) (b_authorities b) (b_additionals b)).

(** Every [Builder.XResource(h, r)] method: [checkResourceSection], then
    [h.Type = r.realType()] (the builder sets the type of the header from
    the resource, whatever the caller wrote there), then the record is
    added to the current section.  The packing of the record is not
    part of this function: [Name_pack] says which names it refuses; it
    also refuses a TXT string above 255 bytes and a section above 65535
    records. *)
Definition add_resource (h : ResourceHeader) (r : ResourceBody) (b : Builder)
  : Builder + error :=
  let h := mkResourceHeader (Name_ h) (realType r) (Class h) (TTL h) (Length h) in
  let rec := mkResource h r in
  match b_section b with
  | sectionNotStarted | sectionHeader | sectionQuestions => inr ErrNotStarted
  | sectionAnswers =>
      inl (mkBuilder (b_header b) (b_section b) (b_questions b)
                     (b_answers b ++ [rec]) (b_authorities b) (b_additionals b))
  | sectionAuthorities =>
      inl (mkBuilder (b_header b) (b_section b) (b_questions b)
                     (b_answers b) (b_authorities b ++ [rec]) (b_additionals b))
  | sectionAdditionals =>
      inl (mkBuilder (b_header b) (b_section b) (b_questions b)
                     (b_answers b) (b_authorities b) (b_additionals b ++ [rec]))
  | sectionDone => inr ErrSectionDone
  end.

Definition AResource_ h r := add_resource h (BodyA r).
Definition AAAAResource_ h r := add_resource h (BodyAAAA r).
Definition CNAMEResource_ h r := add_resource h (BodyCNAME r).
Definition MXResource_ h r := add_resource h (BodyMX r).
Definition NSResource_ h r := add_resource h (BodyNS r).
Definition SOAResource_ h r := add_resource h (BodySOA r).
Definition TXTResource_ h r := add_resource h (BodyTXT r).

(** [Builder.Finish] up to packing. *)
Definition Finish (b : Builder) : Builder + error :=
  if Nat.ltb (section_rank (b_section b)) (section_rank sectionHeader)
  then inr ErrNotStarted
  else inl (mkBuilder (b_header b) sectionDone (b_questions b) (b_answers b)
                      (b_authorities b) (b_additionals b)).

End dnsmessage.

(** ** Package [xip] *)

(** What a call leaves behind besides the state: a value, a Go [error], or
    a run-time panic (an index out of range). *)
Inductive result (T : Type) : Type :=
| Ok (v : T)
| Err (e : dnsmessage.error)
| Panic.
Arguments Ok {T} v.
Arguments Err {T} e.
Arguments Panic {T}.

(** Go's [int] on the 64-bit targets of the server. *)
Definition wrap64 (z : Z) : Z := (z + 2 ^ 63) mod 2 ^ 64 - 2 ^ 63.
Definition incr (z : Z) : Z := wrap64 (z + 1).

(** The [V3client] interface: a client over some store, whose calls may
    fail.  [etcd_Get] yields the values of [resp.Kvs]. *)
Record V3client : Type := mkV3client {
  etcd : Type;
  etcd_state : etcd;
  etcd_Get : etcd -> string -> etcd * (list string + string);
  etcd_Put : etcd -> string -> string -> etcd * option string;
  etcd_Delete : etcd -> string -> etcd * option string
}.

Record Metrics : Type := mkMetrics {
  Start : Z;
  Queries : Z;
  AnsweredQueries : Z;
  AnsweredAQueries : Z;
  AnsweredAAAAQueries : Z;
  AnsweredTXTSrcIPQueries : Z;
  AnsweredXTVersionQueries : Z;
  AnsweredNSDNS01ChallengeQueries : Z;
  AnsweredBlockedQueries : Z
}.

(** [Xip]; the channel [DnsAmplificationAttackDelay] is the number of
    tokens waiting in it. *)
Record Xip : Type := mkXip {
  Etcd : option V3client;
  DnsAmplificationAttackDelay : nat;
  Metrics_ : Metrics;
  BlocklistStrings : list string;
  BlocklistCDIRs : list Net.IPNet;
  BlocklistUpdated : Z
}.

Definition set_Metrics (x : Xip) (m : Metrics) : Xip :=
  mkXip (Etcd x) (DnsAmplificationAttackDelay x) m (BlocklistStrings x)
        (BlocklistCDIRs x) (BlocklistUpdated x).

Definition set_Etcd (x : Xip) (e : option V3client) : Xip :=
  mkXip e (DnsAmplificationAttackDelay x) (Metrics_ x) (BlocklistStrings x)
        (BlocklistCDIRs x) (BlocklistUpdated x).

(** [x.Metrics.Queries++] and its like. *)
Definition incQueries (x : Xip) : Xip :=
  let m := Metrics_ x in
  set_Metrics x (mkMetrics (Start m) (incr (Queries m)) (AnsweredQueries m)
    (AnsweredAQueries m) (AnsweredAAAAQueries m) (AnsweredTXTSrcIPQueries m)
    (AnsweredXTVersionQueries m) (AnsweredNSDNS01ChallengeQueries m)
    (AnsweredBlockedQueries m)).
Definition incAnsweredQueries (x : Xip) : Xip :=
  let m := Metrics_ x in
  set_Metrics x (mkMetrics (Start m) (Queries m) (incr (AnsweredQueries m))
    (AnsweredAQueries m) (AnsweredAAAAQueries m) (AnsweredTXTSrcIPQueries m)
    (AnsweredXTVersionQueries m) (AnsweredNSDNS01ChallengeQueries m)
    (AnsweredBlockedQueries m)).
Definition incAnsweredAQueries (x : Xip) : Xip :=
  let m := Metrics_ x in
  set_Metrics x (mkMetrics (Start m) (Queries m) (AnsweredQueries m)
    (incr (AnsweredAQueries m)) (AnsweredAAAAQueries m) (AnsweredTXTSrcIPQueries m)
    (AnsweredXTVersionQueries m) (AnsweredNSDNS01ChallengeQueries m)
    (AnsweredBlockedQueries m)).
Definition incAnsweredAAAAQueries (x : Xip) : Xip :=
  let m := Metrics_ x in
  set_Metrics x (mkMetrics (Start m) (Queries m) (AnsweredQueries m)
    (AnsweredAQueries m) (incr (AnsweredAAAAQueries m)) (AnsweredTXTSrcIPQueries m)
    (AnsweredXTVersionQueries m) (AnsweredNSDNS01ChallengeQueries m)
    (AnsweredBlockedQueries m)).
Definition incAnsweredTXTSrcIPQueries (x : Xip) : Xip :=
  let m := Metrics_ x in
  set_Metrics x (mkMetrics (Start m) (Queries m) (AnsweredQueries m)
    (AnsweredAQueries m) (AnsweredAAAAQueries m) (incr (AnsweredTXTSrcIPQueries m))
    (AnsweredXTVersionQueries m) (AnsweredNSDNS01ChallengeQueries m)
    (AnsweredBlockedQueries m)).
Definition incAnsweredXTVersionQueries (x : Xip) : Xip :=
  let m := Metrics_ x in
  set_Metrics x (mkMetrics (Start m) (Queries m) (AnsweredQueries m)
    (AnsweredAQueries m) (AnsweredAAAAQueries m) (AnsweredTXTSrcIPQueries m)
    (incr (AnsweredXTVersionQueries m)) (AnsweredNSDNS01ChallengeQueries m)
    (AnsweredBlockedQueries m)).
Definition incAnsweredNSDNS01ChallengeQueries (x : Xip) : Xip :=
  let m := Metrics_ x in
  set_Metrics x (mkMetrics (Start m) (Queries m) (AnsweredQueries m)
    (AnsweredAQueries m) (AnsweredAAAAQueries m) (AnsweredTXTSrcIPQueries m)
    (AnsweredXTVersionQueries m) (incr (AnsweredNSDNS01ChallengeQueries m))
    (AnsweredBlockedQueries m)).
Definition incAnsweredBlockedQueries (x : Xip) : Xip :=
  let m := Metrics_ x in
  set_Metrics x (mkMetrics (Start m) (Queries m) (AnsweredQueries m)
    (AnsweredAQueries m) (AnsweredAAAAQueries m) (AnsweredTXTSrcIPQueries m)
    (AnsweredXTVersionQueries m) (AnsweredNSDNS01ChallengeQueries m)
    (incr (AnsweredBlockedQueries m))).

(** The [TXT] field of a customization, a function of the server and the
    source address to TXT records and an error; it may update the
    metrics. *)
Definition TXTFunc : Type :=
  Xip -> Net.IP -> Xip * result (list dnsmessage.TXTResource).

(** [DomainCustomization]; a nil [TXT] is [None], the zero [CNAME] is the
    empty name. *)
Record DomainCustomization : Type := mkDomainCustomization {
  A : list dnsmessage.AResource;
  AAAA : list dnsmessage.AAAAResource;
  CNAME : dnsmessage.CNAMEResource;
  MX : list dnsmessage.MXResource;
  TXT : option TXTFunc
}.

Abbreviation DomainCustomizations := (gmap string DomainCustomization).
Abbreviation KvCustomizations := (gmap string (list dnsmessage.TXTResource)).

(** The zero value and the fields a table entry sets. *)
Definition noCustomization : DomainCustomization :=
  mkDomainCustomization [] [] (dnsmessage.mkCNAME EmptyString) [] None.

Definition ipv4REDots : Regexp.re := Eval vm_compute in
  Regexp.MustCompile "(^|[.-])(((25[0-5]|(2[0-4]|1?[0-9])?[0-9])\.){3}(25[0-5]|(2[0-4]|1?[0-9])?[0-9]))($|[.-])".
Definition ipv4REDashes : Regexp.re := Eval vm_compute in
  Regexp.MustCompile "(^|[.-])(((25[0-5]|(2[0-4]|1?[0-9])?[0-9])-){3}(25[0-5]|(2[0-4]|1?[0-9])?[0-9]))($|[.-])".
Definition ipv6RE : Regexp.re := Eval vm_compute in
  Regexp.MustCompile "(^|[.-])(([0-9a-fA-F]{1,4}-){7}[0-9a-fA-F]{1,4}|([0-9a-fA-F]{1,4}-){1,7}-|([0-9a-fA-F]{1,4}-){1,6}-[0-9a-fA-F]{1,4}|([0-9a-fA-F]{1,4}-){1,5}(-[0-9a-fA-F]{1,4}){1,2}|([0-9a-fA-F]{1,4}-){1,4}(-[0-9a-fA-F]{1,4}){1,3}|([0-9a-fA-F]{1,4}-){1,3}(-[0-9a-fA-F]{1,4}){1,4}|([0-9a-fA-F]{1,4}-){1,2}(-[0-9a-fA-F]{1,4}){1,5}|[0-9a-fA-F]{1,4}-((-[0-9a-fA-F]{1,4}){1,6})|-((-[0-9a-fA-F]{1,4}){1,7}|-)|fe80-(-[0-9a-fA-F]{0,4}){0,4}%[0-9a-zA-Z]+|--(ffff(-0{1,4})?-)?((25[0-5]|(2[0-4]|1?[0-9])?[0-9])\.){3}(25[0-5]|(2[0-4]|1?[0-9])?[0-9])|([0-9a-fA-F]{1,4}-){1,4}-((25[0-5]|(2[0-4]|1?[0-9])?[0-9])\.){3}(25[0-5]|(2[0-4]|1?[0-9])?[0-9]))($|[.-])".
Definition dns01ChallengeRE : Regexp.re := Eval vm_compute in
  Regexp.MustCompile "(?i)_acme-challenge\.".
Definition kvRE : Regexp.re := Eval vm_compute in
  Regexp.MustCompile "\.k-v\.io\.$".

Definition nsAwsSslip : dnsmessage.Name := "ns-aws.sslip.io.".
Definition nsAzureSslip : dnsmessage.Name := "ns-azure.sslip.io.".
Definition nsGceSslip : dnsmessage.Name := "ns-gce.sslip.io.".
Definition NameServers : list dnsmessage.NSResource :=
  [dnsmessage.mkNS nsAwsSslip; dnsmessage.mkNS nsAzureSslip; dnsmessage.mkNS nsGceSslip].

Definition mbox : dnsmessage.Name := "briancunnie.gmail.com.".
Definition mx1 : dnsmessage.Name := "mail.protonmail.ch.".
Definition mx2 : dnsmessage.Name := "mailsec.protonmail.ch.".
Definition dkim1 : dnsmessage.Name :=
  "protonmail.domainkey.dw4gykv5i2brtkjglrf34wf6kbxpa5hgtmg2xqopinhgxn5axo73a.domains.proton.ch.".
Definition dkim2 : dnsmessage.Name :=
  "protonmail2.domainkey.dw4gykv5i2brtkjglrf34wf6kbxpa5hgtmg2xqopinhgxn5axo73a.domains.proton.ch.".
Definition dkim3 : dnsmessage.Name :=
  "protonmail3.domainkey.dw4gykv5i2brtkjglrf34wf6kbxpa5hgtmg2xqopinhgxn5axo73a.domains.proton.ch.".

Definition VersionSemantic : string := "0.0.0".
Definition VersionDate : string := "0001/01/01-99:99:99-0800".
Definition VersionGitHash : string := "cafexxx".

Definition txt1 (s : string) : dnsmessage.TXTResource := dnsmessage.mkTXT [s].

(** [Customizations] as the package initialises it.  Two of its TXT
    functions depend on code outside the model and are arguments here:
    [ipString] is [net.IP.String], used by [ipSslipIo], and
    [metricsSslipIo] formats the uptime from the wall clock after taking
    a token from the channel. *)
Definition ipSslipIo (ipString : Net.IP -> string) : TXTFunc :=
  fun x srcAddr => (incAnsweredTXTSrcIPQueries x, Ok [txt1 (ipString srcAddr)]).

Definition Customizations (ipString : Net.IP -> string) (metricsSslipIo : TXTFunc)
  : DomainCustomizations :=
  list_to_map [
    ("sslip.io.",
     mkDomainCustomization
       [dnsmessage.mkA [78; 46; 204; 247]]
       [dnsmessage.mkAAAA [42; 1; 4; 248; 12; 23; 11; 143; 0; 0; 0; 0; 0; 0; 0; 2]]
       (dnsmessage.mkCNAME EmptyString)
       [dnsmessage.mkMX 10 mx1; dnsmessage.mkMX 20 mx2]
       (Some (fun x _ =>
          (x, Ok [txt1 "protonmail-verification=ce0ca3f5010aa7a2cf8bcc693778338ffde73e26";
                  txt1 "v=spf1 include:_spf.protonmail.ch mx ~all"]))));
    ("ns.sslip.io.",
     mkDomainCustomization
       [dnsmessage.mkA [52; 0; 56; 137]; dnsmessage.mkA [52; 187; 42; 158];
        dnsmessage.mkA [104; 155; 144; 4]]
       [dnsmessage.mkAAAA [38; 0; 31; 24; 10; 175; 105; 0; 0; 0; 0; 0; 0; 0; 0; 10]]
       (dnsmessage.mkCNAME EmptyString) [] None);
    ("ns-aws.sslip.io.",
     mkDomainCustomization
       [dnsmessage.mkA [52; 0; 56; 137]]
       [dnsmessage.mkAAAA [38; 0; 31; 24; 10; 175; 105; 0; 0; 0; 0; 0; 0; 0; 0; 10]]
       (dnsmessage.mkCNAME EmptyString) [] None);
    ("ns-azure.sslip.io.",
     mkDomainCustomization [dnsmessage.mkA [52; 187; 42; 158]] []
       (dnsmessage.mkCNAME EmptyString) [] None);
    ("ns-gce.sslip.io.",
     mkDomainCustomization [dnsmessage.mkA [104; 155; 144; 4]] []
       (dnsmessage.mkCNAME EmptyString) [] None);
    ("protonmail._domainkey.sslip.io.",
     mkDomainCustomization [] [] (dnsmessage.mkCNAME dkim1) [] None);
    ("protonmail2._domainkey.sslip.io.",
     mkDomainCustomization [] [] (dnsmessage.mkCNAME dkim2) [] None);
    ("protonmail3._domainkey.sslip.io.",
     mkDomainCustomization [] [] (dnsmessage.mkCNAME dkim3) [] None);
    ("ip.sslip.io.",
     mkDomainCustomization [] [] (dnsmessage.mkCNAME EmptyString) []
       (Some (ipSslipIo ipString)));
    ("version.status.sslip.io.",
     mkDomainCustomization [] [] (dnsmessage.mkCNAME EmptyString) []
       (Some (fun x _ =>
          (incAnsweredXTVersionQueries x,
           Ok [txt1 VersionSemantic; txt1 VersionDate; txt1 VersionGitHash]))));
    ("metrics.status.sslip.io.",
     mkDomainCustomization [] [] (dnsmessage.mkCNAME EmptyString) []
       (Some metricsSslipIo))
  ].

(** [Response]: the header and, per section, the functions that write
    the records once the header is final. *)
Definition writer : Type := dnsmessage.Builder -> dnsmessage.Builder + dnsmessage.error.

Record Response : Type := mkResponse {
  Header : dnsmessage.Header;
  Answers : list writer;
  Authorities : list writer;
  Additionals : list writer
}.

(** One writer after another, stopping at the first error. *)
Definition andThen (w1 w2 : writer) : writer :=
  fun b => match w1 b with inl b' => w2 b' | inr e => inr e end.

(** [for _, r := range rs { if err := write(r); err != nil { return err } }]. *)
Fixpoint write_each {T : Type} (write : T -> writer) (rs : list T) : writer :=
  fun b =>
    match rs with
    | [] => inl b
    | r :: rs' =>
        match write r b with
        | inl b' => write_each write rs' b'
        | inr e => inr e
        end
    end.

(** [NameToA]: the customized A records, else at most one record read
    off the name, the dashed form tried before the dotted one. *)
Fixpoint NameToA_regexps (res : list Regexp.re) (fqdnString : string)
  : list dnsmessage.AResource :=
  match res with
  | [] => []
  | ipv4RE :: res' =>
      if Regexp.MatchString ipv4RE fqdnString then
        match Regexp.FindSubmatch false ipv4RE fqdnString 2 with
        | Some match_ =>
            let match_ := strings.ReplaceByte match_ "-" "." in
            let ipv4address := Net.To4 (Net.ParseIP match_) in
            if Net.is_nil ipv4address then []
            else [dnsmessage.mkA [Net.at_ ipv4address 0; Net.at_ ipv4address 1;
                                  Net.at_ ipv4address 2; Net.at_ ipv4address 3]]
        | None => []
        end
      else NameToA_regexps res' fqdnString
  end.

Definition NameToA (cz : DomainCustomizations) (fqdnString : string)
  : list dnsmessage.AResource :=
  match cz !! strings.ToLower fqdnString with
  | Some domain =>
      if Nat.ltb 0 (List.length (A domain)) then A domain
      else NameToA_regexps [ipv4REDashes; ipv4REDots] fqdnString
  | None => NameToA_regexps [ipv4REDashes; ipv4REDots] fqdnString
  end.

(** [NameToAAAA].  [ipv6RE.Longest()] runs before every [FindSubmatch], so
    the submatch is always the leftmost-longest one. *)
Definition NameToAAAA_regexp (fqdnString : string) : list dnsmessage.AAAAResource :=
  if negb (Regexp.MatchString ipv6RE fqdnString) then []
  else
    match Regexp.FindSubmatch true ipv6RE fqdnString 2 with
    | Some match_ =>
        let match_ := strings.ReplaceByte match_ "-" ":" in
        let ipv16address := Net.To16 (Net.ParseIP match_) in
        if Net.is_nil ipv16address then []
        else [dnsmessage.mkAAAA ipv16address]
    | None => []
    end.

Definition NameToAAAA (cz : DomainCustomizations) (fqdnString : string)
  : list dnsmessage.AAAAResource :=
  match cz !! strings.ToLower fqdnString with
  | Some domain =>
      if Nat.ltb 0 (List.length (AAAA domain)) then AAAA domain
      else NameToAAAA_regexp fqdnString
  | None => NameToAAAA_regexp fqdnString
  end.

(** [CNAMEResource]: the customized CNAME, [None] for nil. *)
Definition CNAMEResource (cz : DomainCustomizations) (fqdnString : string)
  : option dnsmessage.CNAMEResource :=
  match cz !! strings.ToLower fqdnString with
  | Some domain =>
      if negb (String.eqb (dnsmessage.CNAME (CNAME domain)) EmptyString)
      then Some (CNAME domain) else None
  | None => None
  end.

(** [MXResources]; the error of [NewName] is dropped, as in the source. *)
Definition MXResources (cz : DomainCustomizations) (fqdnString : string)
  : list dnsmessage.MXResource :=
  let default :=
    let mx := fst (dnsmessage.NewName fqdnString) in
    [dnsmessage.mkMX 0 mx] in
  match cz !! strings.ToLower fqdnString with
  | Some domain =>
      if Nat.ltb 0 (List.length (MX domain)) then MX domain else default
  | None => default
  end.

Definition IsAcmeChallenge (cz : DomainCustomizations) (fqdnString : string) : bool :=
  if Regexp.MatchString dns01ChallengeRE fqdnString then
    let ipv4s := NameToA cz fqdnString in
    let ipv6s := NameToAAAA cz fqdnString in
    if Nat.ltb 0 (List.length ipv4s) || Nat.ltb 0 (List.length ipv6s) then true
    else false
  else false.

(** [x.blocklist]: [ip] starts as nil and takes the only A record, then
    the only AAAA record. *)
Definition blocklist_ip (aResources : list dnsmessage.AResource)
    (aaaaResources : list dnsmessage.AAAAResource) : Net.IP :=
  let ip : Net.IP := [] in
  let ip :=
    match aResources with
    | [a] => dnsmessage.A a
    | _ => ip
    end in
  match aaaaResources with
  | [aaaa] => dnsmessage.AAAA aaaa
  | _ => ip
  end.

Definition blocklist (cz : DomainCustomizations) (x : Xip) (hostname : string) : bool :=
  let aResources := NameToA cz hostname in
  let aaaaResources := NameToAAAA cz hostname in
  let ip := blocklist_ip aResources aaaaResources in
  if Nat.eqb (List.length aResources) 0 && Nat.eqb (List.length aaaaResources) 0
  then false
  else if Net.IsPrivate ip then false
  else if existsb (fun blockstring => strings.Contains hostname blockstring)
                  (BlocklistStrings x) then true
  else if existsb (fun blockCDIR => Net.Contains blockCDIR ip) (BlocklistCDIRs x)
  then true
  else false.

(** [x.NSResources]: the record set and the server with its counters. *)
Definition NSResources (cz : DomainCustomizations) (x : Xip) (fqdnString : string)
  : Xip * list dnsmessage.NSResource :=
  if blocklist cz x fqdnString then
    (incAnsweredBlockedQueries (incAnsweredQueries x), NameServers)
  else if IsAcmeChallenge cz fqdnString then
    let x := incAnsweredNSDNS01ChallengeQueries x in
    let strippedFqdn := Regexp.DeleteAllString dns01ChallengeRE fqdnString in
    let ns := fst (dnsmessage.NewName strippedFqdn) in
    (x, [dnsmessage.mkNS ns])
  else (incAnsweredQueries x, NameServers).

(** The server together with the package-level key-value map. *)
Record State : Type := mkState { st_x : Xip; st_kv : KvCustomizations }.

Definition isEtcdNil (x : Xip) : bool :=
  match Etcd x with None => true | Some _ => false end.

Definition with_etcd (st : State) (cli : V3client) (s : etcd cli) : State :=
  mkState
    (set_Etcd (st_x st)
       (Some (mkV3client (etcd cli) s (etcd_Get cli) (etcd_Put cli) (etcd_Delete cli))))
    (st_kv st).

Definition getKv (st : State) (key : string)
  : State * result (list dnsmessage.TXTResource) :=
  match Etcd (st_x st) with
  | None =>
      match st_kv st !! key with
      | Some txtRecord => (st, Ok txtRecord)
      | None => (st, Ok [])
      end
  | Some cli =>
      let '(s, resp) := etcd_Get cli (etcd_state cli) key in
      match resp with
      | inr err => (with_etcd st cli s, Err (dnsmessage.fmt_Errorf "couldn't GET" err))
      | inl (v :: _) => (with_etcd st cli s, Ok [txt1 v])
      | inl [] => (with_etcd st cli s, Ok [])
      end
  end.

(** [value[:63]] when [len(value) > 63]. *)
Definition truncate63 (value : string) : string :=
  if Nat.ltb 63 (String.length value) then String.substring 0 63 value else value.

Definition putKv (st : State) (key value : string)
  : State * result (list dnsmessage.TXTResource) :=
  let value := truncate63 value in
  match Etcd (st_x st) with
  | None =>
      let kv := <[key := [txt1 value]]> (st_kv st) in
      (mkState (st_x st) kv, Ok [txt1 value])
  | Some cli =>
      let '(s, err) := etcd_Put cli (etcd_state cli) key value in
      match err with
      | Some err => (with_etcd st cli s, Err (dnsmessage.fmt_Errorf "couldn't PUT" err))
      | None => (with_etcd st cli s, Ok [txt1 value])
      end
  end.

Definition deleteKv (st : State) (key : string)
  : State * result (list dnsmessage.TXTResource) :=
  match Etcd (st_x st) with
  | None =>
      match st_kv st !! key with
      | Some _ => (mkState (st_x st) (delete key (st_kv st)), Ok [])
      | None => (st, Ok [])
      end
  | Some cli =>
      let '(s, err) := etcd_Delete cli (etcd_state cli) key in
      match err with
      | Some err => (with_etcd st cli s, Err (dnsmessage.fmt_Errorf "couldn't DELETE" err))
      | None => (with_etcd st cli s, Ok [])
      end
  end.

(** [labels[a:b]]. *)
Definition sub_slice {T : Type} (l : list T) (a b : nat) : list T :=
  firstn (b - a) (skipn a l).

(** [x.kvTXTResources]: slicing or indexing out of range panics. *)
Definition kvTXTResources (st : State) (fqdn : string)
  : State * result (list dnsmessage.TXTResource) :=
  let labels := strings.Split fqdn "." in
  if Nat.ltb (List.length labels) 3 then (st, Panic)
  else
    let labels := sub_slice labels 0 (List.length labels - 3) in
    match nth_error labels (List.length labels - 1) with
    | None => (st, Panic)
    | Some lastLabel =>
        let key := strings.ToLower lastLabel in
        let '(verb, value) :=
          if Nat.eqb (List.length labels) 1 then ("get"%string, EmptyString)
          else if Nat.eqb (List.length labels) 2
          then (strings.ToLower (hd EmptyString labels), EmptyString)
          else (strings.ToLower (hd EmptyString labels),
                strings.Join (sub_slice labels 1 (List.length labels - 1)) ".") in
        if String.eqb verb "get" then getKv st key
        else if String.eqb verb "put" then
          if Nat.eqb (List.length labels) 2
          then (st, Ok [txt1 "422: missing a value: put.value.key.k-v.io"])
          else putKv st key value
        else if String.eqb verb "delete" then deleteKv st key
        else (st, Ok [txt1 "422: valid verbs are get, put, delete"])
    end.

(** [x.TXTResources]. *)
Definition TXTResources (cz : DomainCustomizations) (st : State) (fqdn : string)
    (ip : Net.IP) : State * result (list dnsmessage.TXTResource) :=
  if Regexp.MatchString kvRE fqdn then kvTXTResources st fqdn
  else
    match cz !! strings.ToLower fqdn with
    | Some domain =>
        match TXT domain with
        | Some f =>
            let '(x, r) := f (st_x st) ip in (mkState x (st_kv st), r)
        | None => (st, Ok [])
        end
    | None => (st, Ok [])
    end.

(** [SOAResource] and [SOAAuthority]. *)
Definition SOAResource (name : dnsmessage.Name) : dnsmessage.SOAResource :=
  dnsmessage.mkSOA name mbox 2022020800 900 900 1800 180.

Definition SOAAuthority (name : dnsmessage.Name)
  : dnsmessage.ResourceHeader * dnsmessage.SOAResource :=
  (dnsmessage.mkResourceHeader name dnsmessage.TypeSOA dnsmessage.ClassINET 604800 0,
   SOAResource name).

Definition add_Answer (r : Response) (w : writer) : Response :=
  mkResponse (Header r) (Answers r ++ [w]) (Authorities r) (Additionals r).
Definition add_Authority (r : Response) (w : writer) : Response :=
  mkResponse (Header r) (Answers r) (Authorities r ++ [w]) (Additionals r).
Definition add_Additional (r : Response) (w : writer) : Response :=
  mkResponse (Header r) (Answers r) (Authorities r) (Additionals r ++ [w]).
Definition set_Header (r : Response) (h : dnsmessage.Header) : Response :=
  mkResponse h (Answers r) (Authorities r) (Additionals r).

Definition set_Authoritative (h : dnsmessage.Header) (v : bool) : dnsmessage.Header :=
  dnsmessage.mkHeader (dnsmessage.ID h) (dnsmessage.Response h) (dnsmessage.OpCode h)
    v (dnsmessage.Truncated h) (dnsmessage.RecursionDesired h)
    (dnsmessage.RecursionAvailable h) (dnsmessage.RCode_ h).
Definition set_RCode (h : dnsmessage.Header) (v : dnsmessage.RCode) : dnsmessage.Header :=
  dnsmessage.mkHeader (dnsmessage.ID h) (dnsmessage.Response h) (dnsmessage.OpCode h)
    (dnsmessage.Authoritative h) (dnsmessage.Truncated h) (dnsmessage.RecursionDesired h)
    (dnsmessage.RecursionAvailable h) v.

(** The header the handlers give to every record but the SOA authority. *)
Definition rr_header (name : dnsmessage.Name) (t : dnsmessage.Type_) (ttl : Z)
  : dnsmessage.ResourceHeader :=
  dnsmessage.mkResourceHeader name t dnsmessage.ClassINET ttl 0.

(** The authority added when there is nothing to answer. *)
Definition soa_authority_writer (name : dnsmessage.Name) : writer :=
  let '(soaHeader, soaResource) := SOAAuthority name in
  dnsmessage.SOAResource_ soaHeader soaResource.

(** The two functions [x.NSResponse] adds to the response: the NS records,
    and for each name server its A and AAAA records. *)
Definition ns_writer (name : dnsmessage.Name)
    (nameServers : list dnsmessage.NSResource) : writer :=
  write_each (fun nameServer =>
    dnsmessage.NSResource_ (rr_header name dnsmessage.TypeNS 604800) nameServer)
    nameServers.

Definition glue_writer (cz : DomainCustomizations)
    (nameServers : list dnsmessage.NSResource) : writer :=
  write_each (fun nameServer : dnsmessage.NSResource =>
    andThen
      (write_each (fun aResource =>
         dnsmessage.AResource_
           (rr_header (dnsmessage.NS nameServer) dnsmessage.TypeA 604800) aResource)
         (NameToA cz (dnsmessage.NS nameServer)))
      (write_each (fun aaaaResource =>
         dnsmessage.AAAAResource_
           (rr_header (dnsmessage.NS nameServer) dnsmessage.TypeAAAA 604800)
           aaaaResource)
         (NameToAAAA cz (dnsmessage.NS nameServer))))
    nameServers.

(** [x.NSResponse]. *)
Definition NSResponse (cz : DomainCustomizations) (x : Xip) (name : dnsmessage.Name)
    (response : Response) : Xip * result Response :=
  let '(x, nameServers) := NSResources cz x name in
  let response :=
    if dnsmessage.Authoritative (Header response)
    then add_Answer response (ns_writer name nameServers)
    else add_Authority response (ns_writer name nameServers) in
  (x, Ok (add_Additional response (glue_writer cz nameServers))).

(** The sink records of a blocked name: [Customizations["ns-aws.sslip.io."].A[0]]
    and [.AAAA[0]]; [None] where the index is out of range. *)
Definition sinkA (cz : DomainCustomizations) : option dnsmessage.AResource :=
  match cz !! "ns-aws.sslip.io."%string with
  | Some domain => head (A domain)
  | None => None
  end.
Definition sinkAAAA (cz : DomainCustomizations) : option dnsmessage.AAAAResource :=
  match cz !! "ns-aws.sslip.io."%string with
  | Some domain => head (AAAA domain)
  | None => None
  end.

(** [x.nameToAwithBlocklist].  The blocked branch reads the sink record
    when it formats the log line, so a missing sink panics there. *)
Definition nameToAwithBlocklist (cz : DomainCustomizations) (x : Xip)
    (q : dnsmessage.Question) (response : Response) : Xip * result Response :=
  let nameToAs := NameToA cz (dnsmessage.QName q) in
  if Nat.eqb (List.length nameToAs) 0 then
    (x, Ok (add_Authority response (soa_authority_writer (dnsmessage.QName q))))
  else if blocklist cz x (dnsmessage.QName q) then
    let x := incAnsweredBlockedQueries (incAnsweredQueries x) in
    match sinkA cz with
    | None => (x, Panic)
    | Some sink =>
        (x, Ok (add_Answer response
                  (dnsmessage.AResource_
                     (rr_header (dnsmessage.QName q) dnsmessage.TypeA 604800) sink)))
    end
  else
    let x := incAnsweredAQueries (incAnsweredQueries x) in
    (x, Ok (add_Answer response
              (write_each (fun nameToA =>
                 dnsmessage.AResource_
                   (rr_header (dnsmessage.QName q) dnsmessage.TypeA 604800) nameToA)
                 nameToAs))).

(** [x.nameToAAAAwithBlocklist].  The header of the sink record says
    [TypeA], as in the source. *)
Definition nameToAAAAwithBlocklist (cz : DomainCustomizations) (x : Xip)
    (q : dnsmessage.Question) (response : Response) : Xip * result Response :=
  let nameToAAAAs := NameToAAAA cz (dnsmessage.QName q) in
  if Nat.eqb (List.length nameToAAAAs) 0 then
    (x, Ok (add_Authority response (soa_authority_writer (dnsmessage.QName q))))
  else if blocklist cz x (dnsmessage.QName q) then
    let x := incAnsweredBlockedQueries (incAnsweredQueries x) in
    match sinkAAAA cz with
    | None => (x, Panic)
    | Some sink =>
        (x, Ok (add_Answer response
                  (dnsmessage.AAAAResource_
                     (rr_header (dnsmessage.QName q) dnsmessage.TypeA 604800) sink)))
    end
  else
    let x := incAnsweredAAAAQueries (incAnsweredQueries x) in
    (x, Ok (add_Answer response
              (write_each (fun nameToAAAA =>
                 dnsmessage.AAAAResource_
                   (rr_header (dnsmessage.QName q) dnsmessage.TypeAAAA 604800) nameToAAAA)
                 nameToAAAAs))).

(** The MX writer keeps going after a failed record and reports the
    error of the last one only. *)
Definition mx_writer (name : dnsmessage.Name)
    (mailExchangers : list dnsmessage.MXResource) : writer :=
  fun b =>
    let '(b, err) :=
      fold_left
        (fun (acc : dnsmessage.Builder * option dnsmessage.error) mailExchanger =>
           match dnsmessage.MXResource_ (rr_header name dnsmessage.TypeMX 604800)
                   mailExchanger (fst acc) with
           | inl b' => (b', None)
           | inr e => (fst acc, Some e)
           end)
        mailExchangers (b, None) in
    match err with
    | Some e => inr e
    | None => inl b
    end.

Definition lift_x {T : Type} (st : State) (r : Xip * result T) : State * result T :=
  (mkState (fst r) (st_kv st), snd r).

(** [x.processQuestion].  The log line it also returns is not modelled. *)
Definition processQuestion (cz : DomainCustomizations) (st : State)
    (q : dnsmessage.Question) (srcAddr : Net.IP) : State * result Response :=
  let name := dnsmessage.QName q in
  let x := st_x st in
  let response :=
    mkResponse
      (dnsmessage.mkHeader 0 true 0 true false false false dnsmessage.RCodeSuccess)
      [] [] [] in
  if IsAcmeChallenge cz name && negb (blocklist cz x name) then
    let response := set_Header response (set_Authoritative (Header response) false) in
    lift_x st (NSResponse cz x name response)
  else
    match dnsmessage.QType q with
    | dnsmessage.TypeA => lift_x st (nameToAwithBlocklist cz x q response)
    | dnsmessage.TypeAAAA => lift_x st (nameToAAAAwithBlocklist cz x q response)
    | dnsmessage.TypeALL =>
        (st, Ok (set_Header response
                   (set_RCode (Header response) dnsmessage.RCodeNotImplemented)))
    | dnsmessage.TypeCNAME =>
        match CNAMEResource cz name with
        | None => (st, Ok (add_Authority response (soa_authority_writer name)))
        | Some cname =>
            lift_x st
              (incAnsweredQueries x,
               Ok (add_Answer response
                     (dnsmessage.CNAMEResource_
                        (rr_header name dnsmessage.TypeCNAME 604800) cname)))
        end
    | dnsmessage.TypeMX =>
        let mailExchangers := MXResources cz name in
        if Nat.eqb (List.length mailExchangers) 0 then
          (st, Err (dnsmessage.errors_New "no MX records, but there should be one"))
        else
          lift_x st
            (incAnsweredQueries x,
             Ok (add_Answer response (mx_writer name mailExchangers)))
    | dnsmessage.TypeNS => lift_x st (NSResponse cz x name response)
    | dnsmessage.TypeSOA =>
        lift_x st
          (incAnsweredQueries x,
           Ok (add_Answer response
                 (dnsmessage.SOAResource_ (rr_header name dnsmessage.TypeSOA 604800)
                    (SOAResource name))))
    | dnsmessage.TypeTXT =>
        if IsAcmeChallenge cz name then
          let response := set_Header response (set_Authoritative (Header response) false) in
          let '(x, nameServers) := NSResources cz x name in
          lift_x st
            (x,
             Ok (fold_left
                   (fun response nameServer =>
                      add_Authority response
                        (dnsmessage.NSResource_
                           (rr_header name dnsmessage.TypeNS 604800) nameServer))
                   nameServers response))
        else
          match TXTResources cz st name srcAddr with
          | (st, Err e) => (st, Err e)
          | (st, Panic) => (st, Panic)
          | (st, Ok txts) =>
              let st :=
                if Nat.ltb 0 (List.length txts)
                then mkState (incAnsweredQueries (st_x st)) (st_kv st) else st in
              (st,
               Ok (add_Answer response
                     (write_each (fun txt =>
                        dnsmessage.TXTResource_
                          (rr_header name dnsmessage.TypeTXT 180) txt) txts)))
          end
    | dnsmessage.TypeOther _ =>
        (st, Ok (add_Authority response (soa_authority_writer name)))
    end.

Definition set_ID_RD (h : dnsmessage.Header) (id : Z) (rd : bool) : dnsmessage.Header :=
  dnsmessage.mkHeader id (dnsmessage.Response h) (dnsmessage.OpCode h)
    (dnsmessage.Authoritative h) (dnsmessage.Truncated h) rd
    (dnsmessage.RecursionAvailable h) (dnsmessage.RCode_ h).

(** [x.QueryResponse] between the parsing of the query and the packing
    of the response: from the header and first question of the query to
    the finished message. *)
Definition QueryResponse (cz : DomainCustomizations) (st : State)
    (queryHeader : dnsmessage.Header) (q : dnsmessage.Question) (srcAddr : Net.IP)
  : State * result dnsmessage.Builder :=
  match processQuestion cz st q srcAddr with
  | (st, Err e) => (st, Err e)
  | (st, Panic) => (st, Panic)
  | (st, Ok response) =>
      let h := set_ID_RD (Header response) (dnsmessage.ID queryHeader)
                 (dnsmessage.RecursionDesired queryHeader) in
      let st := mkState (incQueries (st_x st)) (st_kv st) in
      let build :=
        andThen dnsmessage.StartQuestions
        (andThen (dnsmessage.Question_ q)
        (andThen dnsmessage.StartAnswers
        (andThen (write_each (fun w => w) (Answers response))
        (andThen dnsmessage.StartAuthorities
        (andThen (write_each (fun w => w) (Authorities response))
        (andThen dnsmessage.StartAdditionals
        (andThen (write_each (fun w => w) (Additionals response))
                 dnsmessage.Finish))))))) in
      match build (dnsmessage.NewBuilder h) with
      | inl b => (st, Ok b)
      | inr e => (st, Err e)
      end
  end.

(** ** The blocklist file *)

Definition comments : Regexp.re := Eval vm_compute in Regexp.MustCompile "#.*".
Definition invalidDNSchars : Regexp.re := Eval vm_compute in
  Regexp.MustCompile "[^-_0-9a-z]".
Definition invalidDNScharsWithSlashesDotsAndColons : Regexp.re := Eval vm_compute in
  Regexp.MustCompile "[^-_0-9a-z/.:]".

Definition MaxScanTokenSize : Z := 65536.

(** [bufio.ScanLines]: a line ends at a newline, one carriage return
    before it is dropped, and a last line needs no newline. *)
Definition dropCR (l : list ascii) : list ascii :=
  match rev l with
  | "013"%char :: r => rev r
  | _ => l
  end.

Fixpoint drop_last_empty (ls : list (list ascii)) : list (list ascii) :=
  match ls with
  | [] => []
  | [[]] => []
  | l :: ls' => l :: drop_last_empty ls'
  end.

Definition scan_lines (input : string) : list (list ascii) :=
  drop_last_empty (strings.split_on "010" (list_ascii_of_string input)).

(** One pass through the loop of [ReadBlocklist]. *)
Definition ReadBlocklist_line (line : string) (acc : list string * list Net.IPNet)
  : list string * list Net.IPNet :=
  let '(stringBlocklists, cidrBlocklists) := acc in
  let line := strings.ToLower line in
  let line := Regexp.DeleteAllString comments line in
  let line := Regexp.DeleteAllString invalidDNScharsWithSlashesDotsAndColons line in
  match Net.ParseCIDR line with
  | None =>
      let line := Regexp.DeleteAllString invalidDNSchars line in
      if String.eqb line EmptyString then acc
      else (stringBlocklists ++ [line], cidrBlocklists)
  | Some ipcidr => (stringBlocklists, cidrBlocklists ++ [ipcidr])
  end.

(** [ReadBlocklist] on the whole text of the reader.  The scanner stops
    with [ErrTooLong] at a line that does not fit its buffer, and the
    lists read so far are then dropped. *)
Definition ReadBlocklist (blocklist : string)
  : list string * list Net.IPNet * option dnsmessage.error :=
  let lines := scan_lines blocklist in
  if existsb (fun l => MaxScanTokenSize <=? Z.of_nat (List.length l)) lines then
    ([], [], Some (dnsmessage.errors_New "bufio.Scanner: token too long"))
  else
    let '(stringBlocklists, cidrBlocklists) :=
      fold_left (fun acc l => ReadBlocklist_line (string_of_list_ascii (dropCR l)) acc)
                lines ([], []) in
    (stringBlocklists, cidrBlocklists, None).

(** ** Notions used to state the properties *)

(** A single label of a name: a string without a dot. *)
Definition is_label (s : string) : bool :=
  forallb (fun c => negb (Ascii.eqb c ".")) (list_ascii_of_string s).

(** The bytes of an array: numbers from 0 to 255. *)
Definition is_bytes (p : list Z) : Prop := Forall (fun b => 0 <= b < 256) p.

(** The network a CIDR string denotes. *)
Definition cidr (s : string) : Net.IPNet :=
  match Net.ParseCIDR s with
  | Some n => n
  | None => Net.mkIPNet [] []
  end.

(** The ranges [IP.IsPrivate] stands for: RFC 1918 and RFC 4193. *)
Definition private_ranges : list Net.IPNet := Eval vm_compute in
  [cidr "10.0.0.0/8"; cidr "172.16.0.0/12"; cidr "192.168.0.0/16"; cidr "fc00::/7"].

(** The other ranges the specification counts as not public. *)
Definition other_nonpublic_ranges : list Net.IPNet := Eval vm_compute in
  [cidr "100.64.0.0/10"; cidr "169.254.0.0/16"; cidr "fe80::/10"; cidr "127.0.0.0/8";
   cidr "::1/128"; cidr "2001:20::/28"; cidr "2001:db8::/32"; cidr "64:ff9b:1::/48"].

Definition in_ranges (ranges : list Net.IPNet) (ip : Net.IP) : bool :=
  existsb (fun n => Net.Contains n ip) ranges.

(** The package's table with its two outside functions left empty: its
    A, AAAA, CNAME and MX records are those of the package. *)
Definition packageCustomizations : DomainCustomizations :=
  Customizations (fun _ => EmptyString) (fun x _ => (x, Ok [])).

Definition noMetrics : Metrics := mkMetrics 0 0 0 0 0 0 0 0 0.

(** A server with the in-memory store and the given blocklist. *)
Definition serverWith (blockstrings : list string) (blockCDIRs : list Net.IPNet) : Xip :=
  mkXip None 0 noMetrics blockstrings blockCDIRs 0.

(** The characters [ReadBlocklist] leaves in a blocked string. *)
Definition dns_char (c : ascii) : bool :=
  Regexp.in_class false [("-", "-"); ("_", "_"); ("0", "9"); ("a", "z")]%char c.

(** Wherever [blockstring] appears in [hostname] up to letter case, the
    text of [hostname] there holds an upper-case letter. *)
Definition appears_only_uppercased (blockstring hostname : string) : bool :=
  let h := list_ascii_of_string hostname in
  let b := list_ascii_of_string blockstring in
  forallb
    (fun i =>
       implb (strings.has_prefix b (skipn i (map Regexp.lower_ascii h)))
             (existsb Regexp.is_upper (firstn (List.length b) (skipn i h))))
    (seq 0 (S (List.length h))).

(** The words a pattern can read, anchors and groups aside: what the
    matcher consumes between two positions is one of them. *)
Fixpoint lang_pow (P : list ascii -> Prop) (n : nat) (w : list ascii) : Prop :=
  match n with
  | O => w = []
  | S n' => exists w1 w2, w = w1 ++ w2 /\ P w1 /\ lang_pow P n' w2
  end.

Fixpoint lang (r : Regexp.re) (w : list ascii) : Prop :=
  match r with
  | Regexp.ReEmpty => w = []
  | Regexp.ReClass neg rs => exists c, w = [c] /\ Regexp.in_class neg rs c = true
  | Regexp.ReAnyNotNL => exists c, w = [c]
  | Regexp.ReBol => w = []
  | Regexp.ReEol => w = []
  | Regexp.ReCat a b => exists w1 w2, w = w1 ++ w2 /\ lang a w1 /\ lang b w2
  | Regexp.ReAlt a b => lang a w \/ lang b w
  | Regexp.ReRep a lo hi =>
      exists n, (lo <= n)%nat /\
                match hi with
                | Some h => (n <= lo + (h - lo))%nat
                | None => True
                end /\
                lang_pow (lang a) n w
  | Regexp.ReCap _ a => lang a w
  end.

(** The shape of the two IPv4 patterns, [sep] being the byte between the
    octets. *)
Definition ch (c : ascii) : Regexp.re := Regexp.ReClass false [(c, c)].
Definition rng (a b : ascii) : Regexp.re := Regexp.ReClass false [(a, b)].
Definition octetRE (i j : nat) : Regexp.re :=
  Regexp.ReCap i
    (Regexp.ReAlt
       (Regexp.ReCat (ch "2") (Regexp.ReCat (ch "5") (rng "0" "5")))
       (Regexp.ReCat
          (Regexp.ReRep
             (Regexp.ReCap j
                (Regexp.ReAlt
                   (Regexp.ReCat (ch "2") (rng "0" "4"))
                   (Regexp.ReCat (Regexp.ReRep (ch "1") 0 (Some 1%nat)) (rng "0" "9"))))
             0 (Some 1%nat))
          (rng "0" "9"))).
Definition boundaryRE : Regexp.re := Regexp.ReClass false [(".", "."); ("-", "-")]%char.
Definition quadRE (sep : ascii) : Regexp.re :=
  Regexp.ReCat
    (Regexp.ReRep (Regexp.ReCap 3 (Regexp.ReCat (octetRE 4 5) (ch sep))) 3 (Some 3%nat))
    (octetRE 6 7).
Definition ipv4RE_shape (sep : ascii) : Regexp.re :=
  Regexp.ReCat
    (Regexp.ReCap 1 (Regexp.ReAlt Regexp.ReBol boundaryRE))
    (Regexp.ReCat (Regexp.ReCap 2 (quadRE sep))
                  (Regexp.ReCap 8 (Regexp.ReAlt Regexp.ReEol boundaryRE))).

(** An octet as the patterns have it, and the number it writes. *)
Definition decimal_value (o : list ascii) : Z :=
  fold_left (fun n c => n * 10 + Net.digit c) o 0.

Definition is_octet (o : list ascii) : Prop :=
  o <> [] /\ List.Forall (fun c => Regexp.is_digit c = true) o /\
  (List.length o <= 3)%nat /\ 0 <= decimal_value o <= 255.

(** More than one digit, the first of them 0. *)
Definition leading_zero (o : list ascii) : bool :=
  Nat.ltb 1 (List.length o) && Ascii.eqb (hd "000"%char o) "0".

(** Four octets with [sep] between them. *)
Definition quad (sep : ascii) (o1 o2 o3 o4 : list ascii) : list ascii :=
  o1 ++ sep :: o2 ++ sep :: o3 ++ sep :: o4.

(** The shape shared by the patterns of the name parser: a boundary,
    group 2, a boundary. *)
Definition bounded_shape (X : Regexp.re) (k : nat) : Regexp.re :=
  Regexp.ReCat
    (Regexp.ReCap 1 (Regexp.ReAlt Regexp.ReBol boundaryRE))
    (Regexp.ReCat (Regexp.ReCap 2 X)
                  (Regexp.ReCap k (Regexp.ReAlt Regexp.ReEol boundaryRE))).

Definition group2_of (r : Regexp.re) : Regexp.re :=
  match r with
  | Regexp.ReCat _ (Regexp.ReCat (Regexp.ReCap 2 X) _) => X
  | _ => Regexp.ReEmpty
  end.


(** [t'] is [t] after reading some more of the input. *)
Definition extends (t t' : Regexp.thread) : Prop :=
  exists w, snd (fst t) = w ++ snd (fst t') /\
            fst (fst t') = (fst (fst t) + List.length w)%nat.

(** [t'] is [t] after reading [w]. *)
Definition reads (t : Regexp.thread) (w : list ascii) (t' : Regexp.thread) : Prop :=
  snd (fst t) = w ++ snd (fst t') /\ fst (fst t') = (fst (fst t) + List.length w)%nat.

(** The test [IP.IsPrivate] makes on the first two bytes of an IPv4 address. *)
Definition rfc1918 (a b : Z) : bool :=
  (a =? 10) || (a =? 172) && (Z.land b 240 =? 16) || (a =? 192) && (b =? 168).

(** The text after a number: nothing, or a byte that is no digit. *)
Definition not_digit_start (rest : list ascii) : Prop :=
  match rest with
  | [] => True
  | c :: _ => Regexp.is_digit c = false
  end.

(** Blocked strings made of [dns_char] bytes only. *)
Definition blocked_strings_valid (l : list string) : Prop :=
  List.Forall (fun s => List.Forall (fun c => dns_char c = true) (list_ascii_of_string s)) l.

(** A line feed, and the state of a server that has stored nothing. *)
Definition nl : string := String "010" EmptyString.

Definition stateWith (x : Xip) : State := mkState x ∅.

(** A customized name that spells an address. *)
Definition customizedTable : DomainCustomizations :=
  <["10-0-0-1.example.com."%string :=
      mkDomainCustomization
        [dnsmessage.mkA [9; 9; 9; 9]]
        [dnsmessage.mkAAAA [38; 32; 0; 254; 0; 0; 0; 0; 0; 0; 0; 0; 0; 0; 0; 254]]
        (dnsmessage.mkCNAME EmptyString) [] None]> packageCustomizations.

(** ** Further functions of the package *)

(** [Metrics.MostlyEquals]: every field but [Start]. *)
Definition MostlyEquals (a b : Metrics) : bool :=
  if (Queries a =? Queries b)
     && (AnsweredQueries a =? AnsweredQueries b)
     && (AnsweredAQueries a =? AnsweredAQueries b)
     && (AnsweredAAAAQueries a =? AnsweredAAAAQueries b)
     && (AnsweredTXTSrcIPQueries a =? AnsweredTXTSrcIPQueries b)
     && (AnsweredXTVersionQueries a =? AnsweredXTVersionQueries b)
     && (AnsweredNSDNS01ChallengeQueries a =? AnsweredNSDNS01ChallengeQueries b)
     && (AnsweredBlockedQueries a =? AnsweredBlockedQueries b)
  then true else false.

(** [readBlocklist].  [http_Get] stands for [http.Get] and the reading of
    the body: the error of the request, or the status code and the text
    of the body.  The messages the function logs are left out. *)
Definition readBlocklist (http_Get : string -> (Z * string) + dnsmessage.error)
    (blocklistURL : string) : list string * list Net.IPNet * option dnsmessage.error :=
  match http_Get blocklistURL with
  | inr err => ([], [], Some err)
  | inl (StatusCode, Body) =>
      if 299 <? StatusCode then ([], [], None)
      else ReadBlocklist Body
  end.

(** One pass of the loop [NewXip] starts to download the blocklist every
    hour, [now] being the time when the pass ends. *)
Definition NewXip_blocklist_pass (http_Get : string -> (Z * string) + dnsmessage.error)
    (blocklistURL : string) (now : Z) (x : Xip) : Xip :=
  match readBlocklist http_Get blocklistURL with
  | (_, _, Some _) => x
  | (blocklistStrings, blocklistCDIRs, None) =>
      mkXip (Etcd x) (DnsAmplificationAttackDelay x) (Metrics_ x)
            blocklistStrings blocklistCDIRs now
  end.

(** ** Notions for the blocklist file *)

(** A blocked string as [ReadBlocklist] keeps them: not empty, and made
    of [dns_char] bytes. *)
Definition clean_string (s : string) : Prop :=
  s <> EmptyString /\
  List.Forall (fun c => dns_char c = true) (list_ascii_of_string s).

Definition no_byte (c : ascii) (s : string) : Prop :=
  List.Forall (fun x => x <> c) (list_ascii_of_string s).

(** ** Notions for the responses *)

(** The sections that take resource records. *)
Definition resource_section (s : dnsmessage.section) : bool :=
  match s with
  | dnsmessage.sectionAnswers | dnsmessage.sectionAuthorities
  | dnsmessage.sectionAdditionals => true
  | _ => false
  end.

(** The builder after [rs] went to the section being written. *)
Definition append_records (b : dnsmessage.Builder) (rs : list dnsmessage.Resource)
  : dnsmessage.Builder :=
  match dnsmessage.b_section b with
  | dnsmessage.sectionAnswers =>
      dnsmessage.mkBuilder (dnsmessage.b_header b) (dnsmessage.b_section b)
        (dnsmessage.b_questions b) (dnsmessage.b_answers b ++ rs)
        (dnsmessage.b_authorities b) (dnsmessage.b_additionals b)
  | dnsmessage.sectionAuthorities =>
      dnsmessage.mkBuilder (dnsmessage.b_header b) (dnsmessage.b_section b)
        (dnsmessage.b_questions b) (dnsmessage.b_answers b)
        (dnsmessage.b_authorities b ++ rs) (dnsmessage.b_additionals b)
  | dnsmessage.sectionAdditionals =>
      dnsmessage.mkBuilder (dnsmessage.b_header b) (dnsmessage.b_section b)
        (dnsmessage.b_questions b) (dnsmessage.b_answers b)
        (dnsmessage.b_authorities b) (dnsmessage.b_additionals b ++ rs)
  | _ => b
  end.

(** [w] writes the records [rs], whatever resource section is open. *)
Definition writes (rs : list dnsmessage.Resource) (w : writer) : Prop :=
  forall b, resource_section (dnsmessage.b_section b) = true ->
            w b = inl (append_records b rs).

(** The record of class INET the builder stores for a body. *)
Definition record (name : dnsmessage.Name) (ttl : Z) (body : dnsmessage.ResourceBody)
  : dnsmessage.Resource :=
  dnsmessage.mkResource
    (dnsmessage.mkResourceHeader name (dnsmessage.realType body) dnsmessage.ClassINET ttl 0)
    body.

(** The functions of one section of a [Response], run in order. *)
Definition write_all (ws : list writer) : writer := write_each (fun w => w) ws.

(** The time to live the dispatcher gives a record: 180 seconds for TXT,
    a week for the rest. *)
Definition ttl_of (body : dnsmessage.ResourceBody) : Z :=
  match body with
  | dnsmessage.BodyTXT _ => 180
  | _ => 604800
  end.

(** A record of [name] as the dispatcher writes them. *)
Definition owned (name : dnsmessage.Name) (r : dnsmessage.Resource) : Prop :=
  exists body, r = record name (ttl_of body) body.

(** An address record with a week to live. *)
Definition address_record (r : dnsmessage.Resource) : Prop :=
  exists name,
    (exists a, r = record name 604800 (dnsmessage.BodyA a)) \/
    (exists aaaa, r = record name 604800 (dnsmessage.BodyAAAA aaaa)).

Definition is_TXT (t : dnsmessage.Type_) : bool :=
  match t with dnsmessage.TypeTXT => true | _ => false end.
Definition is_ALL (t : dnsmessage.Type_) : bool :=
  match t with dnsmessage.TypeALL => true | _ => false end.

(** The glue of a list of name servers: their A records, then their AAAA
    records, one name server after the other. *)
Definition glue_records (cz : DomainCustomizations)
    (nameServers : list dnsmessage.NSResource) : list dnsmessage.Resource :=
  flat_map (fun nameServer : dnsmessage.NSResource =>
      map (fun a => record (dnsmessage.NS nameServer) 604800 (dnsmessage.BodyA a))
          (NameToA cz (dnsmessage.NS nameServer)) ++
      map (fun aaaa => record (dnsmessage.NS nameServer) 604800 (dnsmessage.BodyAAAA aaaa))
          (NameToAAAA cz (dnsmessage.NS nameServer)))
    nameServers.

(** The records of a response: what each section writes, whose records
    they are, and the header. *)
Definition response_spec (cz : DomainCustomizations) (name : dnsmessage.Name) (x : Xip) (t : dnsmessage.Type_) (response : Response) : Prop :=
  exists an au ad,
    writes an (write_all (Answers response)) /\
    writes au (write_all (Authorities response)) /\
    writes ad (write_all (Additionals response)) /\
    Forall (owned name) an /\ Forall (owned name) au /\ Forall address_record ad /\
    (an = [] \/ au = []) /\
    Header response =
      dnsmessage.mkHeader 0 true 0
        (negb (IsAcmeChallenge cz name && (negb (blocklist cz x name) || is_TXT t)))
        false false false
        (if negb (IsAcmeChallenge cz name && negb (blocklist cz x name)) && is_ALL t
         then dnsmessage.RCodeNotImplemented else dnsmessage.RCodeSuccess).

(** ** Notions for the key-value store *)

(** At most one TXT record, of one string of at most 63 bytes. *)
Definition short_txt (txts : list dnsmessage.TXTResource) : Prop :=
  (List.length txts <= 1)%nat /\
  List.Forall (fun txt => exists s, txt = txt1 s /\ (String.length s <= 63)%nat) txts.

(** A key-value map that holds short records only. *)
Definition kv_short (kv : KvCustomizations) : Prop :=
  forall key txts, kv !! key = Some txts -> short_txt txts.

(** [x'] is [x] but for the counters of the answers. *)
Definition counted (x x' : Xip) : Prop :=
  exists m,
    x' = set_Metrics x m /\
    Start m = Start (Metrics_ x) /\ Queries m = Queries (Metrics_ x).

(** The header of the query, the source address and the servers of the
    examples; [emptyEtcd] is an etcd that holds nothing and never fails. *)
Definition queryHeader0 : dnsmessage.Header :=
  dnsmessage.mkHeader 4660 false 0 false false true false dnsmessage.RCodeSuccess.

Definition srcAddr0 : Net.IP := [192; 0; 2; 1].

Definition question (name : string) (t : dnsmessage.Type_) : dnsmessage.Question :=
  dnsmessage.mkQuestion name t dnsmessage.ClassINET.

Definition emptyEtcd : V3client :=
  mkV3client unit tt (fun s _ => (s, inl [])) (fun s _ _ => (s, None))
             (fun s _ => (s, None)).

Definition etcdServer : Xip := mkXip (Some emptyEtcd) 0 noMetrics [] [] 0.

(** ** Notions for literal patterns and for an etcd that works *)

(** A pattern that reads one byte of each class in turn. *)
Fixpoint classes (rss : list (list (ascii * ascii))) : Regexp.re :=
  match rss with
  | [] => Regexp.ReEmpty
  | [rs] => Regexp.ReClass false rs
  | rs :: rss' => Regexp.ReCat (Regexp.ReClass false rs) (classes rss')
  end.

(** The text starts with one byte of each class in turn. *)
Fixpoint class_prefix (rss : list (list (ascii * ascii))) (s : list ascii) : bool :=
  match rss, s with
  | [], _ => true
  | rs :: rss', c :: s' => Regexp.in_class false rs c && class_prefix rss' s'
  | _ :: _, [] => false
  end.

(** The classes of [dns01ChallengeRE]: each letter in both cases. *)
Definition dns01Classes : list (list (ascii * ascii)) :=
  [[("_", "_")]; [("A", "A"); ("a", "a")]; [("C", "C"); ("c", "c")];
   [("M", "M"); ("m", "m")]; [("E", "E"); ("e", "e")]; [("-", "-")];
   [("C", "C"); ("c", "c")]; [("H", "H"); ("h", "h")]; [("A", "A"); ("a", "a")];
   [("L", "L"); ("l", "l")]; [("L", "L"); ("l", "l")]; [("E", "E"); ("e", "e")];
   [("N", "N"); ("n", "n")]; [("G", "G"); ("g", "g")]; [("E", "E"); ("e", "e")];
   [(".", ".")]]%char.

(** Every byte. *)
Definition all_ascii : list ascii := map ascii_of_nat (seq 0 256).

(** An etcd that behaves as a map from keys to values and never fails. *)
Definition mapEtcd (m : gmap string string) : V3client :=
  mkV3client (gmap string string) m
    (fun s key => (s, inl match s !! key with Some v => [v] | None => [] end))
    (fun s key value => (<[key := value]> s, None))
    (fun s key => (delete key s, None)).

(** Text of 7-bit bytes.  Go's [strings.ToLower] works on runes; on such
    text it is the map of the letters A-Z that [strings.ToLower] is
    here. *)
Definition is_ascii (s : string) : bool :=
  forallb (fun c => (N_of_ascii c <? 128)%N) (list_ascii_of_string s).

(** * Properties *)

(** ** Facts about strings *)

Section StringFacts.

Lemma list_ascii_of_string_app (a b : string) :
  list_ascii_of_string (a ++ b) = list_ascii_of_string a ++ list_ascii_of_string b.
Proof. induction a as [|c a IH]; simpl; [reflexivity | now rewrite IH]. Qed.

Lemma string_of_list_ascii_app (a b : list ascii) :
  string_of_list_ascii (a ++ b) = (string_of_list_ascii a ++ string_of_list_ascii b)%string.
Proof. induction a as [|c a IH]; simpl; [reflexivity | now rewrite IH]. Qed.


Lemma split_on_nonempty sep l : strings.split_on sep l <> [].
Proof.
  destruct l as [|c l]; simpl; [discriminate |].
  destruct (strings.split_on sep l); [discriminate |].
  destruct (Ascii.eqb c sep); discriminate.
Qed.

Lemma split_on_app sep l1 l2 :
  strings.split_on sep (l1 ++ sep :: l2) =
  strings.split_on sep l1 ++ strings.split_on sep l2.
Proof.
  induction l1 as [|c l1 IH]; simpl.
  - rewrite Ascii.eqb_refl.
    destruct (strings.split_on sep l2) eqn:E; [|reflexivity].
    now apply split_on_nonempty in E.
  - rewrite IH.
    destruct (strings.split_on sep l1) as [|p ps] eqn:E.
    + now apply split_on_nonempty in E.
    + simpl. destruct (Ascii.eqb c sep); reflexivity.
Qed.

Lemma split_on_single sep l :
  Forall (fun c => Ascii.eqb c sep = false) l -> strings.split_on sep l = [l].
Proof.
  induction 1 as [|c l Hc _ IH]; simpl; [reflexivity |].
  now rewrite IH, Hc.
Qed.

Lemma Join_cons e1 e2 rest sep :
  strings.Join (e1 :: e2 :: rest) sep = (e1 ++ sep ++ strings.Join (e2 :: rest) sep)%string.
Proof. reflexivity. Qed.

(** Joining what [Split] produced gives the string back. *)
Lemma Join_split_on (sep : ascii) (l : list ascii) :
  strings.Join (map string_of_list_ascii (strings.split_on sep l)) (String sep EmptyString) =
  string_of_list_ascii l.
Proof.
  induction l as [|c l IH]; simpl; [reflexivity |].
  destruct (strings.split_on sep l) as [|p ps] eqn:E.
  - now apply split_on_nonempty in E.
  - destruct (Ascii.eqb_spec c sep) as [->|Hne].
    + change (map string_of_list_ascii ([] :: p :: ps))
        with (EmptyString :: map string_of_list_ascii (p :: ps)).
      simpl map. rewrite Join_cons. simpl in IH. simpl. now rewrite IH.
    + simpl map. simpl in IH. destruct ps as [|p' ps]; simpl in *.
      * now rewrite IH.
      * now rewrite <- IH.
Qed.

Lemma string_app_assoc (a b c : string) :
  (a ++ b ++ c = (a ++ b) ++ c)%string.
Proof.
  induction a as [|x a IH]; [reflexivity |].
  change (String x (a ++ b ++ c) = String x ((a ++ b) ++ c))%string.
  now f_equal.
Qed.

Lemma ToLower_app (a b : string) :
  strings.ToLower (a ++ b) = (strings.ToLower a ++ strings.ToLower b)%string.
Proof.
  unfold strings.ToLower, strings.map_string.
  now rewrite list_ascii_of_string_app, map_app, string_of_list_ascii_app.
Qed.

End StringFacts.

(** ** Customizations come first (C5) and MX records are never empty (C9) *)

Section Lookups.

Variable cz : DomainCustomizations.

(** C5. When the table holds an entry for the lower-cased name, its A
    records, if any, are what [NameToA] returns, and its AAAA records, if
    any, are what [NameToAAAA] returns: the name is not parsed, whatever
    address it spells. *)
Theorem customization_preempts_synthesis (fqdnString : string)
    (domain : DomainCustomization) :
  cz !! strings.ToLower fqdnString = Some domain ->
  (A domain <> [] -> NameToA cz fqdnString = A domain) /\
  (AAAA domain <> [] -> NameToAAAA cz fqdnString = AAAA domain).
Proof.
  intros Hlook. unfold NameToA, NameToAAAA. rewrite Hlook. split; intros Hne.
  - destruct (A domain); [contradiction | reflexivity].
  - destruct (AAAA domain); [contradiction | reflexivity].
Qed.

Lemma MXResources_custom (fqdnString : string) (domain : DomainCustomization) :
  cz !! strings.ToLower fqdnString = Some domain -> MX domain <> [] ->
  MXResources cz fqdnString = MX domain.
Proof.
  intros Hlook Hne. unfold MXResources. rewrite Hlook.
  destruct (MX domain); [contradiction | reflexivity].
Qed.

Lemma MXResources_default (fqdnString : string) :
  (forall domain, cz !! strings.ToLower fqdnString = Some domain -> MX domain = []) ->
  MXResources cz fqdnString =
  [dnsmessage.mkMX 0 (fst (dnsmessage.NewName fqdnString))].
Proof.
  intros Hnone. unfold MXResources.
  destruct (cz !! strings.ToLower fqdnString) as [domain|] eqn:E; [|reflexivity].
  now rewrite (Hnone domain eq_refl).
Qed.

Lemma MXResources_length (fqdnString : string) :
  Nat.eqb (List.length (MXResources cz fqdnString)) 0 = false.
Proof.
  unfold MXResources.
  destruct (cz !! strings.ToLower fqdnString) as [domain|]; [|reflexivity].
  destruct (MX domain); reflexivity.
Qed.

Lemma NewName_short (name : string) :
  (String.length name <= 255)%nat -> dnsmessage.NewName name = (name, true).
Proof.
  intros H. unfold dnsmessage.NewName, dnsmessage.nameLen.
  destruct (Nat.ltb_spec 255 (String.length name)); [lia | reflexivity].
Qed.

End Lookups.

(** ** Writers and the message they build *)

Section Writers.

Import dnsmessage.




End Writers.

Section Dispatcher.

Variable cz : DomainCustomizations.


Lemma NSResponse_Ok (x : Xip) (name : dnsmessage.Name) (response : Response) :
  exists x' response', NSResponse cz x name response = (x', Ok response').
Proof.
  unfold NSResponse. destruct (NSResources cz x name) as [x' nameServers].
  eexists _, _. reflexivity.
Qed.

Lemma processQuestion_MX_Ok (st : State) (q : dnsmessage.Question) (srcAddr : Net.IP) :
  dnsmessage.QType q = dnsmessage.TypeMX ->
  exists st' response, processQuestion cz st q srcAddr = (st', Ok response).
Proof.
  intros Ht. unfold processQuestion. rewrite Ht.
  destruct (IsAcmeChallenge cz (dnsmessage.QName q)
            && negb (blocklist cz (st_x st) (dnsmessage.QName q))).
  - destruct (NSResponse_Ok (st_x st) (dnsmessage.QName q)
                (set_Header
                   (mkResponse
                      (dnsmessage.mkHeader 0 true 0 true false false false
                         dnsmessage.RCodeSuccess) [] [] [])
                   (set_Authoritative
                      (Header
                         (mkResponse
                            (dnsmessage.mkHeader 0 true 0 true false false false
                               dnsmessage.RCodeSuccess) [] [] [])) false)))
      as (x' & r & E).
    rewrite E. eexists _, _. reflexivity.
  - rewrite MXResources_length. eexists _, _. reflexivity.
Qed.

(** C9. [MXResources] never returns an empty list: it returns the MX
    records of the customization when there are some, and otherwise one
    record of preference 0 whose exchange is the queried name (a name of
    at most 255 bytes, as every [dnsmessage.Name] is).  So a question of
    type MX always gets a response from [processQuestion], and the error
    for an empty MX list cannot be returned. *)
Theorem MXResources_never_empty (fqdnString : string) :
  MXResources cz fqdnString <> [] /\
  (forall domain,
      cz !! strings.ToLower fqdnString = Some domain -> MX domain <> [] ->
      MXResources cz fqdnString = MX domain) /\
  ((forall domain,
      cz !! strings.ToLower fqdnString = Some domain -> MX domain = []) ->
   (String.length fqdnString <= 255)%nat ->
   MXResources cz fqdnString = [dnsmessage.mkMX 0 fqdnString]) /\
  (forall st q srcAddr,
      dnsmessage.QName q = fqdnString -> dnsmessage.QType q = dnsmessage.TypeMX ->
      (exists st' response, processQuestion cz st q srcAddr = (st', Ok response)) /\
      snd (processQuestion cz st q srcAddr) <>
        Err (dnsmessage.errors_New "no MX records, but there should be one")).
Proof.
  repeat split.
  - intros E. pose proof (MXResources_length cz fqdnString) as H.
    rewrite E in H. discriminate.
  - apply MXResources_custom.
  - intros Hnone Hlen. rewrite (MXResources_default cz fqdnString Hnone).
    now rewrite NewName_short.
  - now apply processQuestion_MX_Ok.
  - destruct (processQuestion_MX_Ok st q srcAddr H0) as (st' & r & E).
    rewrite E. discriminate.
Qed.

(** C8. A question of type AAAA whose name yields AAAA records and is
    blocklisted is answered with exactly one record: it has type AAAA in
    the message (the builder sets the type from the resource) and holds
    the first AAAA record of the customization of [ns-aws.sslip.io.];
    the counter of blocked queries goes up by one. *)
Theorem blocked_AAAA_answers_sink (st : State) (queryHeader : dnsmessage.Header)
    (q : dnsmessage.Question) (srcAddr : Net.IP)
    (nsAws : DomainCustomization) (sink : dnsmessage.AAAAResource)
    (others : list dnsmessage.AAAAResource) :
  dnsmessage.QType q = dnsmessage.TypeAAAA ->
  NameToAAAA cz (dnsmessage.QName q) <> [] ->
  blocklist cz (st_x st) (dnsmessage.QName q) = true ->
  cz !! "ns-aws.sslip.io."%string = Some nsAws ->
  AAAA nsAws = sink :: others ->
  exists st' b,
    QueryResponse cz st queryHeader q srcAddr = (st', Ok b) /\
    dnsmessage.b_answers b =
      [dnsmessage.mkResource
         (dnsmessage.mkResourceHeader (dnsmessage.QName q) dnsmessage.TypeAAAA
            dnsmessage.ClassINET 604800 0)
         (dnsmessage.BodyAAAA sink)] /\
    dnsmessage.b_authorities b = [] /\
    dnsmessage.b_additionals b = [] /\
    AnsweredBlockedQueries (Metrics_ (st_x st')) =
      incr (AnsweredBlockedQueries (Metrics_ (st_x st))).
Proof.
  intros Ht Hne Hblock Hlook Hsink.
  unfold QueryResponse, processQuestion.
  rewrite Hblock, Ht. rewrite andb_false_r.
  unfold nameToAAAAwithBlocklist. rewrite Hblock.
  destruct (NameToAAAA cz (dnsmessage.QName q)) as [|r rs]; [contradiction |].
  unfold sinkAAAA. rewrite Hlook, Hsink. simpl.
  eexists _, _. repeat split; reflexivity.
Qed.

End Dispatcher.

(** ** The matcher only moves forward, and [find] is leftmost *)

Section Matcher.

Import Regexp.

Lemma extends_refl t : extends t t.
Proof. exists []. simpl. split; [reflexivity | lia]. Qed.

Lemma extends_trans t1 t2 t3 : extends t1 t2 -> extends t2 t3 -> extends t1 t3.
Proof.
  intros (w1 & H1 & P1) (w2 & H2 & P2). exists (w1 ++ w2).
  rewrite H1, H2, P2, P1, length_app, <- app_assoc. split; [reflexivity | lia].
Qed.

Lemma bind_extends (k : thread -> list thread) ts t t' :
  (forall u, In u ts -> extends t u) ->
  (forall u u', In u' (k u) -> extends u u') ->
  In t' (bind ts k) -> extends t t'.
Proof.
  intros H1 H2 Hin. unfold bind in Hin. apply in_flat_map in Hin.
  destruct Hin as (u & Hu & Hu'). eapply extends_trans; eauto.
Qed.

Lemma rep_opt_extends step :
  (forall t t', In t' (step t) -> extends t t') ->
  forall extra t t', In t' (rep_opt step extra t) -> extends t t'.
Proof.
  intros Hstep. induction extra as [|e IH]; intros t t' Hin; simpl in Hin.
  - destruct Hin as [<-|[]]. apply extends_refl.
  - apply in_app_or in Hin. destruct Hin as [Hin|[<-|[]]].
    + eapply bind_extends; [| | exact Hin]; [intros; now apply Hstep | exact IH].
    + apply extends_refl.
Qed.

Lemma rep_min_extends step :
  (forall t t', In t' (step t) -> extends t t') ->
  forall lo extra t t', In t' (rep_min step lo extra t) -> extends t t'.
Proof.
  intros Hstep. induction lo as [|l IH]; intros extra t t' Hin; simpl in Hin.
  - eapply rep_opt_extends; eauto.
  - eapply bind_extends; [| | exact Hin];
      [intros; now apply Hstep | intros u u' Hu; eapply IH; exact Hu].
Qed.

Lemma run_extends r : forall t t', In t' (run r t) -> extends t t'.
Proof.
  induction r as [| neg rs | | | | a IHa b IHb | a IHa b IHb | a IHa lo hi | i a IHa];
    intros [[pos rest] cs] t' Hin; simpl in Hin.
  - destruct Hin as [<-|[]]. apply extends_refl.
  - destruct rest as [|c rest']; [destruct Hin |].
    destruct (in_class neg rs c); [|destruct Hin].
    destruct Hin as [<-|[]]. exists [c]. simpl. split; [reflexivity | lia].
  - destruct rest as [|c rest']; [destruct Hin |].
    destruct (Ascii.eqb c "010"); [destruct Hin |].
    destruct Hin as [<-|[]]. exists [c]. simpl. split; [reflexivity | lia].
  - destruct (Nat.eqb pos 0); [|destruct Hin].
    destruct Hin as [<-|[]]. apply extends_refl.
  - destruct rest; [|destruct Hin].
    destruct Hin as [<-|[]]. apply extends_refl.
  - eapply bind_extends; [| | exact Hin]; [intros; now apply IHa | exact IHb].
  - apply in_app_or in Hin. destruct Hin; eauto.
  - destruct hi; eapply rep_min_extends; eauto.
  - apply in_map_iff in Hin. destruct Hin as ([[pos' rest'] cs'] & <- & Hin).
    apply IHa in Hin. destruct Hin as (w & H1 & H2). exists w. simpl in *. auto.
Qed.

Lemma pick_longest_In best ts : In (pick_longest best ts) (best :: ts).
Proof.
  revert best. induction ts as [|t ts IH]; intros best; simpl.
  - now left.
  - destruct (Nat.ltb (thread_end best) (thread_end t)).
    + right. apply IH.
    + destruct (IH best) as [H|H]; [now left | right; now right].
Qed.

Lemma pick_In longest ts t : pick longest ts = Some t -> In t ts.
Proof.
  destruct ts as [|t0 ts]; simpl; [discriminate |].
  intros [= <-]. destruct longest; [apply pick_longest_In | now left].
Qed.

Lemma match_at_span longest r pos rest m :
  match_at longest r pos rest = Some m ->
  m_start m = pos /\
  exists w rest', rest = w ++ rest' /\ m_end m = (pos + List.length w)%nat.
Proof.
  unfold match_at. destruct (pick longest (run r (pos, rest, []))) as [[[e rest'] cs]|] eqn:E;
    [|discriminate].
  intros [= <-]. apply pick_In, run_extends in E. destruct E as (w & H1 & H2).
  simpl in *. split; [reflexivity |]. eauto.
Qed.

(** [find_from] returns the match at the first position that has one. *)
Lemma find_from_leftmost longest r : forall rest pos m,
  find_from longest r pos rest = Some m ->
  exists k, (k <= List.length rest)%nat /\ m_start m = (pos + k)%nat /\
    match_at longest r (pos + k) (skipn k rest) = Some m /\
    forall j, (j < k)%nat -> match_at longest r (pos + j) (skipn j rest) = None.
Proof.
  induction rest as [|c rest IH]; intros pos m Hf; simpl in Hf.
  - destruct (match_at longest r pos []) eqn:E; [|discriminate].
    injection Hf as ->. exists 0%nat. rewrite Nat.add_0_r. simpl.
    destruct (match_at_span _ _ _ _ _ E) as [Hs _].
    repeat split; auto. lia.
  - destruct (match_at longest r pos (c :: rest)) eqn:E.
    + injection Hf as ->. exists 0%nat. rewrite Nat.add_0_r. simpl.
      destruct (match_at_span _ _ _ _ _ E) as [Hs _].
      repeat split; auto; lia.
    + apply IH in Hf. destruct Hf as (k & Hk & Hs & Hm & Hmin).
      exists (S k). simpl. rewrite <- Nat.add_succ_comm.
      repeat split; auto; [lia |].
      intros [|j] Hj; simpl.
      * now rewrite Nat.add_0_r.
      * rewrite <- Nat.add_succ_comm. apply Hmin. lia.
Qed.


(** A position with a match makes [find_from] succeed. *)
Lemma find_from_complete longest r : forall rest pos k m,
  (k <= List.length rest)%nat ->
  match_at longest r (pos + k) (skipn k rest) = Some m ->
  find_from longest r pos rest <> None.
Proof.
  induction rest as [|c rest IH]; intros pos k m Hk Hm; simpl.
  - assert (k = 0)%nat as -> by (simpl in Hk; lia).
    rewrite Nat.add_0_r in Hm. simpl in Hm. now rewrite Hm.
  - destruct (match_at longest r pos (c :: rest)) eqn:E; [discriminate |].
    destruct k as [|k].
    + rewrite Nat.add_0_r in Hm. simpl in Hm. congruence.
    + simpl in Hk, Hm. rewrite <- Nat.add_succ_comm in Hm.
      apply (IH (S pos) k m); [lia | exact Hm].
Qed.



End Matcher.

(** ** ACME challenges are delegated (C3) *)

Section Acme.

Variable cz : DomainCustomizations.


Lemma IsAcmeChallenge_inv (fqdnString : string) :
  IsAcmeChallenge cz fqdnString = true ->
  Regexp.MatchString dns01ChallengeRE fqdnString = true /\
  (NameToA cz fqdnString <> [] \/ NameToAAAA cz fqdnString <> []).
Proof.
  unfold IsAcmeChallenge.
  destruct (Regexp.MatchString dns01ChallengeRE fqdnString); [|discriminate].
  destruct (NameToA cz fqdnString); [|intros _; split; [reflexivity | left; discriminate]].
  destruct (NameToAAAA cz fqdnString); [discriminate |].
  intros _. split; [reflexivity | right; discriminate].
Qed.


End Acme.

(** ** The key-value protocol (C6, C7) *)

Section KeyValue.

Variable cz : DomainCustomizations.

Lemma is_label_Forall (s : string) :
  is_label s = true ->
  Forall (fun c => Ascii.eqb c "." = false) (list_ascii_of_string s).
Proof.
  unfold is_label. rewrite forallb_forall. intros H.
  apply List.Forall_forall. intros c Hc. apply H in Hc.
  now apply negb_true_iff in Hc.
Qed.

Lemma Split_label (s : string) : is_label s = true -> strings.Split s "." = [s].
Proof.
  intros H. unfold strings.Split.
  rewrite split_on_single by now apply is_label_Forall.
  simpl. now rewrite string_of_list_ascii_of_string.
Qed.

Lemma Split_app (a b : string) :
  strings.Split (a ++ "." ++ b) "." = strings.Split a "." ++ strings.Split b ".".
Proof.
  unfold strings.Split. rewrite list_ascii_of_string_app. simpl.
  now rewrite split_on_app, map_app.
Qed.

Lemma Join_Split (s : string) : strings.Join (strings.Split s ".") "." = s.
Proof.
  unfold strings.Split. rewrite (Join_split_on "." (list_ascii_of_string s)).
  apply string_of_list_ascii_of_string.
Qed.

Lemma Split_nonempty (s : string) : strings.Split s "." <> [].
Proof.
  unfold strings.Split. intros E. apply map_eq_nil in E.
  now apply split_on_nonempty in E.
Qed.

(** The labels of [K.k-v.io.] for a label [K]. *)
Lemma Split_key (K : string) :
  is_label K = true ->
  strings.Split (K ++ ".k-v.io.") "." = [K] ++ ["k-v"; "io"; ""]%string.
Proof.
  intros HK. change (K ++ ".k-v.io.")%string with (K ++ "." ++ "k-v.io.")%string.
  rewrite Split_app, (Split_label K HK). reflexivity.
Qed.

(** Every name that ends in [.k-v.io.] is a key-value name. *)
Lemma kvRE_suffix (p : string) :
  Regexp.MatchString kvRE (p ++ ".k-v.io.") = true.
Proof.
  unfold Regexp.MatchString, Regexp.find.
  destruct (Regexp.find_from false kvRE 0 (list_ascii_of_string (p ++ ".k-v.io.")))
    eqn:E; [reflexivity | exfalso].
  revert E. rewrite list_ascii_of_string_app.
  apply (find_from_complete false kvRE _ 0 (List.length (list_ascii_of_string p))
           (Regexp.Found (List.length (list_ascii_of_string p))
              (List.length (list_ascii_of_string p) + 8) [])).
  - rewrite length_app. lia.
  - rewrite skipn_app, skipn_all, Nat.sub_diag. simpl app.
    generalize (List.length (list_ascii_of_string p)). intros n.
    unfold Regexp.match_at. simpl.
    do 2 f_equal. lia.
Qed.

Lemma strip3_length {T : Type} (l : list T) (a b c : T) :
  Nat.ltb (List.length (l ++ [a; b; c])) 3 = false.
Proof. rewrite length_app. simpl. apply Nat.ltb_ge. lia. Qed.

Lemma strip3 {T : Type} (l : list T) (a b c : T) :
  sub_slice (l ++ [a; b; c]) 0 (List.length (l ++ [a; b; c]) - 3) = l.
Proof.
  unfold sub_slice. rewrite skipn_O, length_app. simpl List.length.
  replace (List.length l + 3 - 3 - 0)%nat with (List.length l) by lia.
  rewrite firstn_app, Nat.sub_diag, firstn_all. simpl. apply app_nil_r.
Qed.

Lemma nth_error_last {T : Type} (l : list T) (k : T) :
  nth_error (l ++ [k]) (List.length (l ++ [k]) - 1) = Some k.
Proof.
  rewrite length_app. simpl.
  replace (List.length l + 1 - 1)%nat with (List.length l) by lia.
  rewrite nth_error_app2 by lia. now rewrite Nat.sub_diag.
Qed.

(** [K.k-v.io.] reads the key. *)
Lemma kv_get (st : State) (K : string) :
  is_label K = true ->
  kvTXTResources st (K ++ ".k-v.io.") = getKv st (strings.ToLower K).
Proof.
  intros HK. unfold kvTXTResources. rewrite (Split_key K HK).
  rewrite strip3_length, strip3. reflexivity.
Qed.

(** The labels of [verb.K.k-v.io.]. *)
Lemma Split_verb_key (verb K : string) :
  is_label verb = true -> is_label K = true ->
  strings.Split (verb ++ "." ++ K ++ ".k-v.io.") "." =
  [verb; K] ++ ["k-v"; "io"; ""]%string.
Proof.
  intros Hv HK. rewrite Split_app, (Split_label verb Hv), (Split_key K HK).
  reflexivity.
Qed.

(** The labels of [verb.V.K.k-v.io.], where [V] may hold dots. *)
Lemma Split_verb_value_key (verb V K : string) :
  is_label verb = true -> is_label K = true ->
  strings.Split (verb ++ "." ++ V ++ "." ++ K ++ ".k-v.io.") "." =
  (verb :: strings.Split V "." ++ [K]) ++ ["k-v"; "io"; ""]%string.
Proof.
  intros Hv HK. rewrite Split_app, (Split_label verb Hv).
  rewrite Split_app, (Split_key K HK). simpl. now rewrite <- app_assoc.
Qed.

Lemma sub_slice_middle {T : Type} (v : T) (vs : list T) (verb k : T) :
  sub_slice (verb :: (v :: vs) ++ [k]) 1 (List.length (verb :: (v :: vs) ++ [k]) - 1) =
  v :: vs.
Proof.
  unfold sub_slice. rewrite skipn_cons, skipn_O. simpl List.length.
  rewrite length_app. simpl List.length.
  replace (S (S (List.length vs + 1)) - 1 - 1)%nat with (S (List.length vs)) by lia.
  change (v :: vs ++ [k]) with ((v :: vs) ++ [k]).
  rewrite firstn_app. change (S (List.length vs)) with (List.length (v :: vs)).
  rewrite Nat.sub_diag, firstn_all. simpl. now rewrite app_nil_r.
Qed.

(** What [verb.V.K.k-v.io.] does, by the lower-cased verb. *)
Lemma kv_verb_value (st : State) (verb V K : string) :
  is_label verb = true -> is_label K = true ->
  kvTXTResources st (verb ++ "." ++ V ++ "." ++ K ++ ".k-v.io.") =
  if String.eqb (strings.ToLower verb) "get" then getKv st (strings.ToLower K)
  else if String.eqb (strings.ToLower verb) "put" then putKv st (strings.ToLower K) V
  else if String.eqb (strings.ToLower verb) "delete" then deleteKv st (strings.ToLower K)
  else (st, Ok [txt1 "422: valid verbs are get, put, delete"]).
Proof.
  intros Hv HK. unfold kvTXTResources.
  rewrite (Split_verb_value_key verb V K Hv HK).
  rewrite strip3_length, strip3.
  pose proof (Join_Split V) as HJ.
  destruct (strings.Split V ".") as [|v vs] eqn:EV; [now apply Split_nonempty in EV |].
  change (verb :: (v :: vs) ++ [K]) with ((verb :: v :: vs) ++ [K]).
  rewrite nth_error_last.
  change ((verb :: v :: vs) ++ [K]) with (verb :: (v :: vs) ++ [K]).
  rewrite sub_slice_middle, HJ.
  assert (Nat.eqb (List.length (verb :: (v :: vs) ++ [K])) 1 = false) as ->
    by (simpl; reflexivity).
  assert (Nat.eqb (List.length (verb :: (v :: vs) ++ [K])) 2 = false) as ->.
  { simpl. rewrite length_app. simpl. apply Nat.eqb_neq. lia. }
  simpl hd. reflexivity.
Qed.

(** What [verb.K.k-v.io.] does: a put has no value to store. *)
Lemma kv_verb (st : State) (verb K : string) :
  is_label verb = true -> is_label K = true ->
  kvTXTResources st (verb ++ "." ++ K ++ ".k-v.io.") =
  if String.eqb (strings.ToLower verb) "get" then getKv st (strings.ToLower K)
  else if String.eqb (strings.ToLower verb) "put"
  then (st, Ok [txt1 "422: missing a value: put.value.key.k-v.io"])
  else if String.eqb (strings.ToLower verb) "delete" then deleteKv st (strings.ToLower K)
  else (st, Ok [txt1 "422: valid verbs are get, put, delete"]).
Proof.
  intros Hv HK. unfold kvTXTResources.
  rewrite (Split_verb_key verb K Hv HK).
  rewrite strip3_length, strip3. reflexivity.
Qed.

Lemma TXTResources_kv (st : State) (p : string) (srcAddr : Net.IP) :
  TXTResources cz st (p ++ ".k-v.io.") srcAddr = kvTXTResources st (p ++ ".k-v.io.").
Proof. unfold TXTResources. now rewrite kvRE_suffix. Qed.


Lemma truncate63_long (V : string) :
  (63 < String.length V)%nat -> truncate63 V = String.substring 0 63 V.
Proof.
  intros H. unfold truncate63.
  destruct (Nat.ltb_spec 63 (String.length V)); [reflexivity | lia].
Qed.

End KeyValue.

Section KeyValueCommands.

Variable cz : DomainCustomizations.

Lemma put_local (st : State) (key V : string) :
  Etcd (st_x st) = None ->
  putKv st key V =
  (mkState (st_x st) (<[key := [txt1 (truncate63 V)]]> (st_kv st)),
   Ok [txt1 (truncate63 V)]).
Proof. intros H. unfold putKv. now rewrite H. Qed.

Lemma TXT_verb_value (st : State) (verb V K : string) (srcAddr : Net.IP) :
  TXTResources cz st (verb ++ "." ++ V ++ "." ++ K ++ ".k-v.io.") srcAddr =
  kvTXTResources st (verb ++ "." ++ V ++ "." ++ K ++ ".k-v.io.").
Proof.
  replace (verb ++ "." ++ V ++ "." ++ K ++ ".k-v.io.")%string
    with ((verb ++ "." ++ V ++ "." ++ K) ++ ".k-v.io.")%string
    by (now rewrite <- !string_app_assoc).
  apply TXTResources_kv.
Qed.

Lemma TXT_verb (st : State) (verb K : string) (srcAddr : Net.IP) :
  TXTResources cz st (verb ++ "." ++ K ++ ".k-v.io.") srcAddr =
  kvTXTResources st (verb ++ "." ++ K ++ ".k-v.io.").
Proof.
  replace (verb ++ "." ++ K ++ ".k-v.io.")%string
    with ((verb ++ "." ++ K) ++ ".k-v.io.")%string
    by (now rewrite <- !string_app_assoc).
  apply TXTResources_kv.
Qed.

Lemma TXT_put (st : State) (K V : string) (srcAddr : Net.IP) :
  is_label K = true ->
  TXTResources cz st ("put." ++ V ++ "." ++ K ++ ".k-v.io.") srcAddr =
  putKv st (strings.ToLower K) V.
Proof.
  intros HK.
  change ("put." ++ V ++ "." ++ K ++ ".k-v.io.")%string
    with ("put" ++ "." ++ V ++ "." ++ K ++ ".k-v.io.")%string.
  rewrite TXT_verb_value.
  now rewrite (kv_verb_value st "put" V K eq_refl HK).
Qed.

Lemma TXT_get (st : State) (K : string) (srcAddr : Net.IP) :
  is_label K = true ->
  TXTResources cz st (K ++ ".k-v.io.") srcAddr = getKv st (strings.ToLower K).
Proof. intros HK. rewrite TXTResources_kv. now apply kv_get. Qed.

Lemma TXT_delete (st : State) (K : string) (srcAddr : Net.IP) :
  is_label K = true ->
  TXTResources cz st ("delete." ++ K ++ ".k-v.io.") srcAddr =
  deleteKv st (strings.ToLower K).
Proof.
  intros HK.
  change ("delete." ++ K ++ ".k-v.io.")%string
    with ("delete" ++ "." ++ K ++ ".k-v.io.")%string.
  rewrite TXT_verb.
  now rewrite (kv_verb st "delete" K eq_refl HK).
Qed.


(** C7. Commands that are too long or malformed are answered, not
    refused.  With the in-memory store a put of a value above 63 bytes
    stores and returns its first 63 bytes; whatever the store, a put
    without a value returns the one TXT record
    [422: missing a value: put.value.key.k-v.io], and a verb other than
    get, put and delete, with or without a value, returns the one TXT
    record [422: valid verbs are get, put, delete].  Each of them returns
    no error. *)
Theorem kv_malformed_commands_are_answered (st : State) (srcAddr : Net.IP) :
  (forall K V,
      Etcd (st_x st) = None -> is_label K = true -> (63 < String.length V)%nat ->
      TXTResources cz st ("put." ++ V ++ "." ++ K ++ ".k-v.io.") srcAddr =
      (mkState (st_x st)
         (<[strings.ToLower K := [txt1 (String.substring 0 63 V)]]> (st_kv st)),
       Ok [txt1 (String.substring 0 63 V)])) /\
  (forall K,
      is_label K = true ->
      TXTResources cz st ("put." ++ K ++ ".k-v.io.") srcAddr =
      (st, Ok [txt1 "422: missing a value: put.value.key.k-v.io"])) /\
  (forall verb K,
      is_label verb = true -> is_label K = true ->
      strings.ToLower verb <> "get"%string ->
      strings.ToLower verb <> "put"%string ->
      strings.ToLower verb <> "delete"%string ->
      TXTResources cz st (verb ++ "." ++ K ++ ".k-v.io.") srcAddr =
      (st, Ok [txt1 "422: valid verbs are get, put, delete"]) /\
      forall V,
        TXTResources cz st (verb ++ "." ++ V ++ "." ++ K ++ ".k-v.io.") srcAddr =
        (st, Ok [txt1 "422: valid verbs are get, put, delete"])).
Proof.
  split; [|split].
  - intros K V Hlocal HK HV.
    rewrite (TXT_put st K V srcAddr HK), (put_local st _ V Hlocal).
    now rewrite (truncate63_long V HV).
  - intros K HK.
    change ("put." ++ K ++ ".k-v.io.")%string
      with ("put" ++ "." ++ K ++ ".k-v.io.")%string.
    rewrite TXT_verb.
    now rewrite (kv_verb st "put" K eq_refl HK).
  - intros verb K Hv HK Hget Hput Hdel.
    apply String.eqb_neq in Hget, Hput, Hdel.
    split; [|intros V].
    + rewrite TXT_verb, (kv_verb st verb K Hv HK). now rewrite Hget, Hput, Hdel.
    + rewrite TXT_verb_value, (kv_verb_value st verb V K Hv HK).
      now rewrite Hget, Hput, Hdel.
Qed.

End KeyValueCommands.

(** ** The blocklist and the private ranges (C2) *)

Section PrivateRanges.

Import Net.

Lemma land_255 (a : Z) : 0 <= a < 256 -> Z.land a 255 = a.
Proof.
  intros H. change 255 with (Z.ones 8). rewrite Z.land_ones by lia.
  apply Z.mod_small. change (2 ^ 8) with 256. lia.
Qed.

(** [To4] yields nil or four bytes of the address. *)
Lemma To4_cases (ip : IP) :
  (To4 ip = [] /\ Nat.eqb (List.length ip) 4 = false) \/
  (exists a b c d, To4 ip = [a; b; c; d] /\ (is_bytes ip -> is_bytes [a; b; c; d])).
Proof.
  unfold To4, IPv4len, IPv6len.
  destruct (Nat.eqb_spec (List.length ip) 4) as [H4|H4].
  - right. destruct ip as [|a [|b [|c [|d [|e l]]]]]; try discriminate.
    exists a, b, c, d. split; auto.
  - destruct (Nat.eqb_spec (List.length ip) 16) as [H16|H16]; [|left; split; auto].
    cbn [andb].
    destruct (isZeros (firstn 10 ip) && (at_ ip 10 =? 255) && (at_ ip 11 =? 255));
      [|left; split; auto].
    right.
    do 16 (destruct ip as [|? ip]; [discriminate |]).
    destruct ip; [|discriminate]. simpl.
    eexists _, _, _, _. split; [reflexivity |].
    intros Hb. unfold is_bytes in *.
    repeat match goal with
           | H : List.Forall _ (_ :: _) |- _ => inversion H; subst; clear H
           end.
    repeat (apply List.Forall_cons; [assumption |]). apply List.Forall_nil.
Qed.

Lemma To4_four (a b c d : Z) : To4 [a; b; c; d] = [a; b; c; d].
Proof. reflexivity. Qed.

Lemma IsPrivate_To4 (ip : IP) (a b c d : Z) :
  To4 ip = [a; b; c; d] -> IsPrivate ip = rfc1918 a b.
Proof. intros H. unfold IsPrivate. rewrite H. reflexivity. Qed.

Lemma Contains_To4 (n : IPNet) (ip : IP) (a b c d : Z) :
  To4 ip = [a; b; c; d] -> Contains n ip = Contains n [a; b; c; d].
Proof. intros H. unfold Contains. rewrite H, To4_four. reflexivity. Qed.

Lemma in_ranges_To4 (rs : list IPNet) (ip : IP) (a b c d : Z) :
  To4 ip = [a; b; c; d] -> in_ranges rs ip = in_ranges rs [a; b; c; d].
Proof.
  intros H. unfold in_ranges. induction rs as [|n rs IH]; simpl; [reflexivity |].
  now rewrite IH, (Contains_To4 n ip a b c d H).
Qed.

Lemma private_ranges_four (a b c d : Z) :
  is_bytes [a; b; c; d] -> in_ranges private_ranges [a; b; c; d] = rfc1918 a b.
Proof.
  intros Hb. unfold is_bytes in Hb.
  inversion Hb as [|? ? Ha Hb1]; subst. inversion Hb1 as [|? ? Hb' _]; subst.
  unfold in_ranges, private_ranges, Contains, rfc1918. cbn.
  rewrite !Z.land_0_r, !(land_255 a Ha), !(land_255 b Hb').
  change (Z.land 10 255) with 10. change (Z.land 172 255) with 172.
  change (Z.land 192 255) with 192. change (Z.land 168 255) with 168.
  change (Z.land 16 240) with 16. change (0 =? 0) with true.
  rewrite !andb_true_r, orb_false_r.
  rewrite (Z.eqb_sym 10 a), (Z.eqb_sym 172 a), (Z.eqb_sym 192 a),
    (Z.eqb_sym 168 b), (Z.eqb_sym 16 (Z.land b 240)).
  now rewrite orb_assoc.
Qed.

Lemma Contains_no_To4 (n : IPNet) (ip : IP) :
  To4 ip = [] ->
  Contains n ip =
  let '(nn, m) := networkNumberAndMask n in
  if negb (Nat.eqb (List.length ip) (List.length nn)) then false
  else forallb (fun '(a, b, k) => Z.eqb (Z.land a k) (Z.land b k))
         (combine (combine nn ip) m).
Proof. intros H. unfold Contains. rewrite H. reflexivity. Qed.

Lemma private_ranges_no_To4 (ip : IP) :
  To4 ip = [] -> Nat.eqb (List.length ip) 4 = false ->
  in_ranges private_ranges ip =
  Nat.eqb (List.length ip) 16 && (Z.land (at_ ip 0) 254 =? 252).
Proof.
  intros H H4. unfold in_ranges, private_ranges. cbn [existsb].
  rewrite !(Contains_no_To4 _ ip H).
  repeat match goal with
         | |- context [networkNumberAndMask ?n] =>
             let v := eval vm_compute in (networkNumberAndMask n) in
             change (networkNumberAndMask n) with v
         end.
  cbv iota beta. cbn [List.length].
  rewrite H4. cbn [negb orb].
  destruct (Nat.eqb_spec (List.length ip) 16) as [H16|H16]; [|reflexivity].
  do 16 (destruct ip as [|? ip]; [discriminate |]).
  destruct ip; [|discriminate]. cbn.
  rewrite !Z.land_0_r. change (Z.land 252 254) with 252. change (0 =? 0) with true.
  rewrite !andb_true_r, orb_false_r. apply Z.eqb_sym.
Qed.

(** [IsPrivate] holds exactly for the addresses of 10/8, 172.16/12,
    192.168/16 and fc00::/7. *)
Lemma IsPrivate_ranges (ip : IP) :
  is_bytes ip -> IsPrivate ip = in_ranges private_ranges ip.
Proof.
  intros Hb. destruct (To4_cases ip) as [[H H4]|(a & b & c & d & H & Hbytes)].
  - rewrite (private_ranges_no_To4 ip H H4). unfold IsPrivate. now rewrite H.
  - rewrite (IsPrivate_To4 ip a b c d H), (in_ranges_To4 _ ip a b c d H).
    symmetry. apply private_ranges_four. auto.
Qed.

End PrivateRanges.

Section Blocklist.

Variable cz : DomainCustomizations.

(** [blocklist] says yes exactly when the name yields an address, the
    address is not private, and a blocked string or network matches. *)
Lemma blocklist_true_iff (x : Xip) (hostname : string) :
  blocklist cz x hostname = true <->
  (NameToA cz hostname <> [] \/ NameToAAAA cz hostname <> []) /\
  Net.IsPrivate (blocklist_ip (NameToA cz hostname) (NameToAAAA cz hostname)) = false /\
  (existsb (fun blockstring => strings.Contains hostname blockstring)
           (BlocklistStrings x) = true \/
   existsb (fun blockCDIR =>
              Net.Contains blockCDIR
                (blocklist_ip (NameToA cz hostname) (NameToAAAA cz hostname)))
           (BlocklistCDIRs x) = true).
Proof.
  unfold blocklist.
  destruct (NameToA cz hostname) as [|a l4]; destruct (NameToAAAA cz hostname) as [|a6 l6];
    cbn [List.length Nat.eqb andb].
  1: { split; [discriminate | intros [[H|H] _]; contradiction]. }
  all: destruct (Net.IsPrivate _);
    [split; [discriminate | intros (_ & H & _); discriminate] |].
  all: destruct (existsb _ (BlocklistStrings x));
    [split; [intros _; repeat split; auto; first [left; discriminate | right; discriminate]
            | reflexivity] |].
  all: destruct (existsb _ (BlocklistCDIRs x));
    [split; [intros _; repeat split; auto; first [left; discriminate | right; discriminate]
            | reflexivity] |].
  all: split; [discriminate | intros (_ & _ & [H|H]); discriminate].
Qed.

(** C2, as the code has it.  [blocklist] returns true only for a name
    that yields an address outside 10/8, 172.16/12, 192.168/16 and
    fc00::/7; for a name whose address lies in one of these four ranges
    it returns false, whatever the blocked strings and networks are.
    The other ranges the specification lists are not exempt. *)
Theorem blocklist_exempts_private_ranges (x : Xip) (hostname : string) :
  let ip := blocklist_ip (NameToA cz hostname) (NameToAAAA cz hostname) in
  is_bytes ip ->
  (blocklist cz x hostname = true ->
   (NameToA cz hostname <> [] \/ NameToAAAA cz hostname <> []) /\
   in_ranges private_ranges ip = false) /\
  (in_ranges private_ranges ip = true -> blocklist cz x hostname = false).
Proof.
  intros ip Hb. rewrite <- (IsPrivate_ranges ip Hb). split.
  - intros H. apply blocklist_true_iff in H. destruct H as (Hip & Hpriv & _).
    split; assumption.
  - intros Hpriv. destruct (blocklist cz x hostname) eqn:E; [|reflexivity].
    apply blocklist_true_iff in E. destruct E as (_ & Hnp & _).
    fold ip in Hnp. congruence.
Qed.

End Blocklist.

(** ** Blocked strings are lower case, names are compared as they are (C10) *)

Section BlockedStrings.

Import Regexp.

Lemma patterns_compile :
  Compile "(^|[.-])(((25[0-5]|(2[0-4]|1?[0-9])?[0-9])\.){3}(25[0-5]|(2[0-4]|1?[0-9])?[0-9]))($|[.-])"
    = Some ipv4REDots /\
  Compile "(^|[.-])(((25[0-5]|(2[0-4]|1?[0-9])?[0-9])-){3}(25[0-5]|(2[0-4]|1?[0-9])?[0-9]))($|[.-])"
    = Some ipv4REDashes /\
  Compile "(?i)_acme-challenge\." = Some dns01ChallengeRE /\
  Compile "\.k-v\.io\.$" = Some kvRE /\
  Compile "#.*" = Some comments /\
  Compile "[^-_0-9a-z]" = Some invalidDNSchars /\
  Compile "[^-_0-9a-z/.:]" = Some invalidDNScharsWithSlashesDotsAndColons /\
  ipv6RE <> ReClass false [].
Proof. repeat split; try (vm_compute; reflexivity). discriminate. Qed.

Lemma find_class_spec neg rs : forall rest pos,
  match find_from false (ReClass neg rs) pos rest with
  | None => List.Forall (fun c => in_class neg rs c = false) rest
  | Some m =>
      exists pre c post,
        rest = pre ++ c :: post /\
        List.Forall (fun c => in_class neg rs c = false) pre /\
        in_class neg rs c = true /\
        m_start m = (pos + List.length pre)%nat /\
        m_end m = S (pos + List.length pre)
  end.
Proof.
  induction rest as [|c rest IH]; intros pos.
  - simpl. constructor.
  - cbn [find_from]. unfold match_at. cbn [run pick].
    destruct (in_class neg rs c) eqn:Ec.
    + cbn. exists [], c, rest. repeat split; auto; simpl; lia.
    + cbn [pick]. specialize (IH (S pos)).
      destruct (find_from false (ReClass neg rs) (S pos) rest) as [m|].
      * destruct IH as (pre & c' & post & -> & Hpre & Hc & Hs & He).
        exists (c :: pre), c', post. simpl. repeat split; auto; lia.
      * constructor; assumption.
Qed.

Lemma filter_keep {T : Type} (f : T -> bool) (l : list T) :
  List.Forall (fun c => f c = true) l -> List.filter f l = l.
Proof.
  induction 1 as [|c l Hc _ IH]; simpl; [reflexivity |]. now rewrite Hc, IH.
Qed.

Lemma firstn_pre {T : Type} (pre rest : list T) :
  firstn (List.length pre) (pre ++ rest) = pre.
Proof. induction pre as [|a pre IH]; simpl; [reflexivity | now rewrite IH]. Qed.

Lemma skipn_pre {T : Type} (pre : list T) (c : T) (post : list T) :
  skipn (S (List.length pre)) (pre ++ c :: post) = post.
Proof. induction pre as [|a pre IH]; simpl; [reflexivity | exact IH]. Qed.

(** Deleting the matches of a character class keeps the other characters. *)
Lemma delete_all_class neg rs : forall f pos rest,
  (List.length rest < f)%nat ->
  delete_all f (ReClass neg rs) pos rest =
  List.filter (fun c => negb (in_class neg rs c)) rest.
Proof.
  induction f as [|f IH]; intros pos rest Hf; [lia |].
  cbn [delete_all]. pose proof (find_class_spec neg rs rest pos) as Hspec.
  destruct (find_from false (ReClass neg rs) pos rest) as [m|].
  - destruct Hspec as (pre & c & post & -> & Hpre & Hc & Hs & He).
    rewrite Hs, He.
    replace (Nat.ltb (pos + List.length pre) (S (pos + List.length pre))) with true
      by (symmetry; apply Nat.ltb_lt; lia).
    replace (pos + List.length pre - pos)%nat with (List.length pre) by lia.
    replace (S (pos + List.length pre) - pos)%nat with (S (List.length pre)) by lia.
    rewrite firstn_pre, skipn_pre.
    rewrite IH by (rewrite length_app in Hf; simpl in Hf; lia).
    rewrite List.filter_app. cbn [List.filter]. rewrite Hc. cbn [negb].
    f_equal. symmetry. apply filter_keep.
    eapply List.Forall_impl; [|exact Hpre]. intros a Ha. cbn beta. now rewrite Ha.
  - symmetry. apply filter_keep.
    eapply List.Forall_impl; [|exact Hspec]. intros a Ha. cbn beta. now rewrite Ha.
Qed.

Lemma dns_char_not_invalid (c : ascii) :
  negb (in_class true [("-", "-"); ("_", "_"); ("0", "9"); ("a", "z")]%char c) = dns_char c.
Proof.
  unfold dns_char, in_class. now destruct (existsb _ _).
Qed.

(** What is left of a line after [invalidDNSchars] is deleted. *)
Lemma DeleteAllString_invalidDNSchars (line : string) :
  List.Forall (fun c => dns_char c = true)
    (list_ascii_of_string (DeleteAllString invalidDNSchars line)).
Proof.
  unfold DeleteAllString. rewrite list_ascii_of_string_of_list_ascii.
  unfold invalidDNSchars. rewrite delete_all_class by lia.
  apply List.Forall_forall. intros c Hc. apply List.filter_In in Hc.
  destruct Hc as [_ Hc]. now rewrite <- dns_char_not_invalid.
Qed.

Lemma ReadBlocklist_line_valid (line : string) (acc : list string * list Net.IPNet) :
  blocked_strings_valid (fst acc) ->
  blocked_strings_valid (fst (ReadBlocklist_line line acc)).
Proof.
  intros H. unfold ReadBlocklist_line. destruct acc as [ss cs].
  destruct (Net.ParseCIDR _); [exact H |].
  destruct (String.eqb _ EmptyString); [exact H |].
  cbn [fst]. apply List.Forall_app. split; [exact H |].
  constructor; [|constructor]. apply DeleteAllString_invalidDNSchars.
Qed.

(** Every blocked string [ReadBlocklist] returns is made of the
    characters [-], [_], [0-9] and [a-z]. *)
Lemma ReadBlocklist_valid (input : string) :
  blocked_strings_valid (fst (fst (ReadBlocklist input))).
Proof.
  unfold ReadBlocklist.
  destruct (existsb _ (scan_lines input)); [constructor |].
  assert (forall ls acc, blocked_strings_valid (fst acc) ->
            blocked_strings_valid
              (fst (fold_left
                      (fun acc l => ReadBlocklist_line (string_of_list_ascii (dropCR l)) acc)
                      ls acc))) as Hfold.
  { induction ls as [|l ls IH]; intros acc Hacc; simpl; [exact Hacc |].
    apply IH. now apply ReadBlocklist_line_valid. }
  specialize (Hfold (scan_lines input) ([], []) (List.Forall_nil _)).
  destruct (fold_left _ (scan_lines input) ([], [])) as [ss cs]. exact Hfold.
Qed.

Lemma dns_char_lower (c : ascii) :
  dns_char c = true -> is_upper c = false /\ lower_ascii c = c.
Proof.
  destruct c as [[] [] [] [] [] [] [] []]; vm_compute; intros H;
    first [discriminate H | split; reflexivity].
Qed.

Lemma has_prefix_firstn (p s : list ascii) :
  strings.has_prefix p s = true -> firstn (List.length p) s = p.
Proof.
  revert s. induction p as [|a p IH]; intros s H; [reflexivity |].
  destruct s as [|b s]; [discriminate |]. simpl in H.
  apply andb_true_iff in H. destruct H as [Hab H].
  apply Ascii.eqb_eq in Hab. subst b. simpl. now rewrite IH.
Qed.

Lemma has_prefix_map (f : ascii -> ascii) (p s : list ascii) :
  strings.has_prefix p s = true -> strings.has_prefix (map f p) (map f s) = true.
Proof.
  revert s. induction p as [|a p IH]; intros s H; [reflexivity |].
  destruct s as [|b s]; [discriminate |]. simpl in H |- *.
  apply andb_true_iff in H. destruct H as [Hab H].
  apply Ascii.eqb_eq in Hab. subst b. rewrite Ascii.eqb_refl. now apply IH.
Qed.

Lemma contains_position (s sub : list ascii) :
  strings.contains s sub = true ->
  exists i, (i <= List.length s)%nat /\ strings.has_prefix sub (skipn i s) = true.
Proof.
  induction s as [|c s IH]; simpl; intros H.
  - rewrite orb_false_r in H. exists 0%nat. split; [lia | exact H].
  - apply orb_true_iff in H. destruct H as [H|H].
    + exists 0%nat. split; [lia | exact H].
    + destruct (IH H) as (i & Hi & Hp). exists (S i). split; [lia | exact Hp].
Qed.

Lemma map_lower_valid (b : list ascii) :
  List.Forall (fun c => dns_char c = true) b -> map lower_ascii b = b.
Proof.
  induction 1 as [|c b Hc _ IH]; [reflexivity |].
  simpl. rewrite IH. now destruct (dns_char_lower c Hc) as [_ ->].
Qed.

Lemma no_upper_valid (b : list ascii) :
  List.Forall (fun c => dns_char c = true) b -> existsb is_upper b = false.
Proof.
  induction 1 as [|c b Hc _ IH]; [reflexivity |].
  simpl. rewrite IH. now destruct (dns_char_lower c Hc) as [-> _].
Qed.

(** A blocked string that appears in the name only with an upper-case
    letter does not appear in it as [strings.Contains] sees it. *)
Lemma Contains_uppercased (blockstring hostname : string) :
  List.Forall (fun c => dns_char c = true) (list_ascii_of_string blockstring) ->
  appears_only_uppercased blockstring hostname = true ->
  strings.Contains hostname blockstring = false.
Proof.
  intros Hvalid Hup. unfold strings.Contains.
  destruct (strings.contains _ _) eqn:E; [exfalso | reflexivity].
  apply contains_position in E. destruct E as (i & Hi & Hp).
  unfold appears_only_uppercased in Hup. rewrite forallb_forall in Hup.
  specialize (Hup i). rewrite in_seq in Hup. specialize (Hup ltac:(lia)).
  rewrite (has_prefix_firstn _ _ Hp), (no_upper_valid _ Hvalid) in Hup.
  apply (has_prefix_map lower_ascii) in Hp.
  rewrite (map_lower_valid _ Hvalid), <- skipn_map in Hp.
  rewrite Hp in Hup. discriminate.
Qed.

End BlockedStrings.

Section CaseSensitive.

Variable cz : DomainCustomizations.

(** C10. The blocked strings that [ReadBlocklist] returns are lower case,
    and [blocklist] looks for them in the name as it was queried.  So a
    name in which every blocked string appears, if at all, only with an
    upper-case letter, and whose address lies in no blocked network, is
    not blocklisted. *)
Theorem blocklist_is_case_sensitive (x : Xip) (input hostname : string) :
  BlocklistStrings x = fst (fst (ReadBlocklist input)) ->
  forallb (fun blockstring => appears_only_uppercased blockstring hostname)
          (BlocklistStrings x) = true ->
  existsb (fun blockCDIR =>
             Net.Contains blockCDIR
               (blocklist_ip (NameToA cz hostname) (NameToAAAA cz hostname)))
          (BlocklistCDIRs x) = false ->
  blocked_strings_valid (BlocklistStrings x) /\
  blocklist cz x hostname = false.
Proof.
  intros Hread Hup Hcidr.
  assert (blocked_strings_valid (BlocklistStrings x)) as Hvalid
    by (rewrite Hread; apply ReadBlocklist_valid).
  split; [exact Hvalid |].
  destruct (blocklist cz x hostname) eqn:E; [exfalso | reflexivity].
  apply blocklist_true_iff in E. destruct E as (_ & _ & [Hs|Hc]); [|congruence].
  apply existsb_exists in Hs. destruct Hs as (blockstring & Hin & Hcontains).
  rewrite forallb_forall in Hup. specialize (Hup _ Hin).
  unfold blocked_strings_valid in Hvalid.
  rewrite List.Forall_forall in Hvalid. specialize (Hvalid _ Hin).
  rewrite (Contains_uppercased _ _ Hvalid Hup) in Hcontains. discriminate.
Qed.

End CaseSensitive.

(** ** What the matcher reads is a word of the pattern *)

Section MatcherWords.

Import Regexp.

Lemma reads_nil t : reads t [] t.
Proof. split; simpl; [reflexivity | lia]. Qed.

Lemma reads_app t1 w1 t2 w2 t3 :
  reads t1 w1 t2 -> reads t2 w2 t3 -> reads t1 (w1 ++ w2) t3.
Proof.
  intros [H1 P1] [H2 P2]. split.
  - now rewrite H1, H2, app_assoc.
  - rewrite P2, P1, length_app. lia.
Qed.

Lemma rep_opt_sound step (P : list ascii -> Prop) :
  (forall t t', In t' (step t) -> exists w, reads t w t' /\ P w) ->
  forall extra t t', In t' (rep_opt step extra t) ->
    exists n w, (n <= extra)%nat /\ reads t w t' /\ lang_pow P n w.
Proof.
  intros Hstep. induction extra as [|e IH]; intros t t' Hin; simpl in Hin.
  - destruct Hin as [<-|[]]. exists 0%nat, [].
    split; [lia | split; [apply reads_nil | reflexivity]].
  - apply in_app_or in Hin. destruct Hin as [Hin|[<-|[]]].
    + unfold bind in Hin. apply in_flat_map in Hin. destruct Hin as (u & Hu & Hu').
      destruct (Hstep _ _ Hu) as (w1 & Hr1 & Hw1).
      destruct (IH _ _ Hu') as (n & w2 & Hn & Hr2 & Hw2).
      exists (S n), (w1 ++ w2).
      split; [lia | split; [eapply reads_app; eauto |]].
      simpl. eauto.
    + exists 0%nat, []. split; [lia | split; [apply reads_nil | reflexivity]].
Qed.

Lemma rep_min_sound step (P : list ascii -> Prop) :
  (forall t t', In t' (step t) -> exists w, reads t w t' /\ P w) ->
  forall lo extra t t', In t' (rep_min step lo extra t) ->
    exists n w, (lo <= n <= lo + extra)%nat /\ reads t w t' /\ lang_pow P n w.
Proof.
  intros Hstep. induction lo as [|l IH]; intros extra t t' Hin; simpl in Hin.
  - destruct (rep_opt_sound step P Hstep _ _ _ Hin) as (n & w & Hn & Hr & Hw).
    exists n, w. split; [lia | split; assumption].
  - unfold bind in Hin. apply in_flat_map in Hin. destruct Hin as (u & Hu & Hu').
    destruct (Hstep _ _ Hu) as (w1 & Hr1 & Hw1).
    destruct (IH _ _ _ Hu') as (n & w2 & Hn & Hr2 & Hw2).
    exists (S n), (w1 ++ w2).
    split; [lia | split; [eapply reads_app; eauto |]].
    simpl. eauto.
Qed.

(** Soundness of the matcher: each way it matches [r] reads a word of [r]. *)
Lemma run_sound r : forall t t', In t' (run r t) -> exists w, reads t w t' /\ lang r w.
Proof.
  induction r as [| neg rs | | | | a IHa b IHb | a IHa b IHb | a IHa lo hi | i a IHa];
    intros [[pos rest] cs] t' Hin; simpl in Hin.
  - destruct Hin as [<-|[]]. exists []. split; [apply reads_nil | reflexivity].
  - destruct rest as [|c rest']; [destruct Hin |].
    destruct (in_class neg rs c) eqn:Ec; [|destruct Hin].
    destruct Hin as [<-|[]]. exists [c]. split.
    + split; simpl; [reflexivity | lia].
    + simpl. eauto.
  - destruct rest as [|c rest']; [destruct Hin |].
    destruct (Ascii.eqb c "010"); [destruct Hin |].
    destruct Hin as [<-|[]]. exists [c]. split.
    + split; simpl; [reflexivity | lia].
    + simpl. eauto.
  - destruct (Nat.eqb pos 0); [|destruct Hin].
    destruct Hin as [<-|[]]. exists []. split; [apply reads_nil | reflexivity].
  - destruct rest; [|destruct Hin].
    destruct Hin as [<-|[]]. exists []. split; [apply reads_nil | reflexivity].
  - unfold bind in Hin. apply in_flat_map in Hin. destruct Hin as (u & Hu & Hu').
    destruct (IHa _ _ Hu) as (w1 & Hr1 & Hw1).
    destruct (IHb _ _ Hu') as (w2 & Hr2 & Hw2).
    exists (w1 ++ w2). split; [eapply reads_app; eauto |]. simpl. eauto.
  - apply in_app_or in Hin. destruct Hin as [Hin|Hin].
    + destruct (IHa _ _ Hin) as (w & Hr & Hw). exists w. simpl. auto.
    + destruct (IHb _ _ Hin) as (w & Hr & Hw). exists w. simpl. auto.
  - destruct hi as [h|].
    + destruct (rep_min_sound (run a) (lang a) IHa _ _ _ _ Hin) as (n & w & Hn & Hr & Hw).
      exists w. split; [exact Hr |]. simpl. exists n.
      split; [lia | split; [lia | exact Hw]].
    + destruct (rep_min_sound (run a) (lang a) IHa _ _ _ _ Hin) as (n & w & Hn & Hr & Hw).
      exists w. split; [exact Hr |]. simpl. exists n.
      split; [lia | split; [exact I | exact Hw]].
  - apply in_map_iff in Hin. destruct Hin as ([[pos' rest'] cs'] & <- & Hin).
    destruct (IHa _ _ Hin) as (w & Hr & Hw). exists w. split; [exact Hr | exact Hw].
Qed.

Lemma ipv4REDots_shape : ipv4REDots = ipv4RE_shape ".".
Proof. reflexivity. Qed.

Lemma ipv4REDashes_shape : ipv4REDashes = ipv4RE_shape "-".
Proof. reflexivity. Qed.

Lemma run_cat a b t : run (ReCat a b) t = bind (run a t) (run b).
Proof. destruct t as [[pos rest] cs]. reflexivity. Qed.

Lemma run_cap i a t :
  run (ReCap i a) t =
  map (fun '(pos', rest', cs') => (pos', rest', (i, (fst (fst t), pos')) :: cs')) (run a t).
Proof. destruct t as [[pos rest] cs]. reflexivity. Qed.

Lemma run_boundary_caps (r : re) (t t' : thread) :
  r = ReAlt ReEol boundaryRE \/ r = ReAlt ReBol boundaryRE ->
  In t' (run r t) -> snd t' = snd t.
Proof.
  destruct t as [[pos rest] cs].
  intros [-> | ->] Hin; unfold boundaryRE in Hin; cbn [run] in Hin;
    apply in_app_or in Hin; destruct Hin as [Hin|Hin].
  - destruct rest; [|destruct Hin]. destruct Hin as [<-|[]]. reflexivity.
  - destruct rest as [|c r]; [destruct Hin |].
    destruct (in_class _ _ c); [|destruct Hin]. destruct Hin as [<-|[]]. reflexivity.
  - destruct (Nat.eqb pos 0); [|destruct Hin]. destruct Hin as [<-|[]]. reflexivity.
  - destruct rest as [|c r]; [destruct Hin |].
    destruct (in_class _ _ c); [|destruct Hin]. destruct Hin as [<-|[]]. reflexivity.
Qed.

(** The patterns of the name parser are a boundary, group 2 and a
    boundary: in a match, group 2 spans a word of its pattern. *)
Lemma group2_span (X : re) (k pos : nat) (rest : list ascii) (t' : thread) :
  k <> 2%nat ->
  In t' (run (bounded_shape X k) (pos, rest, [])) ->
  exists w0 w : list ascii,
    lookup_cap 2 (snd t') =
      Some ((pos + List.length w0)%nat, (pos + List.length w0 + List.length w)%nat) /\
    firstn (List.length w) (skipn (List.length w0) rest) = w /\
    (List.length w0 <= 1)%nat /\
    lang X w.
Proof.
  unfold bounded_shape. intros Hk Hin.
  rewrite run_cat in Hin. unfold bind in Hin. apply in_flat_map in Hin.
  destruct Hin as (t1 & H1 & Hin).
  rewrite run_cat in Hin. unfold bind in Hin. apply in_flat_map in Hin.
  destruct Hin as (t2 & H2 & H3).
  destruct (run_sound _ _ _ H1) as (w0 & [Hr0 Hp0] & Hw0).
  destruct t1 as [[p1 rest1] cs1]. simpl in Hr0, Hp0.
  rewrite run_cap in H2. apply in_map_iff in H2.
  destruct H2 as ([[p2 rest2] cs2] & <- & H2).
  destruct (run_sound _ _ _ H2) as (w & [Hr Hp] & Hw). simpl in Hr, Hp.
  exists w0, w. subst p1 p2. split; [|split; [|split; [|exact Hw]]].
  - rewrite run_cap in H3. apply in_map_iff in H3.
    destruct H3 as ([[p3 rest3] cs3] & <- & H3). cbn [snd fst].
    apply (run_boundary_caps _ _ _ (or_introl eq_refl)) in H3. cbn [snd] in H3.
    subst cs3. unfold lookup_cap. cbn [List.find fst].
    apply Nat.eqb_neq in Hk. rewrite Hk. reflexivity.
  - rewrite Hr0, skipn_app, skipn_all, Nat.sub_diag. cbn [skipn app].
    rewrite Hr. apply firstn_pre.
  - cbn [lang] in Hw0. destruct Hw0 as [-> | (c & -> & _)]; simpl; lia.
Qed.

Lemma ipv4RE_bounded (sep : ascii) : ipv4RE_shape sep = bounded_shape (quadRE sep) 8.
Proof. reflexivity. Qed.

Lemma ipv6RE_bounded : ipv6RE = bounded_shape (group2_of ipv6RE) 32.
Proof. vm_compute. reflexivity. Qed.

Lemma pick_longest_max best ts :
  forall u, In u (best :: ts) -> (thread_end u <= thread_end (pick_longest best ts))%nat.
Proof.
  revert best. induction ts as [|t ts IH]; intros best u Hu; simpl.
  - destruct Hu as [<-|[]]. lia.
  - destruct (Nat.ltb_spec (thread_end best) (thread_end t)) as [Hlt|Hge].
    + destruct Hu as [<-|Hu].
      * specialize (IH t t (or_introl eq_refl)). lia.
      * now apply IH.
    + destruct Hu as [<-|[<-|Hu]].
      * apply IH. now left.
      * specialize (IH best best (or_introl eq_refl)). lia.
      * apply IH. now right.
Qed.

(** After [Longest], no way of matching at the same position ends
    further than the match returned. *)
Lemma match_at_longest r pos rest m :
  match_at true r pos rest = Some m ->
  forall u, In u (run r (pos, rest, [])) -> (thread_end u <= m_end m)%nat.
Proof.
  unfold match_at, pick. destruct (run r (pos, rest, [])) as [|t ts]; [discriminate |].
  destruct (pick_longest t ts) as [[e rest'] cs] eqn:E. intros [= <-] u Hu.
  pose proof (pick_longest_max t ts u Hu) as H. rewrite E in H. exact H.
Qed.

Lemma skipn_skipn_add {T : Type} (a b : nat) (l : list T) :
  skipn a (skipn b l) = skipn (b + a) l.
Proof.
  revert l. induction b as [|b IH]; intros l; [reflexivity |].
  destruct l as [|x l]; [now rewrite !skipn_nil |]. simpl. apply IH.
Qed.

(** What [find] and [FindSubmatch] return for a pattern of the name
    parser: the match at the leftmost position that has one, and the
    text of its group 2, a word of the pattern of that group. *)
Lemma find_group2 (longest : bool) (X : re) (k : nat) (s : string) :
  k <> 2%nat ->
  MatchString (bounded_shape X k) s = true ->
  exists m a b,
    find longest (bounded_shape X k) (list_ascii_of_string s) = Some m /\
    match_at longest (bounded_shape X k) (m_start m)
      (skipn (m_start m) (list_ascii_of_string s)) = Some m /\
    (forall j, (j < m_start m)%nat ->
       match_at longest (bounded_shape X k) j (skipn j (list_ascii_of_string s)) = None) /\
    lookup_cap 2 (m_caps m) = Some (a, b) /\
    (m_start m <= a <= m_start m + 1)%nat /\
    lang X (slice (list_ascii_of_string s) a b) /\
    FindSubmatch longest (bounded_shape X k) s 2 =
      Some (string_of_list_ascii (slice (list_ascii_of_string s) a b)).
Proof.
  intros Hk Hmatch. set (l := list_ascii_of_string s).
  assert (exists m, find longest (bounded_shape X k) l = Some m) as [m Hm].
  { unfold MatchString in Hmatch. fold l in Hmatch.
    destruct (find false (bounded_shape X k) l) as [m0|] eqn:E0; [|discriminate].
    unfold find in E0. apply find_from_leftmost in E0.
    destruct E0 as (k0 & Hk0 & _ & Hm0 & _).
    destruct (find longest (bounded_shape X k) l) as [m|] eqn:E; [eauto |].
    exfalso. unfold find in E. revert E.
    unfold match_at in Hm0.
    destruct (run (bounded_shape X k) ((0 + k0)%nat, skipn k0 l, [])) as [|t ts] eqn:Er;
      [discriminate |].
    destruct (pick longest (t :: ts)) as [[[e r'] cs]|] eqn:Ep; [|discriminate].
    apply (find_from_complete longest _ l 0 k0 (Found (0 + k0) e cs) Hk0).
    unfold match_at. now rewrite Er, Ep. }
  pose proof Hm as Hf. unfold find in Hf. apply find_from_leftmost in Hf.
  destruct Hf as (k0 & Hk0 & Hs & Hmat & Hleft). simpl in Hs, Hmat, Hleft.
  pose proof Hmat as Hpick. unfold match_at in Hpick.
  destruct (pick longest (run (bounded_shape X k) (k0, skipn k0 l, [])))
    as [[[e r'] cs]|] eqn:Ep; [|discriminate].
  injection Hpick as Hmeq. apply pick_In in Ep.
  destruct (group2_span X k k0 (skipn k0 l) _ Hk Ep) as (w0 & w & Hcap & Hw & Hw0 & Hlang).
  cbn [snd] in Hcap.
  exists m, (k0 + List.length w0)%nat, (k0 + List.length w0 + List.length w)%nat.
  assert (slice l (k0 + List.length w0) (k0 + List.length w0 + List.length w) = w) as Hslice.
  { unfold slice.
    replace (k0 + List.length w0 + List.length w - (k0 + List.length w0))%nat
      with (List.length w) by lia.
    now rewrite <- skipn_skipn_add. }
  rewrite Hs. subst m. cbn [m_caps m_start].
  split; [exact Hm |]. split; [exact Hmat |]. split; [exact Hleft |].
  split; [exact Hcap |]. split; [lia |]. split; [now rewrite Hslice |].
  unfold FindSubmatch. fold l. rewrite Hm. cbn [m_caps]. now rewrite Hcap.
Qed.

End MatcherWords.

(** ** The literal of an IPv4 pattern and what [ParseIP] makes of it *)

Section Octets.

Import Regexp.

Lemma digit_class (a b c : ascii) :
  in_class false [(a, b)] c = true ->
  (48 <= code a)%N -> (code b <= 57)%N ->
  is_digit c = true /\
  Z.of_N (code a) - 48 <= Net.digit c <= Z.of_N (code b) - 48.
Proof.
  unfold in_class, in_range, is_digit, in_range, Net.digit. cbn [existsb xorb fst snd].
  rewrite orb_false_r. intros H Ha Hb.
  apply andb_true_iff in H. destruct H as [H1 H2].
  apply N.leb_le in H1, H2. split.
  - apply andb_true_iff. split; apply N.leb_le.
    + change (code "0") with 48%N. lia.
    + change (code "9") with 57%N. lia.
  - lia.
Qed.

Ltac break_lang :=
  repeat match goal with
         | H : exists _, _ |- _ => destruct H
         | H : _ /\ _ |- _ => destruct H
         | H : _ \/ _ |- _ => destruct H
         | H : lang_pow _ 0 _ |- _ => cbn [lang_pow] in H
         | H : lang_pow _ (S _) _ |- _ => cbn [lang_pow] in H
         | H : lang _ _ |- _ => cbn [lang] in H
         end; subst.

Ltac digit_facts :=
  repeat match goal with
         | H : in_class false [(?a, ?b)] ?c = true |- _ =>
             let Hd := fresh "Hd" in
             let Hv := fresh "Hv" in
             let lo := eval vm_compute in (Z.of_N (code a) - 48) in
             let hi := eval vm_compute in (Z.of_N (code b) - 48) in
             assert (is_digit c = true) as Hd
               by exact (proj1 (digit_class a b c H ltac:(vm_compute; discriminate)
                                  ltac:(vm_compute; discriminate)));
             assert (lo <= Net.digit c <= hi) as Hv
               by exact (proj2 (digit_class a b c H ltac:(vm_compute; discriminate)
                                  ltac:(vm_compute; discriminate)));
             clear H
         end.

Ltac octet_done :=
  digit_facts; unfold is_octet, decimal_value;
  cbn [app List.length fold_left];
  split; [discriminate | split; [|split; [lia | lia]]];
  repeat (apply List.Forall_cons; [assumption |]); apply List.Forall_nil.

Lemma lang_octet (i j : nat) (o : list ascii) : lang (octetRE i j) o -> is_octet o.
Proof.
  unfold octetRE, ch, rng. cbn [lang]. intros H.
  destruct H as [H|H].
  - break_lang. octet_done.
  - destruct H as (w1 & w2 & -> & (n & _ & Hn & Hpow) & (c & -> & Hc)).
    destruct n as [|[|n]]; [| |lia]; cbn [lang_pow] in Hpow.
    + subst w1. octet_done.
    + destruct Hpow as (wa & wb & -> & Hwa & ->).
      destruct Hwa as [Hwa|Hwa].
      * break_lang. octet_done.
      * destruct Hwa as (w1 & w2 & -> & (n & _ & Hn' & Hpow) & (c' & -> & Hc')).
        destruct n as [|[|n]]; [| |lia]; cbn [lang_pow] in Hpow.
        -- subst w1. octet_done.
        -- break_lang. octet_done.
Qed.

(** A word of the four-octet pattern is four octets and three separators. *)
Lemma lang_quad (sep : ascii) (w : list ascii) :
  lang (quadRE sep) w ->
  exists o1 o2 o3 o4,
    w = quad sep o1 o2 o3 o4 /\
    is_octet o1 /\ is_octet o2 /\ is_octet o3 /\ is_octet o4.
Proof.
  unfold quadRE. intros H.
  destruct H as (w123 & o4 & -> & (n & Hn1 & Hn2 & Hpow) & H4).
  assert (n = 3%nat) as -> by lia.
  apply lang_octet in H4.
  destruct Hpow as (p1 & r1 & -> & H1 & p2 & r2 & -> & H2 & p3 & r3 & -> & H3 & ->).
  assert (forall p, lang (ReCap 3 (ReCat (octetRE 4 5) (ch sep))) p ->
                    exists o, p = o ++ [sep] /\ is_octet o) as Hpiece.
  { intros p (o & s & -> & Ho & (c & -> & Hc)). exists o.
    apply lang_octet in Ho. split; [|exact Ho].
    unfold in_class, in_range in Hc. cbn [existsb xorb fst snd] in Hc.
    rewrite orb_false_r in Hc. apply andb_true_iff in Hc. destruct Hc as [Hc1 Hc2].
    apply N.leb_le in Hc1, Hc2.
    assert (code c = code sep) as E by lia.
    unfold code in E. apply (f_equal ascii_of_N) in E.
    rewrite !ascii_N_embedding in E. now subst c. }
  destruct (Hpiece _ H1) as (o1 & -> & Ho1).
  destruct (Hpiece _ H2) as (o2 & -> & Ho2).
  destruct (Hpiece _ H3) as (o3 & -> & Ho3).
  exists o1, o2, o3, o4. split; [|auto].
  unfold quad. rewrite app_nil_r, <- !app_assoc. reflexivity.
Qed.

End Octets.

Section ParseQuad.

Import Regexp Net.

Lemma is_digit_facts (c : ascii) :
  is_digit c = true ->
  0 <= digit c <= 9 /\ Ascii.eqb c "." = false /\ Ascii.eqb c ":" = false /\
  Ascii.eqb c "-" = false.
Proof.
  destruct c as [[] [] [] [] [] [] [] []]; vm_compute; intros H;
    first [discriminate H | repeat split; intros; discriminate].
Qed.

Lemma dv_mono (o : list ascii) : forall n,
  List.Forall (fun c => is_digit c = true) o -> 0 <= n ->
  n <= fold_left (fun n c => n * 10 + digit c) o n.
Proof.
  induction o as [|c o IH]; intros n Ho Hn; simpl; [lia |].
  inversion Ho as [|? ? Hc Ho']; subst.
  destruct (is_digit_facts c Hc) as [Hd _].
  specialize (IH (n * 10 + digit c) Ho' ltac:(lia)). lia.
Qed.

Lemma dtoi_loop_digits (o : list ascii) : forall n i rest,
  List.Forall (fun c => is_digit c = true) o -> not_digit_start rest ->
  0 <= n -> fold_left (fun n c => n * 10 + digit c) o n < big ->
  dtoi_loop (o ++ rest) n i =
  Some (fold_left (fun n c => n * 10 + digit c) o n, (i + List.length o)%nat).
Proof.
  induction o as [|c o IH]; intros n i rest Ho Hrest Hn Hbig;
    cbn [app dtoi_loop fold_left List.length].
  - rewrite Nat.add_0_r. destruct rest as [|c t]; [reflexivity |].
    cbn [dtoi_loop]. simpl in Hrest. now rewrite Hrest.
  - inversion Ho as [|? ? Hc Ho']; subst. rewrite Hc.
    destruct (is_digit_facts c Hc) as [Hd _].
    pose proof (dv_mono o (n * 10 + digit c) Ho' ltac:(lia)) as Hm.
    cbn [fold_left] in Hbig.
    destruct (Z.geb_spec (n * 10 + digit c) big) as [Hge|Hlt]; [lia |].
    rewrite IH by (auto; lia). f_equal. f_equal. lia.
Qed.

Lemma dtoi_octet (o rest : list ascii) :
  is_octet o -> not_digit_start rest ->
  dtoi (o ++ rest) = Some (decimal_value o, List.length o).
Proof.
  intros (Hne & Hd & Hlen & Hv) Hrest. unfold dtoi.
  rewrite dtoi_loop_digits; auto; try lia.
  - destruct o; [contradiction | reflexivity].
  - unfold decimal_value in Hv. unfold big. lia.
Qed.

Lemma skipn_pre0 {T : Type} (pre rest : list T) :
  skipn (List.length pre) (pre ++ rest) = rest.
Proof. induction pre as [|a pre IH]; simpl; [reflexivity | exact IH]. Qed.

(** One pass of the loop of [parseIPv4] over an octet: the first one,
    and one that follows a dot. *)
Lemma parseIPv4_loop_first (k : nat) (o rest : list ascii) (p : list Z) :
  is_octet o -> not_digit_start rest ->
  parseIPv4_loop (S k) 0 (o ++ rest) p =
  if leading_zero o then None
  else parseIPv4_loop k 1 rest (p ++ [decimal_value o]).
Proof.
  intros Ho Hrest. pose proof Ho as (Hne & Hd & Hlen & Hv).
  cbn [parseIPv4_loop]. destruct o as [|c o]; [contradiction |].
  cbn [app]. change (Nat.ltb 0 0) with false. cbv iota.
  change (c :: o ++ rest) with ((c :: o) ++ rest).
  rewrite (dtoi_octet (c :: o) rest Ho Hrest).
  destruct (Z.gtb_spec (decimal_value (c :: o)) 255) as [Hgt|_]; [lia |].
  unfold leading_zero. cbn [hd app].
  destruct (Nat.ltb 1 (List.length (c :: o)) && Ascii.eqb c "0"); [reflexivity |].
  change (c :: o ++ rest) with ((c :: o) ++ rest).
  rewrite skipn_pre0. unfold byte. now rewrite land_255 by lia.
Qed.

Lemma parseIPv4_loop_next (k i : nat) (o rest : list ascii) (p : list Z) :
  is_octet o -> not_digit_start rest ->
  parseIPv4_loop (S k) (S i) ("."%char :: o ++ rest) p =
  if leading_zero o then None
  else parseIPv4_loop k (S (S i)) rest (p ++ [decimal_value o]).
Proof.
  intros Ho Hrest. pose proof Ho as (Hne & Hd & Hlen & Hv).
  cbn [parseIPv4_loop]. change (Nat.ltb 0 (S i)) with true. cbv iota.
  rewrite Ascii.eqb_refl.
  rewrite (dtoi_octet o rest Ho Hrest).
  destruct (Z.gtb_spec (decimal_value o) 255) as [Hgt|_]; [lia |].
  unfold leading_zero.
  replace (hd "000"%char (o ++ rest)) with (hd "000"%char o)
    by (destruct o; [contradiction | reflexivity]).
  destruct (Nat.ltb 1 (List.length o) && Ascii.eqb (hd "000"%char o) "0"); [reflexivity |].
  rewrite skipn_pre0. unfold byte. now rewrite land_255 by lia.
Qed.

(** [parseIPv4] on four octets: nil when one has a leading zero, else
    the address of their values. *)
Lemma parseIPv4_quad (o1 o2 o3 o4 : list ascii) :
  is_octet o1 -> is_octet o2 -> is_octet o3 -> is_octet o4 ->
  parseIPv4 (quad "." o1 o2 o3 o4) =
  if leading_zero o1 || leading_zero o2 || leading_zero o3 || leading_zero o4 then []
  else IPv4 (decimal_value o1) (decimal_value o2) (decimal_value o3) (decimal_value o4).
Proof.
  intros H1 H2 H3 H4. unfold parseIPv4, quad.
  rewrite parseIPv4_loop_first by (auto; reflexivity).
  destruct (leading_zero o1); [reflexivity |].
  rewrite parseIPv4_loop_next by (auto; reflexivity).
  destruct (leading_zero o2); [reflexivity |].
  rewrite parseIPv4_loop_next by (auto; reflexivity).
  destruct (leading_zero o3); [reflexivity |].
  match goal with
  | |- context [parseIPv4_loop 1 3 _ ?p] =>
      pose proof (parseIPv4_loop_next 0 2 o4 [] p H4 I) as E
  end.
  rewrite app_nil_r in E. rewrite E.
  destruct (leading_zero o4); reflexivity.
Qed.

Lemma ParseIP_scan_digits (whole o rest : list ascii) :
  List.Forall (fun c => is_digit c = true) o ->
  ParseIP_scan whole (o ++ "."%char :: rest) = parseIPv4 whole.
Proof.
  induction 1 as [|c o Hc _ IH]; simpl; [reflexivity |].
  destruct (is_digit_facts c Hc) as (_ & -> & -> & _). exact IH.
Qed.

Lemma ParseIP_quad (o1 o2 o3 o4 : list ascii) :
  is_octet o1 -> is_octet o2 -> is_octet o3 -> is_octet o4 ->
  ParseIP (string_of_list_ascii (quad "." o1 o2 o3 o4)) =
  if leading_zero o1 || leading_zero o2 || leading_zero o3 || leading_zero o4 then []
  else IPv4 (decimal_value o1) (decimal_value o2) (decimal_value o3) (decimal_value o4).
Proof.
  intros H1 H2 H3 H4. unfold ParseIP. rewrite list_ascii_of_string_of_list_ascii.
  unfold quad at 2. rewrite ParseIP_scan_digits by apply H1.
  now apply parseIPv4_quad.
Qed.

Lemma map_digits (f : ascii -> ascii) (o : list ascii) :
  (forall c, is_digit c = true -> f c = c) ->
  List.Forall (fun c => is_digit c = true) o -> map f o = o.
Proof.
  intros Hf. induction 1 as [|c o Hc _ IH]; simpl; [reflexivity |].
  now rewrite IH, Hf.
Qed.

(** Replacing the dashes of a literal by dots. *)
Lemma ReplaceByte_quad (sep : ascii) (o1 o2 o3 o4 : list ascii) :
  sep = "."%char \/ sep = "-"%char ->
  is_octet o1 -> is_octet o2 -> is_octet o3 -> is_octet o4 ->
  strings.ReplaceByte (string_of_list_ascii (quad sep o1 o2 o3 o4)) "-" "." =
  string_of_list_ascii (quad "." o1 o2 o3 o4).
Proof.
  intros Hsep H1 H2 H3 H4. unfold strings.ReplaceByte, strings.map_string.
  rewrite list_ascii_of_string_of_list_ascii. f_equal. unfold quad.
  assert (forall c, is_digit c = true ->
            (if Ascii.eqb c "-" then "."%char else c) = c) as Hf.
  { intros c Hc. now destruct (is_digit_facts c Hc) as (_ & _ & _ & ->). }
  rewrite !map_app, !map_cons, !map_app, !map_cons, !map_app, !map_cons.
  rewrite !(map_digits _ _ Hf) by (apply H1 || apply H2 || apply H3 || apply H4).
  destruct Hsep as [-> | ->]; reflexivity.
Qed.

End ParseQuad.

(** ** The name parser (C1, C4) *)

Section NameParser.

Import Regexp.

Variable cz : DomainCustomizations.

Lemma NameToA_not_customized (fqdnString : string) :
  (forall domain, cz !! strings.ToLower fqdnString = Some domain -> A domain = []) ->
  NameToA cz fqdnString = NameToA_regexps [ipv4REDashes; ipv4REDots] fqdnString.
Proof.
  intros H. unfold NameToA.
  destruct (cz !! strings.ToLower fqdnString) as [domain|]; [|reflexivity].
  now rewrite (H domain eq_refl).
Qed.

Lemma NameToAAAA_not_customized (fqdnString : string) :
  (forall domain, cz !! strings.ToLower fqdnString = Some domain -> AAAA domain = []) ->
  NameToAAAA cz fqdnString = NameToAAAA_regexp fqdnString.
Proof.
  intros H. unfold NameToAAAA.
  destruct (cz !! strings.ToLower fqdnString) as [domain|]; [|reflexivity].
  now rewrite (H domain eq_refl).
Qed.

(** The record [NameToA] makes of a literal of four octets. *)
Lemma A_of_quad (sep : ascii) (o1 o2 o3 o4 : list ascii) :
  sep = "."%char \/ sep = "-"%char ->
  is_octet o1 -> is_octet o2 -> is_octet o3 -> is_octet o4 ->
  (let match_ :=
     strings.ReplaceByte (string_of_list_ascii (quad sep o1 o2 o3 o4)) "-" "." in
   let ipv4address := Net.To4 (Net.ParseIP match_) in
   if Net.is_nil ipv4address then []
   else [dnsmessage.mkA [Net.at_ ipv4address 0; Net.at_ ipv4address 1;
                         Net.at_ ipv4address 2; Net.at_ ipv4address 3]]) =
  if leading_zero o1 || leading_zero o2 || leading_zero o3 || leading_zero o4 then []
  else [dnsmessage.mkA [decimal_value o1; decimal_value o2;
                        decimal_value o3; decimal_value o4]].
Proof.
  intros Hsep H1 H2 H3 H4. cbv zeta.
  rewrite (ReplaceByte_quad sep o1 o2 o3 o4 Hsep H1 H2 H3 H4).
  rewrite (ParseIP_quad o1 o2 o3 o4 H1 H2 H3 H4).
  destruct (leading_zero o1 || leading_zero o2 || leading_zero o3 || leading_zero o4);
    reflexivity.
Qed.

(** When the pattern at the head of the list matches, the record is
    read off the leftmost match of that pattern. *)
Lemma NameToA_regexps_head (sep : ascii) (res : list re) (fqdnString : string) :
  sep = "."%char \/ sep = "-"%char ->
  MatchString (ipv4RE_shape sep) fqdnString = true ->
  exists m a b o1 o2 o3 o4,
    find false (ipv4RE_shape sep) (list_ascii_of_string fqdnString) = Some m /\
    (forall j, (j < m_start m)%nat ->
       match_at false (ipv4RE_shape sep) j
         (skipn j (list_ascii_of_string fqdnString)) = None) /\
    lookup_cap 2 (m_caps m) = Some (a, b) /\
    (m_start m <= a <= m_start m + 1)%nat /\
    slice (list_ascii_of_string fqdnString) a b = quad sep o1 o2 o3 o4 /\
    FindSubmatch false (ipv4RE_shape sep) fqdnString 2 =
      Some (string_of_list_ascii (quad sep o1 o2 o3 o4)) /\
    (is_octet o1 /\ is_octet o2 /\ is_octet o3 /\ is_octet o4) /\
    NameToA_regexps (ipv4RE_shape sep :: res) fqdnString =
      if leading_zero o1 || leading_zero o2 || leading_zero o3 || leading_zero o4 then []
      else [dnsmessage.mkA [decimal_value o1; decimal_value o2;
                            decimal_value o3; decimal_value o4]].
Proof.
  intros Hsep Hmatch. pose proof Hmatch as Hm0. rewrite ipv4RE_bounded in Hm0.
  destruct (find_group2 false (quadRE sep) 8 fqdnString ltac:(discriminate) Hm0)
    as (m & a & b & Hfind & _ & Hleft & Hcap & Hab & Hlang & Hsub).
  rewrite <- ipv4RE_bounded in Hfind, Hleft, Hsub.
  destruct (lang_quad sep _ Hlang) as (o1 & o2 & o3 & o4 & Hq & H1 & H2 & H3 & H4).
  exists m, a, b, o1, o2, o3, o4.
  rewrite Hq in Hsub.
  repeat (split; [assumption |]). split; [auto |].
  cbn [NameToA_regexps]. rewrite Hmatch, Hsub.
  exact (A_of_quad sep o1 o2 o3 o4 Hsep H1 H2 H3 H4).
Qed.

(** C1, as the code has it.  For a name without customized A records
    that matches an IPv4 pattern, [NameToA] takes the literal of the
    dashed pattern if that one matches and of the dotted pattern
    otherwise: four octets of one to three digits, each at most 255.  It
    returns exactly one A record, whose four bytes are the values of the
    octets, unless an octet is written with a leading zero; then it
    returns no record. *)
Theorem NameToA_returns_the_octets (fqdnString : string) :
  (forall domain, cz !! strings.ToLower fqdnString = Some domain -> A domain = []) ->
  MatchString ipv4REDashes fqdnString = true \/
  MatchString ipv4REDots fqdnString = true ->
  exists o1 o2 o3 o4,
    FindSubmatch false
      (if MatchString ipv4REDashes fqdnString then ipv4REDashes else ipv4REDots)
      fqdnString 2 =
      Some (string_of_list_ascii
              (quad (if MatchString ipv4REDashes fqdnString then "-" else ".")%char
                    o1 o2 o3 o4)) /\
    (is_octet o1 /\ is_octet o2 /\ is_octet o3 /\ is_octet o4) /\
    NameToA cz fqdnString =
      if leading_zero o1 || leading_zero o2 || leading_zero o3 || leading_zero o4 then []
      else [dnsmessage.mkA [decimal_value o1; decimal_value o2;
                            decimal_value o3; decimal_value o4]].
Proof.
  intros Hcustom Hmatch. rewrite (NameToA_not_customized _ Hcustom).
  destruct (MatchString ipv4REDashes fqdnString) eqn:Edash.
  - rewrite ipv4REDashes_shape in Edash.
    destruct (NameToA_regexps_head "-" [ipv4REDots] fqdnString (or_intror eq_refl) Edash)
      as (m & a & b & o1 & o2 & o3 & o4 & _ & _ & _ & _ & _ & Hsub & Hoct & Hrec).
    exists o1, o2, o3, o4. rewrite ipv4REDashes_shape. auto.
  - destruct Hmatch as [Hmatch|Hmatch]; [discriminate |].
    rewrite ipv4REDots_shape in Hmatch.
    destruct (NameToA_regexps_head "." [] fqdnString (or_introl eq_refl) Hmatch)
      as (m & a & b & o1 & o2 & o3 & o4 & _ & _ & _ & _ & _ & Hsub & Hoct & Hrec).
    exists o1, o2, o3, o4. rewrite ipv4REDots_shape.
    split; [exact Hsub |]. split; [exact Hoct |].
    cbn [NameToA_regexps]. rewrite Edash. exact Hrec.
Qed.

(** C4, as the code has it.  Among several literals [NameToA] reads the
    leftmost dashed one if the name holds a dashed literal, even when a
    dotted one stands further left, and the leftmost dotted one
    otherwise; [NameToAAAA] reads the leftmost IPv6 literal, the longest
    that starts there. *)
Theorem name_parser_reads_leftmost_of_a_form (fqdnString : string) :
  let l := list_ascii_of_string fqdnString in
  ((forall domain, cz !! strings.ToLower fqdnString = Some domain -> A domain = []) ->
   forall sep : ascii,
     sep = (if MatchString ipv4REDashes fqdnString then "-" else ".")%char ->
     MatchString (ipv4RE_shape sep) fqdnString = true ->
     exists m a b o1 o2 o3 o4,
       find false (ipv4RE_shape sep) l = Some m /\
       (forall j, (j < m_start m)%nat ->
          match_at false (ipv4RE_shape sep) j (skipn j l) = None) /\
       lookup_cap 2 (m_caps m) = Some (a, b) /\
       (m_start m <= a <= m_start m + 1)%nat /\
       slice l a b = quad sep o1 o2 o3 o4 /\
       NameToA cz fqdnString =
         if leading_zero o1 || leading_zero o2 || leading_zero o3 || leading_zero o4
         then []
         else [dnsmessage.mkA [decimal_value o1; decimal_value o2;
                               decimal_value o3; decimal_value o4]]) /\
  ((forall domain, cz !! strings.ToLower fqdnString = Some domain -> AAAA domain = []) ->
   MatchString ipv6RE fqdnString = true ->
   exists m a b,
     find true ipv6RE l = Some m /\
     (forall j, (j < m_start m)%nat -> match_at true ipv6RE j (skipn j l) = None) /\
     (forall u, In u (run ipv6RE (m_start m, skipn (m_start m) l, [])) ->
        (thread_end u <= m_end m)%nat) /\
     lookup_cap 2 (m_caps m) = Some (a, b) /\
     (m_start m <= a <= m_start m + 1)%nat /\
     NameToAAAA cz fqdnString =
       let ipv16address :=
         Net.To16 (Net.ParseIP
                     (strings.ReplaceByte (string_of_list_ascii (slice l a b)) "-" ":")) in
       if Net.is_nil ipv16address then [] else [dnsmessage.mkAAAA ipv16address]).
Proof.
  intros l. split.
  - intros Hcustom sep Hsep Hmatch. rewrite (NameToA_not_customized _ Hcustom).
    destruct (MatchString ipv4REDashes fqdnString) eqn:Edash; subst sep.
    + destruct (NameToA_regexps_head "-" [ipv4REDots] fqdnString (or_intror eq_refl) Hmatch)
        as (m & a & b & o1 & o2 & o3 & o4 & Hf & Hl & Hc & Hab & Hs & _ & _ & Hrec).
      exists m, a, b, o1, o2, o3, o4. rewrite <- ipv4REDashes_shape in Hrec. auto 10.
    + destruct (NameToA_regexps_head "." [] fqdnString (or_introl eq_refl) Hmatch)
        as (m & a & b & o1 & o2 & o3 & o4 & Hf & Hl & Hc & Hab & Hs & _ & _ & Hrec).
      exists m, a, b, o1, o2, o3, o4.
      repeat (split; [assumption |]).
      cbn [NameToA_regexps]. rewrite Edash. rewrite <- ipv4REDots_shape in Hrec.
      exact Hrec.
  - intros Hcustom Hmatch. rewrite (NameToAAAA_not_customized _ Hcustom).
    pose proof Hmatch as Hm0. rewrite ipv6RE_bounded in Hm0.
    destruct (find_group2 true (group2_of ipv6RE) 32 fqdnString ltac:(discriminate) Hm0)
      as (m & a & b & Hfind & Hmat & Hleft & Hcap & Hab & _ & Hsub).
    rewrite <- ipv6RE_bounded in Hfind, Hmat, Hleft, Hsub.
    exists m, a, b. fold l in Hfind, Hmat, Hleft, Hsub.
    split; [exact Hfind |]. split; [exact Hleft |].
    split; [exact (match_at_longest _ _ _ _ Hmat) |].
    split; [exact Hcap |]. split; [exact Hab |].
    unfold NameToAAAA_regexp. rewrite Hmatch, Hsub. reflexivity.
Qed.

End NameParser.

(** ** The properties at concrete names *)

Section Instances.

Import Regexp.

(** The literal the source warns of: the dotted pattern matches, the
    name is not customized, and [NameToA] returns no record. *)
Lemma leading_zero_literal_yields_no_record :
  MatchString ipv4REDashes "ubuntu20.04.235.249.181-notify.sslip.io." = false /\
  MatchString ipv4REDots "ubuntu20.04.235.249.181-notify.sslip.io." = true /\
  FindSubmatch false ipv4REDots "ubuntu20.04.235.249.181-notify.sslip.io." 2 =
    Some "04.235.249.181"%string /\
  packageCustomizations !! strings.ToLower "ubuntu20.04.235.249.181-notify.sslip.io." = None /\
  NameToA packageCustomizations "ubuntu20.04.235.249.181-notify.sslip.io." = [].
Proof. vm_compute. repeat split. Qed.

Lemma NameToA_returns_the_octets_at_loopback :
  exists o1 o2 o3 o4,
    FindSubmatch false
      (if MatchString ipv4REDashes "127-0-0-1.sslip.io." then ipv4REDashes else ipv4REDots)
      "127-0-0-1.sslip.io." 2 =
      Some (string_of_list_ascii
              (quad (if MatchString ipv4REDashes "127-0-0-1.sslip.io." then "-" else ".")%char
                    o1 o2 o3 o4)) /\
    (is_octet o1 /\ is_octet o2 /\ is_octet o3 /\ is_octet o4) /\
    NameToA packageCustomizations "127-0-0-1.sslip.io." =
      if leading_zero o1 || leading_zero o2 || leading_zero o3 || leading_zero o4 then []
      else [dnsmessage.mkA [decimal_value o1; decimal_value o2;
                            decimal_value o3; decimal_value o4]].
Proof.
  apply (NameToA_returns_the_octets packageCustomizations "127-0-0-1.sslip.io.").
  - intros domain H. vm_compute in H. discriminate H.
  - left. vm_compute. reflexivity.
Defined.

(** A loopback and a link-local address are exempt in the specification
    and not in the code: with a blocked string in the name, the name is
    blocklisted. *)
Lemma loopback_name_is_blocklisted :
  NameToA packageCustomizations "raiffeisen.127-0-0-1.sslip.io." =
    [dnsmessage.mkA [127; 0; 0; 1]] /\
  in_ranges other_nonpublic_ranges [127; 0; 0; 1] = true /\
  blocklist packageCustomizations (serverWith ["raiffeisen"%string] [])
    "raiffeisen.127-0-0-1.sslip.io." = true /\
  NameToAAAA packageCustomizations "raiffeisen.fe80--1.sslip.io." =
    [dnsmessage.mkAAAA [254; 128; 0; 0; 0; 0; 0; 0; 0; 0; 0; 0; 0; 0; 0; 1]] /\
  in_ranges other_nonpublic_ranges [254; 128; 0; 0; 0; 0; 0; 0; 0; 0; 0; 0; 0; 0; 0; 1] = true /\
  blocklist packageCustomizations (serverWith ["raiffeisen"%string] [])
    "raiffeisen.fe80--1.sslip.io." = true.
Proof. vm_compute. repeat split. Qed.

Lemma private_name_is_not_blocklisted :
  blocklist packageCustomizations
    (serverWith ["raiffeisen"%string] [cidr "10.0.0.0/8"])
    "raiffeisen.10-9-9-30.sslip.io." = false.
Proof.
  assert (blocklist_ip (NameToA packageCustomizations "raiffeisen.10-9-9-30.sslip.io.")
            (NameToAAAA packageCustomizations "raiffeisen.10-9-9-30.sslip.io.") =
          [10; 9; 9; 30]) as E by (vm_compute; reflexivity).
  apply (blocklist_exempts_private_ranges packageCustomizations
           (serverWith ["raiffeisen"%string] [cidr "10.0.0.0/8"])
           "raiffeisen.10-9-9-30.sslip.io.").
  - rewrite E. repeat (apply List.Forall_cons; [lia |]). apply List.Forall_nil.
  - rewrite E. vm_compute. reflexivity.
Defined.



(** The dotted literal stands further left, and the record is that of
    the dashed one. *)
Lemma dashed_literal_beats_leftmost_dotted :
  option_map m_start
    (find false ipv4REDots
       (list_ascii_of_string "nono.io.127.0.0.1.192-168-0-1.sslip.io")) = Some 7%nat /\
  FindSubmatch false ipv4REDots "nono.io.127.0.0.1.192-168-0-1.sslip.io" 2 =
    Some "127.0.0.1"%string /\
  option_map m_start
    (find false ipv4REDashes
       (list_ascii_of_string "nono.io.127.0.0.1.192-168-0-1.sslip.io")) = Some 17%nat /\
  FindSubmatch false ipv4REDashes "nono.io.127.0.0.1.192-168-0-1.sslip.io" 2 =
    Some "192-168-0-1"%string /\
  NameToA packageCustomizations "nono.io.127.0.0.1.192-168-0-1.sslip.io" =
    [dnsmessage.mkA [192; 168; 0; 1]].
Proof. vm_compute. repeat split. Qed.

Lemma leftmost_of_a_form_example :
  (exists m a b o1 o2 o3 o4,
      find false (ipv4RE_shape ".")
        (list_ascii_of_string "nono.io.127.0.0.1.192.168.0.1.sslip.io") = Some m /\
      (forall j, (j < m_start m)%nat ->
         match_at false (ipv4RE_shape ".") j
           (skipn j (list_ascii_of_string "nono.io.127.0.0.1.192.168.0.1.sslip.io")) = None) /\
      lookup_cap 2 (m_caps m) = Some (a, b) /\
      (m_start m <= a <= m_start m + 1)%nat /\
      slice (list_ascii_of_string "nono.io.127.0.0.1.192.168.0.1.sslip.io") a b =
        quad "." o1 o2 o3 o4 /\
      NameToA packageCustomizations "nono.io.127.0.0.1.192.168.0.1.sslip.io" =
        if leading_zero o1 || leading_zero o2 || leading_zero o3 || leading_zero o4
        then []
        else [dnsmessage.mkA [decimal_value o1; decimal_value o2;
                              decimal_value o3; decimal_value o4]]) /\
  (exists m a b,
      find true ipv6RE
        (list_ascii_of_string "nono.io.127.0.0.1.192.168.0.1.2001-db8--1.--2.sslip.io") = Some m /\
      (forall j, (j < m_start m)%nat ->
         match_at true ipv6RE j
           (skipn j (list_ascii_of_string
                       "nono.io.127.0.0.1.192.168.0.1.2001-db8--1.--2.sslip.io")) = None) /\
      (forall u,
          In u (run ipv6RE
                  (m_start m,
                   skipn (m_start m)
                     (list_ascii_of_string
                        "nono.io.127.0.0.1.192.168.0.1.2001-db8--1.--2.sslip.io"), [])) ->
          (thread_end u <= m_end m)%nat) /\
      lookup_cap 2 (m_caps m) = Some (a, b) /\
      (m_start m <= a <= m_start m + 1)%nat /\
      NameToAAAA packageCustomizations
        "nono.io.127.0.0.1.192.168.0.1.2001-db8--1.--2.sslip.io" =
        let ipv16address :=
          Net.To16
            (Net.ParseIP
               (strings.ReplaceByte
                  (string_of_list_ascii
                     (slice (list_ascii_of_string
                               "nono.io.127.0.0.1.192.168.0.1.2001-db8--1.--2.sslip.io") a b))
                  "-" ":")) in
        if Net.is_nil ipv16address then [] else [dnsmessage.mkAAAA ipv16address]).
Proof.
  split.
  - apply (proj1 (name_parser_reads_leftmost_of_a_form packageCustomizations
                    "nono.io.127.0.0.1.192.168.0.1.sslip.io")).
    + intros domain H. vm_compute in H. discriminate H.
    + vm_compute. reflexivity.
    + vm_compute. reflexivity.
  - apply (proj2 (name_parser_reads_leftmost_of_a_form packageCustomizations
                    "nono.io.127.0.0.1.192.168.0.1.2001-db8--1.--2.sslip.io")).
    + intros domain H. vm_compute in H. discriminate H.
    + vm_compute. reflexivity.
Defined.

Lemma customization_preempts_embedded_address :
  NameToA customizedTable "10-0-0-1.Example.COM." = [dnsmessage.mkA [9; 9; 9; 9]] /\
  NameToAAAA customizedTable "10-0-0-1.Example.COM." =
    [dnsmessage.mkAAAA [38; 32; 0; 254; 0; 0; 0; 0; 0; 0; 0; 0; 0; 0; 0; 254]] /\
  NameToA packageCustomizations "10-0-0-1.Example.COM." = [dnsmessage.mkA [10; 0; 0; 1]].
Proof.
  destruct (customization_preempts_synthesis customizedTable "10-0-0-1.Example.COM."
              (mkDomainCustomization
                 [dnsmessage.mkA [9; 9; 9; 9]]
                 [dnsmessage.mkAAAA [38; 32; 0; 254; 0; 0; 0; 0; 0; 0; 0; 0; 0; 0; 0; 254]]
                 (dnsmessage.mkCNAME EmptyString) [] None))
    as [HA HAAAA].
  - vm_compute. reflexivity.
  - split; [apply HA; discriminate |].
    split; [apply HAAAA; discriminate |].
    vm_compute. reflexivity.
Defined.


Lemma kv_malformed_commands_example :
  TXTResources packageCustomizations (stateWith (serverWith [] []))
    ("put." ++ "sslipio-spec" ++ ".k-v.io.") [1; 1; 1; 1] =
    (stateWith (serverWith [] []),
     Ok [txt1 "422: missing a value: put.value.key.k-v.io"]) /\
  TXTResources packageCustomizations (stateWith (serverWith [] []))
    ("update" ++ "." ++ "sslipio-spec" ++ ".k-v.io.") [1; 1; 1; 1] =
    (stateWith (serverWith [] []),
     Ok [txt1 "422: valid verbs are get, put, delete"]).
Proof.
  destruct (kv_malformed_commands_are_answered packageCustomizations
              (stateWith (serverWith [] [])) [1; 1; 1; 1])
    as (_ & Hput & Hverb).
  split.
  - apply Hput. vm_compute. reflexivity.
  - apply (Hverb "update"%string "sslipio-spec"%string).
    + vm_compute. reflexivity.
    + vm_compute. reflexivity.
    + vm_compute. discriminate.
    + vm_compute. discriminate.
    + vm_compute. discriminate.
Defined.

(** A blocklisted name that spells a public IPv6 address. *)
Lemma blocked_AAAA_example :
  exists st' b,
    QueryResponse packageCustomizations (stateWith (serverWith ["raiffeisen"%string] []))
      (dnsmessage.mkHeader 1 false 0 false false true false dnsmessage.RCodeSuccess)
      (dnsmessage.mkQuestion "raiffeisen.2001-4860-4860--8888.sslip.io."
         dnsmessage.TypeAAAA 1)
      [1; 1; 1; 1] = (st', Ok b) /\
    dnsmessage.b_answers b =
      [dnsmessage.mkResource
         (dnsmessage.mkResourceHeader "raiffeisen.2001-4860-4860--8888.sslip.io."
            dnsmessage.TypeAAAA dnsmessage.ClassINET 604800 0)
         (dnsmessage.BodyAAAA
            (dnsmessage.mkAAAA [38; 0; 31; 24; 10; 175; 105; 0; 0; 0; 0; 0; 0; 0; 0; 10]))] /\
    dnsmessage.b_authorities b = [] /\
    dnsmessage.b_additionals b = [] /\
    AnsweredBlockedQueries (Metrics_ (st_x st')) = 1.
Proof.
  destruct (packageCustomizations !! "ns-aws.sslip.io."%string) as [nsAws|] eqn:Hlook;
    [| vm_compute in Hlook; discriminate Hlook].
  destruct (blocked_AAAA_answers_sink packageCustomizations
              (stateWith (serverWith ["raiffeisen"%string] []))
              (dnsmessage.mkHeader 1 false 0 false false true false dnsmessage.RCodeSuccess)
              (dnsmessage.mkQuestion "raiffeisen.2001-4860-4860--8888.sslip.io."
                 dnsmessage.TypeAAAA 1)
              [1; 1; 1; 1] nsAws
              (dnsmessage.mkAAAA [38; 0; 31; 24; 10; 175; 105; 0; 0; 0; 0; 0; 0; 0; 0; 10])
              [])
    as (st' & b & Hq & Hans & Hns & Hadd & Hcount).
  - reflexivity.
  - vm_compute. discriminate.
  - vm_compute. reflexivity.
  - exact Hlook.
  - vm_compute in Hlook. injection Hlook as <-. reflexivity.
  - exists st', b. repeat (split; [assumption |]). exact Hcount.
Defined.

Lemma MXResources_examples :
  MXResources packageCustomizations "sslip.io." =
    [dnsmessage.mkMX 10 "mail.protonmail.ch."; dnsmessage.mkMX 20 "mailsec.protonmail.ch."] /\
  MXResources packageCustomizations "example.com." = [dnsmessage.mkMX 0 "example.com."] /\
  exists st' response,
    processQuestion packageCustomizations (stateWith (serverWith [] []))
      (dnsmessage.mkQuestion "example.com." dnsmessage.TypeMX 1) [1; 1; 1; 1] =
      (st', Ok response).
Proof.
  split; [| split].
  - destruct (packageCustomizations !! strings.ToLower "sslip.io.") as [domain|] eqn:Hlook;
      [| vm_compute in Hlook; discriminate Hlook].
    rewrite (proj1 (proj2 (MXResources_never_empty packageCustomizations "sslip.io."))
               domain Hlook).
    + vm_compute in Hlook. injection Hlook as <-. reflexivity.
    + vm_compute in Hlook. injection Hlook as <-. discriminate.
  - apply (proj1 (proj2 (proj2 (MXResources_never_empty packageCustomizations
                                   "example.com.")))).
    + intros domain H. vm_compute in H. discriminate H.
    + vm_compute. lia.
  - apply (proj2 (proj2 (proj2 (MXResources_never_empty packageCustomizations
                                   "example.com.")))
             (stateWith (serverWith [] []))
             (dnsmessage.mkQuestion "example.com." dnsmessage.TypeMX 1) [1; 1; 1; 1]);
      reflexivity.
Defined.

(** A blocked string read from a file in upper case, and a name that
    spells it in upper case. *)
Lemma uppercased_name_is_not_blocklisted :
  fst (fst (ReadBlocklist ("RAIFFEISEN # phishing" ++ nl ++ "43.134.66.67/24" ++ nl))) =
    ["raiffeisen"%string] /\
  blocklist packageCustomizations
    (serverWith ["raiffeisen"%string] [cidr "43.134.66.67/24"])
    "RAIFFEISEN.8-8-8-8.sslip.io." = false /\
  blocklist packageCustomizations
    (serverWith ["raiffeisen"%string] [cidr "43.134.66.67/24"])
    "raiffeisen.8-8-8-8.sslip.io." = true.
Proof.
  split; [vm_compute; reflexivity |].
  split; [| vm_compute; reflexivity].
  apply (blocklist_is_case_sensitive packageCustomizations
           (serverWith ["raiffeisen"%string] [cidr "43.134.66.67/24"])
           ("RAIFFEISEN # phishing" ++ nl ++ "43.134.66.67/24" ++ nl)
           "RAIFFEISEN.8-8-8-8.sslip.io.").
  - vm_compute. reflexivity.
  - vm_compute. reflexivity.
  - vm_compute. reflexivity.
Defined.

End Instances.

(** ** The functions that write a section *)

Section ResponseWriters.

Import dnsmessage.

Lemma append_records_section b rs :
  b_section (append_records b rs) = b_section b.
Proof.
  unfold append_records. destruct (b_section b) eqn:E; simpl; congruence.
Qed.

Lemma append_records_nil b : append_records b [] = b.
Proof.
  unfold append_records. destruct b as [h s qs an au ad]; destruct s; simpl;
    rewrite ?app_nil_r; reflexivity.
Qed.

Lemma append_records_app b rs1 rs2 :
  append_records (append_records b rs1) rs2 = append_records b (rs1 ++ rs2).
Proof.
  unfold append_records. destruct b as [h s qs an au ad]; destruct s; simpl;
    rewrite <- ?app_assoc; reflexivity.
Qed.

Lemma writes_nil : writes [] (fun b => inl b).
Proof. intros b _. now rewrite append_records_nil. Qed.

Lemma add_resource_writes (h : ResourceHeader) (body : ResourceBody) :
  Class h = ClassINET -> Length h = 0 ->
  writes [record (Name_ h) (TTL h) body] (add_resource h body).
Proof.
  intros Hc Hl b Hs. unfold add_resource, append_records, record.
  rewrite Hc, Hl. destruct (b_section b); try discriminate; reflexivity.
Qed.

Lemma andThen_writes (w1 w2 : writer) rs1 rs2 :
  writes rs1 w1 -> writes rs2 w2 -> writes (rs1 ++ rs2) (andThen w1 w2).
Proof.
  intros H1 H2 b Hs. unfold andThen. rewrite (H1 b Hs).
  rewrite H2 by now rewrite append_records_section.
  now rewrite append_records_app.
Qed.

Lemma write_each_writes {T : Type} (write : T -> writer)
    (f : T -> list Resource) (rs : list T) :
  (forall r, writes (f r) (write r)) -> writes (flat_map f rs) (write_each write rs).
Proof.
  intros Hw. induction rs as [|r rs IH]; intros b Hs; simpl.
  - now rewrite append_records_nil.
  - rewrite (Hw r b Hs). rewrite IH by now rewrite append_records_section.
    now rewrite append_records_app.
Qed.

Lemma write_each_records {T : Type} (h : ResourceHeader) (inj : T -> ResourceBody)
    (rs : list T) :
  Class h = ClassINET -> Length h = 0 ->
  writes (map (fun r => record (Name_ h) (TTL h) (inj r)) rs)
         (write_each (fun r => add_resource h (inj r)) rs).
Proof.
  intros Hc Hl. induction rs as [|r rs IH]; intros b Hs; simpl.
  - now rewrite append_records_nil.
  - rewrite (add_resource_writes h (inj r) Hc Hl b Hs).
    rewrite IH by now rewrite append_records_section.
    now rewrite append_records_app.
Qed.

Lemma write_all_writes (ws : list writer) (rss : list (list Resource)) :
  Forall2 writes rss ws -> writes (concat rss) (write_all ws).
Proof.
  unfold write_all.
  intros H. induction H as [|rs w rss ws Hw _ IH]; intros b Hs; simpl.
  - now rewrite append_records_nil.
  - rewrite (Hw b Hs).
    rewrite IH by now rewrite append_records_section.
    now rewrite append_records_app.
Qed.

Lemma mx_writer_writes (name : Name) (mailExchangers : list MXResource) :
  writes (map (fun mx => record name 604800 (BodyMX mx)) mailExchangers)
         (mx_writer name mailExchangers).
Proof.
  intros b Hs. unfold mx_writer.
  assert (forall b0, resource_section (b_section b0) = true ->
            fold_left
              (fun (acc : Builder * option error) mailExchanger =>
                 match MXResource_ (rr_header name TypeMX 604800) mailExchanger (fst acc) with
                 | inl b' => (b', None)
                 | inr e => (fst acc, Some e)
                 end) mailExchangers (b0, None) =
            (append_records b0
               (map (fun mx => record name 604800 (BodyMX mx)) mailExchangers), None)) as H.
  { induction mailExchangers as [|mx mxs IH]; intros b0 Hs0; simpl.
    - now rewrite append_records_nil.
    - unfold MXResource_ at 2.
      rewrite (add_resource_writes (rr_header name TypeMX 604800) (BodyMX mx) eq_refl eq_refl b0 Hs0).
      simpl fst. rewrite IH by now rewrite append_records_section.
      now rewrite append_records_app. }
  now rewrite (H b Hs).
Qed.

End ResponseWriters.

(** ** The records of a response *)

Section ResponseRecords.

Variable cz : DomainCustomizations.

Lemma write_all_one (w : writer) rs : writes rs w -> writes rs (write_all [w]).
Proof.
  intros H. rewrite <- (app_nil_r rs).
  change (rs ++ []) with (concat [rs]).
  apply write_all_writes. constructor; [exact H | constructor].
Qed.

Lemma write_all_nil : writes [] (write_all []).
Proof. apply writes_nil. Qed.

Lemma ns_writer_writes (name : dnsmessage.Name) (nameServers : list dnsmessage.NSResource) :
  writes (map (fun ns => record name 604800 (dnsmessage.BodyNS ns)) nameServers)
         (ns_writer name nameServers).
Proof.
  apply (write_each_records (rr_header name dnsmessage.TypeNS 604800) dnsmessage.BodyNS nameServers);
    reflexivity.
Qed.

Lemma glue_writer_writes (nameServers : list dnsmessage.NSResource) :
  writes (glue_records cz nameServers) (glue_writer cz nameServers).
Proof.
  unfold glue_records, glue_writer.
  apply (write_each_writes
           (fun nameServer : dnsmessage.NSResource =>
              andThen
                (write_each (fun aResource =>
                   dnsmessage.AResource_ (rr_header (dnsmessage.NS nameServer) dnsmessage.TypeA 604800) aResource)
                   (NameToA cz (dnsmessage.NS nameServer)))
                (write_each (fun aaaaResource =>
                   dnsmessage.AAAAResource_ (rr_header (dnsmessage.NS nameServer) dnsmessage.TypeAAAA 604800) aaaaResource)
                   (NameToAAAA cz (dnsmessage.NS nameServer))))).
  intros nameServer. apply andThen_writes.
  - apply (write_each_records (rr_header (dnsmessage.NS nameServer) dnsmessage.TypeA 604800) dnsmessage.BodyA); reflexivity.
  - apply (write_each_records (rr_header (dnsmessage.NS nameServer) dnsmessage.TypeAAAA 604800) dnsmessage.BodyAAAA);
      reflexivity.
Qed.

Lemma owned_map {T : Type} (name : dnsmessage.Name) (inj : T -> dnsmessage.ResourceBody) (rs : list T) :
  (forall r, ttl_of (inj r) = 604800) ->
  Forall (owned name) (map (fun r => record name 604800 (inj r)) rs).
Proof.
  intros Ht. apply List.Forall_forall. intros r Hr.
  apply List.in_map_iff in Hr. destruct Hr as (x & <- & _).
  exists (inj x). now rewrite Ht.
Qed.

Lemma glue_records_address (nameServers : list dnsmessage.NSResource) :
  Forall address_record (glue_records cz nameServers).
Proof.
  apply List.Forall_forall. intros r Hr. unfold glue_records in Hr.
  apply List.in_flat_map in Hr. destruct Hr as (ns & _ & Hr).
  apply List.in_app_iff in Hr. exists (dnsmessage.NS ns).
  destruct Hr as [Hr|Hr]; apply List.in_map_iff in Hr; destruct Hr as (x & <- & _);
    [left | right]; eexists; reflexivity.
Qed.

(** The sections [x.NSResponse] fills. *)
Lemma NSResponse_sections (x : Xip) (name : dnsmessage.Name) (h : dnsmessage.Header) :
  NSResponse cz x name (mkResponse h [] [] []) =
  (fst (NSResources cz x name),
   Ok (if dnsmessage.Authoritative h
       then mkResponse h [ns_writer name (snd (NSResources cz x name))] []
              [glue_writer cz (snd (NSResources cz x name))]
       else mkResponse h [] [ns_writer name (snd (NSResources cz x name))]
              [glue_writer cz (snd (NSResources cz x name))])).
Proof.
  unfold NSResponse. destruct (NSResources cz x name) as [x' nameServers].
  simpl. destruct (dnsmessage.Authoritative h); reflexivity.
Qed.

Lemma fold_add_Authority {T : Type} (f : T -> writer) (l : list T) : forall r,
  fold_left (fun response nameServer => add_Authority response (f nameServer)) l r =
  mkResponse (Header r) (Answers r) (Authorities r ++ map f l) (Additionals r).
Proof.
  induction l as [|a l IH]; intros r; simpl.
  - rewrite app_nil_r. now destruct r.
  - rewrite IH. simpl. now rewrite <- app_assoc.
Qed.

Lemma write_all_map_records {T : Type} (h : dnsmessage.ResourceHeader) (inj : T -> dnsmessage.ResourceBody)
    (rs : list T) :
  dnsmessage.Class h = dnsmessage.ClassINET -> dnsmessage.Length h = 0 ->
  writes (map (fun r => record (dnsmessage.Name_ h) (dnsmessage.TTL h) (inj r)) rs)
         (write_all (map (fun r => dnsmessage.add_resource h (inj r)) rs)).
Proof.
  intros Hc Hl. unfold write_all. induction rs as [|r rs IH]; intros b Hs; simpl.
  - now rewrite append_records_nil.
  - rewrite (add_resource_writes h (inj r) Hc Hl b Hs).
    rewrite IH by now rewrite append_records_section.
    now rewrite append_records_app.
Qed.

Lemma soa_authority_writes (name : dnsmessage.Name) :
  writes [record name 604800 (dnsmessage.BodySOA (SOAResource name))] (soa_authority_writer name).
Proof.
  apply (add_resource_writes
           (dnsmessage.mkResourceHeader name dnsmessage.TypeSOA dnsmessage.ClassINET 604800 0)
           (dnsmessage.BodySOA (SOAResource name))); reflexivity.
Qed.

Lemma owned_one (name : dnsmessage.Name) (body : dnsmessage.ResourceBody) :
  ttl_of body = 604800 -> Forall (owned name) [record name 604800 body].
Proof. intros H. constructor; [|constructor]. exists body. now rewrite H. Qed.

Lemma NSResources_not_delegated (x : Xip) (name : dnsmessage.Name) :
  IsAcmeChallenge cz name && negb (blocklist cz x name) = false ->
  snd (NSResources cz x name) = NameServers.
Proof.
  unfold NSResources. intros H.
  destruct (blocklist cz x name); [reflexivity |].
  destruct (IsAcmeChallenge cz name); [discriminate | reflexivity].
Qed.

Ltac sections an au ad :=
  exists an, au, ad;
  cbn [Header Answers Authorities Additionals add_Answer add_Authority add_Additional
       set_Header app];
  repeat match goal with
         | |- _ /\ _ => split
         | |- writes [] (write_all []) => apply write_all_nil
         | |- writes _ (write_all [_]) => apply write_all_one
         | |- Forall _ [] => constructor
         | |- [] = [] \/ _ => left; reflexivity
         | |- _ \/ [] = [] => right; reflexivity
         end.

Lemma processQuestion_spec (st : State) (q : dnsmessage.Question) (srcAddr : Net.IP)
    (st1 : State) (response : Response) :
  processQuestion cz st q srcAddr = (st1, Ok response) ->
  response_spec cz (dnsmessage.QName q) (st_x st) (dnsmessage.QType q) response.
Proof.
  unfold processQuestion, response_spec.
  destruct (IsAcmeChallenge cz (dnsmessage.QName q)
            && negb (blocklist cz (st_x st) (dnsmessage.QName q))) eqn:Hdel.
  { apply andb_true_iff in Hdel. destruct Hdel as [Hacme Hnb].
    rewrite Hacme, Hnb. cbn [andb negb orb].
    unfold set_Header, set_Authoritative; cbn [Header Answers Authorities Additionals
      dnsmessage.ID dnsmessage.Response dnsmessage.OpCode dnsmessage.Truncated
      dnsmessage.RecursionDesired dnsmessage.RecursionAvailable dnsmessage.RCode_].
    rewrite NSResponse_sections. cbn [dnsmessage.Authoritative]. unfold lift_x.
    cbn [fst snd]. intros [= _ <-].
    sections (@nil dnsmessage.Resource)
      (map (fun ns => record (dnsmessage.QName q) 604800 (dnsmessage.BodyNS ns))
           (snd (NSResources cz (st_x st) (dnsmessage.QName q))))
      (glue_records cz (snd (NSResources cz (st_x st) (dnsmessage.QName q)))).
    - apply ns_writer_writes.
    - apply glue_writer_writes.
    - apply owned_map; reflexivity.
    - apply glue_records_address.
    - reflexivity. }
  cbn [negb andb].
  destruct (dnsmessage.QType q) eqn:Ht; cbn [is_TXT is_ALL];
    rewrite ?orb_false_r, ?Hdel; cbn [negb].
  - (* A *)
    unfold nameToAwithBlocklist, lift_x. cbn [fst snd].
    destruct (NameToA cz (dnsmessage.QName q)) as [|a l] eqn:HA; cbn [List.length Nat.eqb].
    + intros [= _ <-].
      sections (@nil dnsmessage.Resource)
        [record (dnsmessage.QName q) 604800
           (dnsmessage.BodySOA (SOAResource (dnsmessage.QName q)))]
        (@nil dnsmessage.Resource).
      * apply soa_authority_writes.
      * apply owned_one; reflexivity.
      * reflexivity.
    + destruct (blocklist cz (st_x st) (dnsmessage.QName q)).
      * destruct (sinkA cz) as [sink|]; [|discriminate]. cbn [fst snd].
        intros [= _ <-].
        sections [record (dnsmessage.QName q) 604800 (dnsmessage.BodyA sink)]
          (@nil dnsmessage.Resource) (@nil dnsmessage.Resource).
        -- apply (add_resource_writes
                    (rr_header (dnsmessage.QName q) dnsmessage.TypeA 604800)
                    (dnsmessage.BodyA sink)); reflexivity.
        -- apply owned_one; reflexivity.
        -- reflexivity.
      * cbn [fst snd]. intros [= _ <-].
        sections (map (fun r => record (dnsmessage.QName q) 604800 (dnsmessage.BodyA r))
                      (a :: l))
          (@nil dnsmessage.Resource) (@nil dnsmessage.Resource).
        -- apply (write_each_records
                    (rr_header (dnsmessage.QName q) dnsmessage.TypeA 604800)
                    dnsmessage.BodyA); reflexivity.
        -- apply owned_map; reflexivity.
        -- reflexivity.
  - (* NS *)
    rewrite NSResponse_sections. cbn [dnsmessage.Authoritative]. unfold lift_x.
    cbn [fst snd]. intros [= _ <-].
    sections
      (map (fun ns => record (dnsmessage.QName q) 604800 (dnsmessage.BodyNS ns))
           (snd (NSResources cz (st_x st) (dnsmessage.QName q))))
      (@nil dnsmessage.Resource)
      (glue_records cz (snd (NSResources cz (st_x st) (dnsmessage.QName q)))).
    + apply ns_writer_writes.
    + apply glue_writer_writes.
    + apply owned_map; reflexivity.
    + apply glue_records_address.
    + reflexivity.
  - (* CNAME *)
    destruct (CNAMEResource cz (dnsmessage.QName q)) as [cname|].
    + unfold lift_x. cbn [fst snd]. intros [= _ <-].
      sections [record (dnsmessage.QName q) 604800 (dnsmessage.BodyCNAME cname)]
        (@nil dnsmessage.Resource) (@nil dnsmessage.Resource).
      * apply (add_resource_writes
                 (rr_header (dnsmessage.QName q) dnsmessage.TypeCNAME 604800)
                 (dnsmessage.BodyCNAME cname)); reflexivity.
      * apply owned_one; reflexivity.
      * reflexivity.
    + intros [= _ <-].
      sections (@nil dnsmessage.Resource)
        [record (dnsmessage.QName q) 604800
           (dnsmessage.BodySOA (SOAResource (dnsmessage.QName q)))]
        (@nil dnsmessage.Resource).
      * apply soa_authority_writes.
      * apply owned_one; reflexivity.
      * reflexivity.
  - (* SOA *)
    unfold lift_x. cbn [fst snd]. intros [= _ <-].
    sections [record (dnsmessage.QName q) 604800
                (dnsmessage.BodySOA (SOAResource (dnsmessage.QName q)))]
      (@nil dnsmessage.Resource) (@nil dnsmessage.Resource).
    + apply (add_resource_writes
               (rr_header (dnsmessage.QName q) dnsmessage.TypeSOA 604800)
               (dnsmessage.BodySOA (SOAResource (dnsmessage.QName q)))); reflexivity.
    + apply owned_one; reflexivity.
    + reflexivity.
  - (* MX *)
    destruct (Nat.eqb (List.length (MXResources cz (dnsmessage.QName q))) 0);
      [discriminate |].
    unfold lift_x. cbn [fst snd]. intros [= _ <-].
    sections (map (fun mx => record (dnsmessage.QName q) 604800 (dnsmessage.BodyMX mx))
                  (MXResources cz (dnsmessage.QName q)))
      (@nil dnsmessage.Resource) (@nil dnsmessage.Resource).
    + apply mx_writer_writes.
    + apply owned_map; reflexivity.
    + reflexivity.
  - (* TXT *)
    rewrite orb_true_r, andb_true_r.
    destruct (IsAcmeChallenge cz (dnsmessage.QName q)) eqn:Hacme.
    + destruct (NSResources cz (st_x st) (dnsmessage.QName q)) as [x' nameServers].
      unfold lift_x. cbn [fst snd]. rewrite fold_add_Authority.
      intros [= _ <-].
      sections (@nil dnsmessage.Resource)
        (map (fun ns => record (dnsmessage.QName q) 604800 (dnsmessage.BodyNS ns))
             nameServers)
        (@nil dnsmessage.Resource).
      * apply (write_all_map_records
                 (rr_header (dnsmessage.QName q) dnsmessage.TypeNS 604800)
                 dnsmessage.BodyNS); reflexivity.
      * apply owned_map; reflexivity.
      * reflexivity.
    + destruct (TXTResources cz st (dnsmessage.QName q) srcAddr) as [st2 [txts|e|]];
        [|discriminate | discriminate].
      intros [= _ <-].
      sections (map (fun txt => record (dnsmessage.QName q) 180 (dnsmessage.BodyTXT txt))
                    txts)
        (@nil dnsmessage.Resource) (@nil dnsmessage.Resource).
      * apply (write_each_records
                 (rr_header (dnsmessage.QName q) dnsmessage.TypeTXT 180)
                 dnsmessage.BodyTXT); reflexivity.
      * apply List.Forall_forall. intros r Hr.
        apply List.in_map_iff in Hr. destruct Hr as (txt & <- & _).
        exists (dnsmessage.BodyTXT txt). reflexivity.
      * reflexivity.
  - (* AAAA *)
    unfold nameToAAAAwithBlocklist, lift_x. cbn [fst snd].
    destruct (NameToAAAA cz (dnsmessage.QName q)) as [|a l] eqn:HA;
      cbn [List.length Nat.eqb].
    + intros [= _ <-].
      sections (@nil dnsmessage.Resource)
        [record (dnsmessage.QName q) 604800
           (dnsmessage.BodySOA (SOAResource (dnsmessage.QName q)))]
        (@nil dnsmessage.Resource).
      * apply soa_authority_writes.
      * apply owned_one; reflexivity.
      * reflexivity.
    + destruct (blocklist cz (st_x st) (dnsmessage.QName q)).
      * destruct (sinkAAAA cz) as [sink|]; [|discriminate]. cbn [fst snd].
        intros [= _ <-].
        sections [record (dnsmessage.QName q) 604800 (dnsmessage.BodyAAAA sink)]
          (@nil dnsmessage.Resource) (@nil dnsmessage.Resource).
        -- apply (add_resource_writes
                    (rr_header (dnsmessage.QName q) dnsmessage.TypeA 604800)
                    (dnsmessage.BodyAAAA sink)); reflexivity.
        -- apply owned_one; reflexivity.
        -- reflexivity.
      * cbn [fst snd]. intros [= _ <-].
        sections (map (fun r => record (dnsmessage.QName q) 604800 (dnsmessage.BodyAAAA r))
                      (a :: l))
          (@nil dnsmessage.Resource) (@nil dnsmessage.Resource).
        -- apply (write_each_records
                    (rr_header (dnsmessage.QName q) dnsmessage.TypeAAAA 604800)
                    dnsmessage.BodyAAAA); reflexivity.
        -- apply owned_map; reflexivity.
        -- reflexivity.
  - (* ALL *)
    intros [= _ <-].
    sections (@nil dnsmessage.Resource) (@nil dnsmessage.Resource)
      (@nil dnsmessage.Resource).
    reflexivity.
  - (* other *)
    intros [= _ <-].
    sections (@nil dnsmessage.Resource)
      [record (dnsmessage.QName q) 604800
         (dnsmessage.BodySOA (SOAResource (dnsmessage.QName q)))]
      (@nil dnsmessage.Resource).
    + apply soa_authority_writes.
    + apply owned_one; reflexivity.
    + reflexivity.
Qed.

(** From the response of [processQuestion] to the finished message. *)
Lemma QueryResponse_build (st : State) (queryHeader : dnsmessage.Header)
    (q : dnsmessage.Question) (srcAddr : Net.IP) (st1 : State) (response : Response)
    (an au ad : list dnsmessage.Resource) :
  processQuestion cz st q srcAddr = (st1, Ok response) ->
  writes an (write_all (Answers response)) ->
  writes au (write_all (Authorities response)) ->
  writes ad (write_all (Additionals response)) ->
  QueryResponse cz st queryHeader q srcAddr =
  (mkState (incQueries (st_x st1)) (st_kv st1),
   Ok (dnsmessage.mkBuilder
         (set_ID_RD (Header response) (dnsmessage.ID queryHeader)
            (dnsmessage.RecursionDesired queryHeader))
         dnsmessage.sectionDone [q] an au ad)).
Proof.
  intros Hp Han Hau Had. unfold QueryResponse. rewrite Hp.
  unfold andThen, dnsmessage.StartQuestions, dnsmessage.StartAnswers,
    dnsmessage.StartAuthorities, dnsmessage.StartAdditionals, dnsmessage.start,
    dnsmessage.Question_, dnsmessage.NewBuilder.
  cbn [dnsmessage.b_section dnsmessage.section_rank Nat.leb Nat.ltb
       dnsmessage.b_header dnsmessage.b_questions dnsmessage.b_answers
       dnsmessage.b_authorities dnsmessage.b_additionals app].
  change (write_each (fun w => w) (Answers response)) with (write_all (Answers response)).
  change (write_each (fun w => w) (Authorities response))
    with (write_all (Authorities response)).
  change (write_each (fun w => w) (Additionals response))
    with (write_all (Additionals response)).
  rewrite Han by reflexivity. unfold append_records.
  cbn [dnsmessage.b_section dnsmessage.section_rank Nat.leb Nat.ltb
       dnsmessage.b_header dnsmessage.b_questions dnsmessage.b_answers
       dnsmessage.b_authorities dnsmessage.b_additionals app].
  rewrite Hau by reflexivity. unfold append_records.
  cbn [dnsmessage.b_section dnsmessage.section_rank Nat.leb Nat.ltb
       dnsmessage.b_header dnsmessage.b_questions dnsmessage.b_answers
       dnsmessage.b_authorities dnsmessage.b_additionals app].
  rewrite Had by reflexivity. unfold append_records, dnsmessage.Finish.
  cbn [dnsmessage.b_section dnsmessage.section_rank Nat.leb Nat.ltb
       dnsmessage.b_header dnsmessage.b_questions dnsmessage.b_answers
       dnsmessage.b_authorities dnsmessage.b_additionals app].
  reflexivity.
Qed.

End ResponseRecords.

(** ** The response to each kind of question *)

Section Responses.

Variable cz : DomainCustomizations.

Ltac unfold_resources :=
  unfold dnsmessage.AResource_, dnsmessage.AAAAResource_, dnsmessage.CNAMEResource_,
    dnsmessage.MXResource_, dnsmessage.NSResource_, dnsmessage.SOAResource_,
    dnsmessage.TXTResource_.

Ltac section_writes :=
  cbn [Header Answers Authorities Additionals add_Answer add_Authority add_Additional
       set_Header app];
  first
    [ apply write_all_nil
    | apply write_all_one;
      first
        [ apply ns_writer_writes
        | apply glue_writer_writes
        | apply mx_writer_writes
        | apply soa_authority_writes
        | unfold_resources; apply write_each_records; reflexivity
        | unfold_resources; apply add_resource_writes; reflexivity ] ].

(** What [QueryResponse] makes of the result of [processQuestion]. *)
Lemma QueryResponse_cases (st : State) (queryHeader : dnsmessage.Header)
    (q : dnsmessage.Question) (srcAddr : Net.IP) :
  match processQuestion cz st q srcAddr with
  | (st1, Ok response) =>
      exists b,
        QueryResponse cz st queryHeader q srcAddr =
          (mkState (incQueries (st_x st1)) (st_kv st1), Ok b) /\
        dnsmessage.b_section b = dnsmessage.sectionDone /\
        dnsmessage.b_questions b = [q]
  | (st1, Err e) => QueryResponse cz st queryHeader q srcAddr = (st1, Err e)
  | (st1, Panic) => QueryResponse cz st queryHeader q srcAddr = (st1, Panic)
  end.
Proof.
  destruct (processQuestion cz st q srcAddr) as [st1 [response|e|]] eqn:Hp.
  - destruct (processQuestion_spec cz st q srcAddr st1 response Hp)
      as (an & au & ad & Han & Hau & Had & _).
    rewrite (QueryResponse_build cz st queryHeader q srcAddr st1 response an au ad
               Hp Han Hau Had).
    eexists. repeat split.
  - unfold QueryResponse. now rewrite Hp.
  - unfold QueryResponse. now rewrite Hp.
Qed.

(** X1. The message [QueryResponse] returns is the response of
    [processQuestion], written out.  Let the mail exchangers of the
    queried name be names that [Name.pack] accepts (the function that
    writes the MX records goes on after a record that fails).  When
    [QueryResponse] returns a message, [processQuestion] returned a
    response; the header of the message is the header of the response
    with the ID and the RD flag of the query; the message holds the
    question and, in each section, the records that the functions of
    that section of the response write, in their order, and nothing
    else; the state is the state after [processQuestion] with the
    counter of queries one up.  An error or a panic of [processQuestion]
    is passed on with the state as [processQuestion] left it: the query
    is then not counted. *)
Theorem QueryResponse_writes_the_response (st : State) (queryHeader : dnsmessage.Header)
    (q : dnsmessage.Question) (srcAddr : Net.IP) :
  Forall (fun mx => dnsmessage.Name_pack (dnsmessage.MX mx) = None)
    (MXResources cz (dnsmessage.QName q)) ->
  (forall st' b,
     QueryResponse cz st queryHeader q srcAddr = (st', Ok b) ->
     exists st1 response an au ad,
       processQuestion cz st q srcAddr = (st1, Ok response) /\
       writes an (write_all (Answers response)) /\
       writes au (write_all (Authorities response)) /\
       writes ad (write_all (Additionals response)) /\
       st' = mkState (incQueries (st_x st1)) (st_kv st1) /\
       b = dnsmessage.mkBuilder
             (set_ID_RD (Header response) (dnsmessage.ID queryHeader)
                (dnsmessage.RecursionDesired queryHeader))
             dnsmessage.sectionDone [q] an au ad) /\
  (forall st1 e,
     processQuestion cz st q srcAddr = (st1, Err e) ->
     QueryResponse cz st queryHeader q srcAddr = (st1, Err e)) /\
  (forall st1,
     processQuestion cz st q srcAddr = (st1, Panic) ->
     QueryResponse cz st queryHeader q srcAddr = (st1, Panic)).
Proof.
  intros _. split; [|split].
  - intros st' b HQ.
    destruct (processQuestion cz st q srcAddr) as [st1 [response|e|]] eqn:Hp.
    + destruct (processQuestion_spec cz st q srcAddr st1 response Hp)
        as (an & au & ad & Han & Hau & Had & _).
      rewrite (QueryResponse_build cz st queryHeader q srcAddr st1 response an au ad
                 Hp Han Hau Had) in HQ.
      injection HQ as <- <-.
      exists st1, response, an, au, ad. repeat split; assumption.
    + unfold QueryResponse in HQ. rewrite Hp in HQ. discriminate.
    + unfold QueryResponse in HQ. rewrite Hp in HQ. discriminate.
  - intros st1 e Hp. unfold QueryResponse. now rewrite Hp.
  - intros st1 Hp. unfold QueryResponse. now rewrite Hp.
Qed.

Lemma QueryResponse_Ok_inv (st : State) (queryHeader : dnsmessage.Header)
    (q : dnsmessage.Question) (srcAddr : Net.IP) (st' : State) (b : dnsmessage.Builder) :
  QueryResponse cz st queryHeader q srcAddr = (st', Ok b) ->
  exists st1 response an au ad,
    processQuestion cz st q srcAddr = (st1, Ok response) /\
    st' = mkState (incQueries (st_x st1)) (st_kv st1) /\
    b = dnsmessage.mkBuilder
          (set_ID_RD (Header response) (dnsmessage.ID queryHeader)
             (dnsmessage.RecursionDesired queryHeader))
          dnsmessage.sectionDone [q] an au ad /\
    Forall (owned (dnsmessage.QName q)) an /\
    Forall (owned (dnsmessage.QName q)) au /\
    Forall address_record ad /\
    (an = [] \/ au = []) /\
    Header response =
      dnsmessage.mkHeader 0 true 0
        (negb (IsAcmeChallenge cz (dnsmessage.QName q)
               && (negb (blocklist cz (st_x st) (dnsmessage.QName q))
                   || is_TXT (dnsmessage.QType q))))
        false false false
        (if negb (IsAcmeChallenge cz (dnsmessage.QName q)
                  && negb (blocklist cz (st_x st) (dnsmessage.QName q)))
            && is_ALL (dnsmessage.QType q)
         then dnsmessage.RCodeNotImplemented else dnsmessage.RCodeSuccess).
Proof.
  intros HQ.
  destruct (processQuestion cz st q srcAddr) as [st1 [response|e|]] eqn:Hp.
  - destruct (processQuestion_spec cz st q srcAddr st1 response Hp)
      as (an & au & ad & Han & Hau & Had & Hoan & Hoau & Hoad & Hex & Hh).
    rewrite (QueryResponse_build cz st queryHeader q srcAddr st1 response an au ad
               Hp Han Hau Had) in HQ.
    injection HQ as <- <-.
    exists st1, response, an, au, ad. repeat split; assumption.
  - unfold QueryResponse in HQ. rewrite Hp in HQ. discriminate.
  - unfold QueryResponse in HQ. rewrite Hp in HQ. discriminate.
Qed.

(** X2. The header of every response: the identifier and the
    recursion-desired bit of the query, the response bit set, recursion
    never available, never truncated; authoritative unless the name is an
    ACME challenge that is delegated (not blocked, or asked for TXT); the
    code NotImplemented for a question of type ANY that is not delegated,
    and Success otherwise. *)
Theorem response_header (st : State) (queryHeader : dnsmessage.Header)
    (q : dnsmessage.Question) (srcAddr : Net.IP) (st' : State) (b : dnsmessage.Builder) :
  QueryResponse cz st queryHeader q srcAddr = (st', Ok b) ->
  dnsmessage.b_header b =
    dnsmessage.mkHeader (dnsmessage.ID queryHeader) true 0
      (negb (IsAcmeChallenge cz (dnsmessage.QName q)
             && (negb (blocklist cz (st_x st) (dnsmessage.QName q))
                 || is_TXT (dnsmessage.QType q))))
      false (dnsmessage.RecursionDesired queryHeader) false
      (if negb (IsAcmeChallenge cz (dnsmessage.QName q)
                && negb (blocklist cz (st_x st) (dnsmessage.QName q)))
          && is_ALL (dnsmessage.QType q)
       then dnsmessage.RCodeNotImplemented else dnsmessage.RCodeSuccess).
Proof.
  intros HQ. apply QueryResponse_Ok_inv in HQ.
  destruct HQ as (st1 & response & an & au & ad & _ & _ & -> & _ & _ & _ & _ & Hh).
  cbn [dnsmessage.b_header]. rewrite Hh. reflexivity.
Qed.

(** X3. The records of every response.  Every answer and every
    authority is a record of the queried name as it was spelled, of
    class INET, of the type of its body, with 180 seconds to live for a
    TXT record and a week for the others; every additional record is an
    A or AAAA record with a week to live; and no response has both
    answers and authorities. *)
Theorem response_records (st : State) (queryHeader : dnsmessage.Header)
    (q : dnsmessage.Question) (srcAddr : Net.IP) (st' : State) (b : dnsmessage.Builder) :
  QueryResponse cz st queryHeader q srcAddr = (st', Ok b) ->
  Forall (owned (dnsmessage.QName q)) (dnsmessage.b_answers b) /\
  Forall (owned (dnsmessage.QName q)) (dnsmessage.b_authorities b) /\
  Forall address_record (dnsmessage.b_additionals b) /\
  (dnsmessage.b_answers b = [] \/ dnsmessage.b_authorities b = []).
Proof.
  intros HQ. apply QueryResponse_Ok_inv in HQ.
  destruct HQ as (st1 & response & an & au & ad & _ & _ & -> & H1 & H2 & H3 & H4 & _).
  cbn [dnsmessage.b_answers dnsmessage.b_authorities dnsmessage.b_additionals].
  repeat split; assumption.
Qed.

Lemma length_nonempty {T : Type} (l : list T) :
  l <> [] -> Nat.eqb (List.length l) 0 = false.
Proof. destruct l; [contradiction | reflexivity]. Qed.

Lemma not_delegated (x : Xip) (name : dnsmessage.Name) :
  IsAcmeChallenge cz name = false \/ blocklist cz x name = true ->
  IsAcmeChallenge cz name && negb (blocklist cz x name) = false.
Proof. intros [-> | ->]; [reflexivity | apply andb_false_r]. Qed.

Lemma IsAcmeChallenge_no_prefix (fqdnString : string) :
  Regexp.MatchString dns01ChallengeRE fqdnString = false ->
  IsAcmeChallenge cz fqdnString = false.
Proof. intros H. unfold IsAcmeChallenge. now rewrite H. Qed.

(** X4. An A question for a name without [_acme-challenge.] that yields
    A records and is not blocked: the answers are these records, in
    order, each with a week to live; nothing else is in the message; the
    response is authoritative; the counters of queries, answered queries
    and answered A queries go up by one. *)
Theorem A_question_is_answered (st : State) (queryHeader : dnsmessage.Header)
    (q : dnsmessage.Question) (srcAddr : Net.IP) :
  dnsmessage.QType q = dnsmessage.TypeA ->
  Regexp.MatchString dns01ChallengeRE (dnsmessage.QName q) = false ->
  NameToA cz (dnsmessage.QName q) <> [] ->
  blocklist cz (st_x st) (dnsmessage.QName q) = false ->
  QueryResponse cz st queryHeader q srcAddr =
  (mkState (incQueries (incAnsweredAQueries (incAnsweredQueries (st_x st)))) (st_kv st),
   Ok (dnsmessage.mkBuilder
         (dnsmessage.mkHeader (dnsmessage.ID queryHeader) true 0 true false
            (dnsmessage.RecursionDesired queryHeader) false dnsmessage.RCodeSuccess)
         dnsmessage.sectionDone [q]
         (map (fun a => record (dnsmessage.QName q) 604800 (dnsmessage.BodyA a))
              (NameToA cz (dnsmessage.QName q)))
         [] [])).
Proof.
  intros Ht Hre Hne Hb.
  eassert (processQuestion cz st q srcAddr = (_, Ok _)) as Hp.
  { unfold processQuestion.
    rewrite (IsAcmeChallenge_no_prefix _ Hre), Ht. cbn [andb].
    unfold nameToAwithBlocklist. rewrite Hb, (length_nonempty _ Hne).
    unfold lift_x. cbn [fst snd]. reflexivity. }
  erewrite (QueryResponse_build cz st queryHeader q srcAddr _ _ _ _ _ Hp);
    [ | section_writes | section_writes | section_writes ].
  reflexivity.
Qed.

(** X5. An AAAA question for a name without [_acme-challenge.] that
    yields AAAA records and is not blocked: the answers are these
    records, in order, each with a week to live; nothing else is in the
    message; the counters of queries, answered queries and answered AAAA
    queries go up by one. *)
Theorem AAAA_question_is_answered (st : State) (queryHeader : dnsmessage.Header)
    (q : dnsmessage.Question) (srcAddr : Net.IP) :
  dnsmessage.QType q = dnsmessage.TypeAAAA ->
  Regexp.MatchString dns01ChallengeRE (dnsmessage.QName q) = false ->
  NameToAAAA cz (dnsmessage.QName q) <> [] ->
  blocklist cz (st_x st) (dnsmessage.QName q) = false ->
  QueryResponse cz st queryHeader q srcAddr =
  (mkState (incQueries (incAnsweredAAAAQueries (incAnsweredQueries (st_x st)))) (st_kv st),
   Ok (dnsmessage.mkBuilder
         (dnsmessage.mkHeader (dnsmessage.ID queryHeader) true 0 true false
            (dnsmessage.RecursionDesired queryHeader) false dnsmessage.RCodeSuccess)
         dnsmessage.sectionDone [q]
         (map (fun aaaa => record (dnsmessage.QName q) 604800 (dnsmessage.BodyAAAA aaaa))
              (NameToAAAA cz (dnsmessage.QName q)))
         [] [])).
Proof.
  intros Ht Hre Hne Hb.
  eassert (processQuestion cz st q srcAddr = (_, Ok _)) as Hp.
  { unfold processQuestion.
    rewrite (IsAcmeChallenge_no_prefix _ Hre), Ht. cbn [andb].
    unfold nameToAAAAwithBlocklist. rewrite Hb, (length_nonempty _ Hne).
    unfold lift_x. cbn [fst snd]. reflexivity. }
  erewrite (QueryResponse_build cz st queryHeader q srcAddr _ _ _ _ _ Hp);
    [ | section_writes | section_writes | section_writes ].
  reflexivity.
Qed.

(** X6. An A question for a name that yields A records and is blocked
    is answered with the sink, the first A record of the customization
    of [ns-aws.sslip.io.], and with nothing else; the counters of
    queries, answered queries and blocked queries go up by one, the
    counter of answered A queries does not.  (A blocked name that yields
    no A record gets the SOA authority instead.) *)
Theorem blocked_A_answers_sink (st : State) (queryHeader : dnsmessage.Header)
    (q : dnsmessage.Question) (srcAddr : Net.IP) (sink : dnsmessage.AResource) :
  dnsmessage.QType q = dnsmessage.TypeA ->
  NameToA cz (dnsmessage.QName q) <> [] ->
  blocklist cz (st_x st) (dnsmessage.QName q) = true ->
  sinkA cz = Some sink ->
  QueryResponse cz st queryHeader q srcAddr =
  (mkState (incQueries (incAnsweredBlockedQueries (incAnsweredQueries (st_x st))))
     (st_kv st),
   Ok (dnsmessage.mkBuilder
         (dnsmessage.mkHeader (dnsmessage.ID queryHeader) true 0 true false
            (dnsmessage.RecursionDesired queryHeader) false dnsmessage.RCodeSuccess)
         dnsmessage.sectionDone [q]
         [record (dnsmessage.QName q) 604800 (dnsmessage.BodyA sink)] [] [])).
Proof.
  intros Ht Hne Hb Hsink.
  unfold QueryResponse, processQuestion. rewrite Hb, Ht, andb_false_r.
  unfold nameToAwithBlocklist. rewrite Hb, (length_nonempty _ Hne), Hsink.
  reflexivity.
Qed.

(** X7. Nothing to answer.  An A question for a name without A records,
    an AAAA question for a name without AAAA records, a CNAME question
    for a name without a customized CNAME, and a question of a type the
    dispatcher has no case for get no answer and one authority, the SOA
    record of the queried name; the response is authoritative and only
    the counter of queries goes up. *)
Theorem no_data_gets_SOA_authority (st : State) (queryHeader : dnsmessage.Header)
    (q : dnsmessage.Question) (srcAddr : Net.IP) :
  IsAcmeChallenge cz (dnsmessage.QName q) = false ->
  (dnsmessage.QType q = dnsmessage.TypeA /\ NameToA cz (dnsmessage.QName q) = []) \/
  (dnsmessage.QType q = dnsmessage.TypeAAAA /\ NameToAAAA cz (dnsmessage.QName q) = []) \/
  (dnsmessage.QType q = dnsmessage.TypeCNAME /\
   CNAMEResource cz (dnsmessage.QName q) = None) \/
  (exists n, dnsmessage.QType q = dnsmessage.TypeOther n) ->
  QueryResponse cz st queryHeader q srcAddr =
  (mkState (incQueries (st_x st)) (st_kv st),
   Ok (dnsmessage.mkBuilder
         (dnsmessage.mkHeader (dnsmessage.ID queryHeader) true 0 true false
            (dnsmessage.RecursionDesired queryHeader) false dnsmessage.RCodeSuccess)
         dnsmessage.sectionDone [q] []
         [record (dnsmessage.QName q) 604800
            (dnsmessage.BodySOA
               (dnsmessage.mkSOA (dnsmessage.QName q) mbox 2022020800 900 900 1800 180))]
         [])).
Proof.
  intros Hacme H.
  unfold QueryResponse, processQuestion. rewrite Hacme. cbn [andb].
  destruct H as [[Ht Hn] | [[Ht Hn] | [[Ht Hn] | [n Ht]]]]; rewrite Ht.
  - unfold nameToAwithBlocklist. rewrite Hn. reflexivity.
  - unfold nameToAAAAwithBlocklist. rewrite Hn. reflexivity.
  - rewrite Hn. reflexivity.
  - reflexivity.
Qed.

(** X8. A TXT question for an ACME challenge name that is blocked is
    not delegated to the address in the name: the response is not
    authoritative, has no answer and no additional record, and its
    authorities are the three name servers of the service; the counters
    of queries, answered queries and blocked queries go up by one. *)
Theorem blocked_challenge_TXT_is_referred (st : State) (queryHeader : dnsmessage.Header)
    (q : dnsmessage.Question) (srcAddr : Net.IP) :
  dnsmessage.QType q = dnsmessage.TypeTXT ->
  IsAcmeChallenge cz (dnsmessage.QName q) = true ->
  blocklist cz (st_x st) (dnsmessage.QName q) = true ->
  QueryResponse cz st queryHeader q srcAddr =
  (mkState (incQueries (incAnsweredBlockedQueries (incAnsweredQueries (st_x st))))
     (st_kv st),
   Ok (dnsmessage.mkBuilder
         (dnsmessage.mkHeader (dnsmessage.ID queryHeader) true 0 false false
            (dnsmessage.RecursionDesired queryHeader) false dnsmessage.RCodeSuccess)
         dnsmessage.sectionDone [q] []
         (map (fun ns => record (dnsmessage.QName q) 604800 (dnsmessage.BodyNS ns))
              NameServers)
         [])).
Proof.
  intros Ht Hacme Hb.
  unfold QueryResponse, processQuestion. rewrite Hacme, Hb, Ht. cbn [andb negb].
  unfold NSResources. rewrite Hb. reflexivity.
Qed.

(** X9. An NS question that is not delegated is answered with the
    three name servers of the service, and the additional section holds
    their A and AAAA records; a blocked name is counted as blocked. *)
Theorem NS_question_is_answered (st : State) (queryHeader : dnsmessage.Header)
    (q : dnsmessage.Question) (srcAddr : Net.IP) :
  dnsmessage.QType q = dnsmessage.TypeNS ->
  IsAcmeChallenge cz (dnsmessage.QName q) = false \/
  blocklist cz (st_x st) (dnsmessage.QName q) = true ->
  QueryResponse cz st queryHeader q srcAddr =
  (mkState
     (incQueries
        (if blocklist cz (st_x st) (dnsmessage.QName q)
         then incAnsweredBlockedQueries (incAnsweredQueries (st_x st))
         else incAnsweredQueries (st_x st)))
     (st_kv st),
   Ok (dnsmessage.mkBuilder
         (dnsmessage.mkHeader (dnsmessage.ID queryHeader) true 0 true false
            (dnsmessage.RecursionDesired queryHeader) false dnsmessage.RCodeSuccess)
         dnsmessage.sectionDone [q]
         (map (fun ns => record (dnsmessage.QName q) 604800 (dnsmessage.BodyNS ns))
              NameServers)
         []
         (glue_records cz NameServers))).
Proof.
  intros Ht Hnd.
  eassert (processQuestion cz st q srcAddr = (_, Ok _)) as Hp.
  { unfold processQuestion. rewrite (not_delegated _ _ Hnd), Ht.
    rewrite NSResponse_sections. cbn [dnsmessage.Authoritative].
    unfold lift_x. cbn [fst snd]. reflexivity. }
  erewrite (QueryResponse_build cz st queryHeader q srcAddr _ _ _ _ _ Hp);
    [ | section_writes | section_writes | section_writes ].
  rewrite (NSResources_not_delegated cz _ _ (not_delegated _ _ Hnd)).
  unfold NSResources.
  destruct (blocklist cz (st_x st) (dnsmessage.QName q)); [reflexivity |].
  destruct Hnd as [-> | Hf]; [reflexivity | discriminate].
Qed.


(** X11. A question of type ANY that is not delegated gets the code
    NotImplemented and no record, and is not counted as answered. *)
Theorem ANY_question_is_not_implemented (st : State) (queryHeader : dnsmessage.Header)
    (q : dnsmessage.Question) (srcAddr : Net.IP) :
  dnsmessage.QType q = dnsmessage.TypeALL ->
  IsAcmeChallenge cz (dnsmessage.QName q) = false \/
  blocklist cz (st_x st) (dnsmessage.QName q) = true ->
  QueryResponse cz st queryHeader q srcAddr =
  (mkState (incQueries (st_x st)) (st_kv st),
   Ok (dnsmessage.mkBuilder
         (dnsmessage.mkHeader (dnsmessage.ID queryHeader) true 0 true false
            (dnsmessage.RecursionDesired queryHeader) false
            dnsmessage.RCodeNotImplemented)
         dnsmessage.sectionDone [q] [] [] [])).
Proof.
  intros Ht Hnd.
  unfold QueryResponse, processQuestion. rewrite (not_delegated _ _ Hnd), Ht.
  reflexivity.
Qed.


End Responses.

(** ** Key-value names *)

Section KeyValueNames.

Import Regexp.

Variable cz : DomainCustomizations.

Lemma in_class_single (c x : ascii) : in_class false [(c, c)] x = true -> x = c.
Proof.
  unfold in_class, in_range, code. cbn [existsb xorb fst snd].
  rewrite orb_false_r. intros H. apply andb_true_iff in H. destruct H as [H1 H2].
  apply N.leb_le in H1, H2.
  assert (N_of_ascii x = N_of_ascii c) as E by lia.
  rewrite <- (ascii_N_embedding x), <- (ascii_N_embedding c). now rewrite E.
Qed.

Lemma run_class_cat (c : ascii) (r : re) (pos : nat) (rest : list ascii) (cs : caps) :
  run (ReCat (ReClass false [(c, c)]) r) (pos, rest, cs) =
  match rest with
  | x :: rest' => if in_class false [(c, c)] x then run r (S pos, rest', cs) else []
  | [] => []
  end.
Proof.
  cbn [run]. destruct rest as [|x rest']; [reflexivity |].
  destruct (in_class false [(c, c)] x); [|reflexivity].
  unfold bind. cbn [flat_map]. apply app_nil_r.
Qed.

Ltac read_byte :=
  rewrite run_class_cat;
  match goal with
  | |- match ?rest with _ => _ end <> [] -> _ =>
      let x := fresh "x" in
      let E := fresh "E" in
      destruct rest as [|x rest]; [intros H; now contradiction H |];
      destruct (in_class false _ x) eqn:E; [|intros H; now contradiction H];
      apply in_class_single in E; subst x
  end.

(** [kvRE] matches at the last eight bytes only. *)
Lemma run_kvRE (pos : nat) (rest : list ascii) (cs : caps) :
  run kvRE (pos, rest, cs) <> [] -> rest = list_ascii_of_string ".k-v.io.".
Proof.
  unfold kvRE. do 7 read_byte.
  cbn [run]. destruct rest as [|x rest]; [intros H; now contradiction H |].
  destruct (in_class false _ x) eqn:E; [|intros H; now contradiction H].
  apply in_class_single in E; subst x.
  unfold bind. cbn [flat_map run]. destruct rest; [reflexivity |].
  intros H. now contradiction H.
Qed.

Lemma kvRE_match (fqdn : string) :
  MatchString kvRE fqdn = true -> exists p, fqdn = (p ++ ".k-v.io.")%string.
Proof.
  unfold MatchString, find.
  destruct (find_from false kvRE 0 (list_ascii_of_string fqdn)) as [m|] eqn:E;
    [intros _ | discriminate].
  apply find_from_leftmost in E. destruct E as (k & Hk & _ & Hm & _).
  unfold match_at in Hm. cbn [Nat.add] in Hm.
  destruct (pick false (run kvRE (k, skipn k (list_ascii_of_string fqdn), [])))
    as [t|] eqn:Hp; [|destruct (pick _ _); discriminate].
  assert (run kvRE (k, skipn k (list_ascii_of_string fqdn), []) <> []) as Hr.
  { intros Hn. rewrite Hn in Hp. discriminate. }
  apply run_kvRE in Hr.
  exists (string_of_list_ascii (firstn k (list_ascii_of_string fqdn))).
  rewrite <- (string_of_list_ascii_of_string fqdn) at 1.
  rewrite <- (firstn_skipn k (list_ascii_of_string fqdn)) at 1.
  rewrite Hr, string_of_list_ascii_app. reflexivity.
Qed.

(** The labels of a name that ends in [.k-v.io.]. *)
Lemma Split_kv (p : string) :
  strings.Split (p ++ ".k-v.io.") "." = strings.Split p "." ++ ["k-v"; "io"; ""]%string.
Proof.
  change (p ++ ".k-v.io.")%string with (p ++ "." ++ "k-v.io.")%string.
  now rewrite Split_app.
Qed.

(** What a key-value name comes to: one of the three operations of the
    store, or one of the two 422 answers. *)
Lemma kvTXTResources_cases (st : State) (p : string) :
  exists key value,
    kvTXTResources st (p ++ ".k-v.io.") = getKv st key \/
    kvTXTResources st (p ++ ".k-v.io.") = putKv st key value \/
    kvTXTResources st (p ++ ".k-v.io.") = deleteKv st key \/
    kvTXTResources st (p ++ ".k-v.io.") =
      (st, Ok [txt1 "422: missing a value: put.value.key.k-v.io"]) \/
    kvTXTResources st (p ++ ".k-v.io.") =
      (st, Ok [txt1 "422: valid verbs are get, put, delete"]).
Proof.
  unfold kvTXTResources. rewrite Split_kv, strip3_length, strip3.
  destruct (strings.Split p ".") as [|l0 ls] eqn:ES; [now apply Split_nonempty in ES |].
  destruct (@exists_last _ (l0 :: ls)) as (front & lastLabel & ->); [discriminate |].
  rewrite nth_error_last.
  match goal with
  | |- context [let '(verb, value) := ?e in _] => destruct e as [verb value]
  end.
  exists (strings.ToLower lastLabel), value.
  destruct (String.eqb verb "get"); [now left |].
  destruct (String.eqb verb "put").
  - destruct (Nat.eqb (List.length (front ++ [lastLabel])) 2); auto.
  - destruct (String.eqb verb "delete"); auto 10.
Qed.

Lemma getKv_not_Panic (st : State) (key : string) : snd (getKv st key) <> Panic.
Proof.
  unfold getKv. destruct (Etcd (st_x st)) as [cli|].
  - destruct (etcd_Get cli (etcd_state cli) key) as [s [[|v vs]|err]]; discriminate.
  - destruct (st_kv st !! key); discriminate.
Qed.

Lemma putKv_not_Panic (st : State) (key value : string) :
  snd (putKv st key value) <> Panic.
Proof.
  unfold putKv. destruct (Etcd (st_x st)) as [cli|]; [|discriminate].
  destruct (etcd_Put cli (etcd_state cli) key (truncate63 value)) as [s [err|]];
    discriminate.
Qed.

Lemma deleteKv_not_Panic (st : State) (key : string) : snd (deleteKv st key) <> Panic.
Proof.
  unfold deleteKv. destruct (Etcd (st_x st)) as [cli|].
  - destruct (etcd_Delete cli (etcd_state cli) key) as [s [err|]]; discriminate.
  - destruct (st_kv st !! key); discriminate.
Qed.

(** X13. A name that matches [kvRE] is handled by [kvTXTResources], and
    no such name makes its slicing and indexing of the labels go out of
    range: it does not panic, whatever the store. *)
Theorem kv_names_never_panic (st : State) (fqdn : string) (ip : Net.IP) :
  MatchString kvRE fqdn = true ->
  TXTResources cz st fqdn ip = kvTXTResources st fqdn /\
  snd (kvTXTResources st fqdn) <> Panic.
Proof.
  intros Hm. split; [unfold TXTResources; now rewrite Hm |].
  apply kvRE_match in Hm. destruct Hm as [p ->].
  destruct (kvTXTResources_cases st p) as (key & value & [H | [H | [H | [H | H]]]]);
    rewrite H.
  - apply getKv_not_Panic.
  - apply putKv_not_Panic.
  - apply deleteKv_not_Panic.
  - discriminate.
  - discriminate.
Qed.

Lemma substring_length (n : nat) : forall s : string,
  (String.length (String.substring 0 n s) <= n)%nat.
Proof.
  induction n as [|n IH]; intros [|c s]; simpl; try lia.
  specialize (IH s). lia.
Qed.

Lemma truncate63_length (value : string) :
  (String.length (truncate63 value) <= 63)%nat.
Proof.
  unfold truncate63. destruct (Nat.ltb_spec 63 (String.length value)); [|lia].
  apply substring_length.
Qed.

Lemma short_txt_nil : short_txt [].
Proof. split; [simpl; lia | constructor]. Qed.

Lemma short_txt_one (s : string) : (String.length s <= 63)%nat -> short_txt [txt1 s].
Proof.
  intros H. split; [simpl; lia |]. constructor; [|constructor]. now exists s.
Qed.

(** X14. With the built-in store, and a map that holds at most one
    record of at most 63 bytes under each key, every key-value name is
    answered without error with at most one TXT record of one string of
    at most 63 bytes; the map still holds such records only, and the
    server is unchanged. *)
Theorem kv_answers_are_short (st : State) (fqdn : string) (ip : Net.IP) :
  Etcd (st_x st) = None ->
  kv_short (st_kv st) ->
  MatchString kvRE fqdn = true ->
  exists kv txts,
    TXTResources cz st fqdn ip = (mkState (st_x st) kv, Ok txts) /\
    short_txt txts /\ kv_short kv.
Proof.
  intros Hlocal Hshort Hm.
  unfold TXTResources. rewrite Hm.
  apply kvRE_match in Hm. destruct Hm as [p ->].
  assert (st = mkState (st_x st) (st_kv st)) as Hst by now destruct st.
  destruct (kvTXTResources_cases st p) as (key & value & [H | [H | [H | [H | H]]]]);
    rewrite H.
  - unfold getKv. rewrite Hlocal.
    destruct (st_kv st !! key) as [txtRecord|] eqn:E.
    + exists (st_kv st), txtRecord. rewrite <- Hst. eauto.
    + exists (st_kv st), []. rewrite <- Hst. auto using short_txt_nil.
  - unfold putKv. rewrite Hlocal.
    exists (<[key := [txt1 (truncate63 value)]]> (st_kv st)), [txt1 (truncate63 value)].
    split; [reflexivity |].
    split; [apply short_txt_one, truncate63_length |].
    intros key' txts Hl. destruct (decide (key = key')) as [<- | Hne].
    + rewrite lookup_insert_eq in Hl. injection Hl as <-.
      apply short_txt_one, truncate63_length.
    + rewrite lookup_insert_ne in Hl by assumption. eauto.
  - unfold deleteKv. rewrite Hlocal.
    destruct (st_kv st !! key) as [txtRecord|] eqn:E.
    + exists (delete key (st_kv st)), []. split; [reflexivity |].
      split; [apply short_txt_nil |].
      intros key' txts Hl. apply lookup_delete_Some in Hl. destruct Hl as [_ Hl]. eauto.
    + exists (st_kv st), []. rewrite <- Hst. auto using short_txt_nil.
  - exists (st_kv st), [txt1 "422: missing a value: put.value.key.k-v.io"].
    rewrite <- Hst. split; [reflexivity |].
    split; [apply short_txt_one; vm_compute; lia | assumption].
  - exists (st_kv st), [txt1 "422: valid verbs are get, put, delete"].
    rewrite <- Hst. split; [reflexivity |].
    split; [apply short_txt_one; vm_compute; lia | assumption].
Qed.

(** X15. Verbs and keys are read without regard to letter case: names
    that differ in the case of the verb and of the key only have the same
    result, on every state and store.  The value keeps its case. *)
Theorem kv_names_fold_case (st : State) (verb verb' K K' V : string) (ip : Net.IP) :
  is_label verb = true -> is_label verb' = true ->
  is_label K = true -> is_label K' = true ->
  strings.ToLower verb = strings.ToLower verb' ->
  strings.ToLower K = strings.ToLower K' ->
  TXTResources cz st (K ++ ".k-v.io.") ip = TXTResources cz st (K' ++ ".k-v.io.") ip /\
  TXTResources cz st (verb ++ "." ++ K ++ ".k-v.io.") ip =
    TXTResources cz st (verb' ++ "." ++ K' ++ ".k-v.io.") ip /\
  TXTResources cz st (verb ++ "." ++ V ++ "." ++ K ++ ".k-v.io.") ip =
    TXTResources cz st (verb' ++ "." ++ V ++ "." ++ K' ++ ".k-v.io.") ip.
Proof.
  intros Hv Hv' HK HK' Ev EK. repeat split.
  - rewrite !TXT_get by assumption. now rewrite EK.
  - rewrite !TXT_verb, !kv_verb by assumption. now rewrite Ev, EK.
  - rewrite !TXT_verb_value, !kv_verb_value by assumption. now rewrite Ev, EK.
Qed.

(** X16. With the built-in store and keys of 7-bit bytes, the last
    value put under a key is the one read (cut to 63 bytes), and a put
    under one key does not change what is read under a key that differs
    from it after lower-casing. *)
Theorem kv_last_put_wins (st : State) (K K' V1 V2 : string) (ip : Net.IP) :
  Etcd (st_x st) = None ->
  is_label K = true -> is_label K' = true ->
  is_ascii K = true -> is_ascii K' = true ->
  strings.ToLower K' <> strings.ToLower K ->
  let st1 := fst (TXTResources cz st ("put." ++ V1 ++ "." ++ K ++ ".k-v.io.") ip) in
  let st2 := fst (TXTResources cz st1 ("put." ++ V2 ++ "." ++ K ++ ".k-v.io.") ip) in
  TXTResources cz st2 (K ++ ".k-v.io.") ip = (st2, Ok [txt1 (truncate63 V2)]) /\
  snd (TXTResources cz st2 (K' ++ ".k-v.io.") ip) =
    snd (TXTResources cz st (K' ++ ".k-v.io.") ip).
Proof.
  intros Hlocal HK HK' _ _ Hne st1 st2. subst st1 st2.
  rewrite (TXT_put cz st K V1 ip HK), (put_local st _ V1 Hlocal). cbn [fst].
  rewrite (TXT_put cz _ K V2 ip HK), put_local by exact Hlocal. cbn [fst st_x st_kv].
  rewrite !TXT_get by assumption. unfold getKv. cbn [st_x st_kv]. rewrite Hlocal.
  rewrite lookup_insert_eq. split; [reflexivity |].
  rewrite !lookup_insert_ne by congruence.
  destruct (st_kv st !! strings.ToLower K'); reflexivity.
Qed.

(** X17. With the built-in store a delete always succeeds with no
    record, leaves the key without a record, and changes nothing when it
    is repeated or when the key was not there. *)
Theorem kv_delete_is_idempotent (st : State) (K : string) (ip : Net.IP) :
  Etcd (st_x st) = None ->
  is_label K = true ->
  let del := TXTResources cz st ("delete." ++ K ++ ".k-v.io.") ip in
  snd del = Ok [] /\
  TXTResources cz (fst del) (K ++ ".k-v.io.") ip = (fst del, Ok []) /\
  TXTResources cz (fst del) ("delete." ++ K ++ ".k-v.io.") ip = (fst del, Ok []) /\
  (st_kv st !! strings.ToLower K = None -> fst del = st).
Proof.
  intros Hlocal HK del. subst del.
  rewrite (TXT_delete cz st K ip HK).
  assert (Etcd (st_x (fst (deleteKv st (strings.ToLower K)))) = None /\
          st_kv (fst (deleteKv st (strings.ToLower K))) !! strings.ToLower K = None /\
          snd (deleteKv st (strings.ToLower K)) = Ok [] /\
          (st_kv st !! strings.ToLower K = None ->
           fst (deleteKv st (strings.ToLower K)) = st)) as (Hl' & Hnone & Hok & Hsame).
  { unfold deleteKv. rewrite Hlocal.
    destruct (st_kv st !! strings.ToLower K) eqn:E; cbn [fst snd st_x st_kv].
    - rewrite lookup_delete_eq. repeat split; [assumption | discriminate].
    - repeat split; assumption. }
  destruct (deleteKv st (strings.ToLower K)) as [st1 r1]. cbn [fst snd] in *.
  split; [exact Hok |].
  rewrite (TXT_get cz st1 K ip HK), (TXT_delete cz st1 K ip HK).
  unfold getKv, deleteKv. rewrite Hl', Hnone.
  repeat split. exact Hsame.
Qed.

(** X18. With an etcd client no key-value name writes the package-level
    map. *)
Theorem kv_with_etcd_leaves_map (st : State) (cli : V3client) (fqdn : string)
    (ip : Net.IP) :
  Etcd (st_x st) = Some cli ->
  MatchString kvRE fqdn = true ->
  st_kv (fst (TXTResources cz st fqdn ip)) = st_kv st.
Proof.
  intros Hcli Hm. unfold TXTResources. rewrite Hm.
  apply kvRE_match in Hm. destruct Hm as [p ->].
  destruct (kvTXTResources_cases st p) as (key & value & [H | [H | [H | [H | H]]]]);
    rewrite H; try reflexivity.
  - unfold getKv. rewrite Hcli.
    destruct (etcd_Get cli (etcd_state cli) key) as [s [[|v vs]|err]]; reflexivity.
  - unfold putKv. rewrite Hcli.
    destruct (etcd_Put cli (etcd_state cli) key (truncate63 value)) as [s [err|]];
      reflexivity.
  - unfold deleteKv. rewrite Hcli.
    destruct (etcd_Delete cli (etcd_state cli) key) as [s [err|]]; reflexivity.
Qed.

End KeyValueNames.

(** ** The lists of the blocklist *)

Section BlocklistFile.

Import Regexp.

(** X19. More entries never unblock a name: a name blocked by the lists
    of one server is blocked by every server whose lists hold them; and
    a name is blocked only if one of the lists has an entry. *)
Theorem blocklist_grows_with_its_lists (cz : DomainCustomizations) (x x' : Xip)
    (hostname : string) :
  incl (BlocklistStrings x) (BlocklistStrings x') ->
  incl (BlocklistCDIRs x) (BlocklistCDIRs x') ->
  blocklist cz x hostname = true ->
  blocklist cz x' hostname = true /\
  (BlocklistStrings x <> [] \/ BlocklistCDIRs x <> []).
Proof.
  intros Hs Hc Hb. apply blocklist_true_iff in Hb. destruct Hb as (Hip & Hpriv & Hl).
  split.
  - apply blocklist_true_iff. repeat split; [exact Hip | exact Hpriv |].
    destruct Hl as [Hl|Hl]; [left | right]; apply existsb_exists in Hl;
      destruct Hl as (e & Hin & He); apply existsb_exists; exists e; auto.
  - destruct Hl as [Hl|Hl]; [left | right]; intros E; rewrite E in Hl; discriminate.
Qed.

Lemma ReadBlocklist_line_clean (line : string) (acc : list string * list Net.IPNet) :
  List.Forall clean_string (fst acc) ->
  List.Forall clean_string (fst (ReadBlocklist_line line acc)).
Proof.
  intros H. unfold ReadBlocklist_line. destruct acc as [ss cs].
  destruct (Net.ParseCIDR _); [exact H |].
  destruct (String.eqb_spec
              (DeleteAllString invalidDNSchars
                 (DeleteAllString invalidDNScharsWithSlashesDotsAndColons
                    (DeleteAllString comments (strings.ToLower line))))
              EmptyString) as [E|E]; [exact H |].
  cbn [fst]. apply List.Forall_app. split; [exact H |].
  constructor; [|constructor]. split; [exact E |].
  apply DeleteAllString_invalidDNSchars.
Qed.

(** X20. Every blocked string [ReadBlocklist] returns is not empty and
    is made of the bytes [-], [_], [0-9] and [a-z] only. *)
Theorem ReadBlocklist_strings_are_clean (input : string) :
  List.Forall clean_string (fst (fst (ReadBlocklist input))).
Proof.
  unfold ReadBlocklist.
  destruct (existsb _ (scan_lines input)); [constructor |].
  assert (forall ls acc, List.Forall clean_string (fst acc) ->
            List.Forall clean_string
              (fst (fold_left
                      (fun acc l => ReadBlocklist_line (string_of_list_ascii (dropCR l)) acc)
                      ls acc))) as Hfold.
  { induction ls as [|l ls IH]; intros acc Hacc; simpl; [exact Hacc |].
    apply IH. now apply ReadBlocklist_line_clean. }
  specialize (Hfold (scan_lines input) ([], []) (List.Forall_nil _)).
  destruct (fold_left _ (scan_lines input) ([], [])) as [ss cs]. exact Hfold.
Qed.

Lemma ReadBlocklist_line_acc (line : string) (ss : list string) (cs : list Net.IPNet) :
  ReadBlocklist_line line (ss, cs) =
  (ss ++ fst (ReadBlocklist_line line ([], [])),
   cs ++ snd (ReadBlocklist_line line ([], []))).
Proof.
  unfold ReadBlocklist_line.
  destruct (Net.ParseCIDR _).
  - cbn [fst snd app]. now rewrite app_nil_r.
  - destruct (String.eqb _ EmptyString); cbn [fst snd app]; now rewrite ?app_nil_r.
Qed.

Lemma ReadBlocklist_fold_acc (ls : list (list ascii)) : forall ss cs,
  fold_left (fun acc l => ReadBlocklist_line (string_of_list_ascii (dropCR l)) acc)
            ls (ss, cs) =
  (ss ++ fst (fold_left
                (fun acc l => ReadBlocklist_line (string_of_list_ascii (dropCR l)) acc)
                ls ([], [])),
   cs ++ snd (fold_left
                (fun acc l => ReadBlocklist_line (string_of_list_ascii (dropCR l)) acc)
                ls ([], []))).
Proof.
  induction ls as [|l ls IH]; intros ss cs; cbn [fold_left].
  - cbn [fst snd]. now rewrite !app_nil_r.
  - rewrite (ReadBlocklist_line_acc _ ss cs), IH.
    destruct (ReadBlocklist_line (string_of_list_ascii (dropCR l)) ([], []))
      as [s1 c1] eqn:E1.
    cbn [fst snd]. rewrite (IH s1 c1). cbn [fst snd]. now rewrite !app_assoc.
Qed.

Lemma drop_last_empty_app (X Y : list (list ascii)) :
  Y <> [] -> drop_last_empty (X ++ Y) = X ++ drop_last_empty Y.
Proof.
  intros HY. induction X as [|x X IH]; [reflexivity |].
  cbn [app]. destruct (X ++ Y) as [|z Z] eqn:E.
  - apply app_eq_nil in E. destruct E as [_ E]. contradiction.
  - destruct x; cbn [drop_last_empty]; now rewrite <- IH.
Qed.

Lemma drop_last_empty_cases (X : list (list ascii)) :
  drop_last_empty X = X \/ X = drop_last_empty X ++ [[]].
Proof.
  induction X as [|x X IH]; [now left |].
  destruct X as [|y Y].
  - destruct x; [right | left]; reflexivity.
  - assert (drop_last_empty (x :: y :: Y) = x :: drop_last_empty (y :: Y)) as ->
      by (destruct x; reflexivity).
    destruct IH as [-> | IH]; [now left |].
    right. cbn [app]. now rewrite <- IH.
Qed.

Lemma fold_drop_last_empty (X : list (list ascii)) (acc : list string * list Net.IPNet) :
  fold_left (fun acc l => ReadBlocklist_line (string_of_list_ascii (dropCR l)) acc)
            (drop_last_empty X) acc =
  fold_left (fun acc l => ReadBlocklist_line (string_of_list_ascii (dropCR l)) acc)
            X acc.
Proof.
  destruct (drop_last_empty_cases X) as [-> | E]; [reflexivity |].
  rewrite E at 2. rewrite fold_left_app. cbn [fold_left].
  destruct (fold_left _ (drop_last_empty X) acc) as [ss cs]. reflexivity.
Qed.

Lemma long_drop_last_empty (X : list (list ascii)) :
  existsb (fun l => MaxScanTokenSize <=? Z.of_nat (List.length l)) (drop_last_empty X) =
  existsb (fun l => MaxScanTokenSize <=? Z.of_nat (List.length l)) X.
Proof.
  destruct (drop_last_empty_cases X) as [-> | E]; [reflexivity |].
  rewrite E at 2. rewrite existsb_app. cbn [existsb List.length].
  now rewrite orb_false_r.
Qed.

(** X21. The file is read line by line: the lists of two texts joined
    by a line feed are the lists of the first followed by those of the
    second, and the scanner's error of one of them is the error of the
    whole, with empty lists. *)
Theorem ReadBlocklist_reads_line_by_line (a b : string) :
  ReadBlocklist (a ++ nl ++ b) =
  match ReadBlocklist a, ReadBlocklist b with
  | (sa, ca, None), (sb, cb, None) => (sa ++ sb, ca ++ cb, None)
  | _, _ => ([], [], Some (dnsmessage.errors_New "bufio.Scanner: token too long"))
  end.
Proof.
  unfold ReadBlocklist, scan_lines.
  rewrite !list_ascii_of_string_app. cbn [nl list_ascii_of_string app].
  rewrite split_on_app.
  rewrite drop_last_empty_app by apply split_on_nonempty.
  rewrite existsb_app, fold_left_app.
  rewrite !long_drop_last_empty.
  rewrite (fold_drop_last_empty (strings.split_on "010" (list_ascii_of_string a))).
  destruct (existsb _ (strings.split_on "010" (list_ascii_of_string a))); cbn [orb].
  - reflexivity.
  - destruct (fold_left _ (strings.split_on "010" (list_ascii_of_string a)) ([], []))
      as [sa ca].
    destruct (existsb _ (strings.split_on "010" (list_ascii_of_string b))).
    + reflexivity.
    + rewrite ReadBlocklist_fold_acc.
      destruct (fold_left _ (drop_last_empty _) ([], [])) as [sb cb]. reflexivity.
Qed.

(** X23. A download that ends with a status code above 299 is not an
    error to [readBlocklist]: the pass of [NewXip] then replaces both
    lists with empty ones and records the time, so that no name is
    blocked afterwards. *)
Theorem failed_download_empties_blocklist
    (http_Get : string -> (Z * string) + dnsmessage.error)
    (blocklistURL : string) (now : Z) (x : Xip) (StatusCode : Z) (Body : string) :
  http_Get blocklistURL = inl (StatusCode, Body) ->
  299 < StatusCode ->
  readBlocklist http_Get blocklistURL = ([], [], None) /\
  NewXip_blocklist_pass http_Get blocklistURL now x =
    mkXip (Etcd x) (DnsAmplificationAttackDelay x) (Metrics_ x) [] [] now /\
  forall cz hostname,
    blocklist cz (NewXip_blocklist_pass http_Get blocklistURL now x) hostname = false.
Proof.
  intros Hget H. apply Z.ltb_lt in H.
  unfold NewXip_blocklist_pass, readBlocklist. rewrite Hget, H.
  split; [reflexivity |]. split; [reflexivity |].
  intros cz hostname. unfold blocklist. cbn [BlocklistStrings BlocklistCDIRs existsb].
  destruct (_ && _); [reflexivity |]. destruct (Net.IsPrivate _); reflexivity.
Qed.

End BlocklistFile.

(** ** Comments in the blocklist file *)

Section Comments.

Import Regexp.

Lemma rep_opt_any (n : nat) :
  forall (c : list ascii) (pos : nat) (cs : list (nat * (nat * nat))),
  List.Forall (fun x => x <> "010"%char) c ->
  (List.length c <= n)%nat ->
  exists tl,
    rep_opt (run ReAnyNotNL) n (pos, c, cs) = (pos + List.length c, [], cs)%nat :: tl.
Proof.
  induction n as [|n IH]; intros c pos cs Hc Hn.
  - destruct c; [|simpl in Hn; lia]. exists []. simpl. now rewrite Nat.add_0_r.
  - cbn [rep_opt]. destruct c as [|x c].
    + exists []. simpl. now rewrite Nat.add_0_r.
    + inversion Hc as [|? ? Hx Hc']; subst.
      change (run ReAnyNotNL (pos, x :: c, cs))
        with (if Ascii.eqb x "010" then [] else [(S pos, c, cs)]).
      destruct (Ascii.eqb_spec x "010"); [contradiction |].
      unfold bind. cbn [flat_map]. rewrite app_nil_r.
      destruct (IH c (S pos) cs Hc') as [tl Htl]; [simpl in Hn; lia |].
      rewrite Htl. eexists. cbn [app List.length]. f_equal. f_equal. f_equal. lia.
Qed.

Lemma match_comment (pos : nat) (c : list ascii) :
  List.Forall (fun x => x <> "010"%char) c ->
  match_at false comments pos ("#"%char :: c) =
  Some (Found pos (S pos + List.length c) []).
Proof.
  intros Hc. unfold match_at, comments. rewrite run_class_cat.
  change (in_class false [("#"%char, "#"%char)] "#") with true. cbn iota.
  change (run (ReRep ReAnyNotNL 0 None) (S pos, c, []))
    with (rep_opt (run ReAnyNotNL) (List.length c) (S pos, c, [])).
  destruct (rep_opt_any (List.length c) c (S pos) [] Hc (le_n _)) as [tl ->].
  reflexivity.
Qed.

Lemma no_comment_at (pos : nat) (x : ascii) (rest : list ascii) :
  x <> "#"%char -> match_at false comments pos (x :: rest) = None.
Proof.
  intros Hx. unfold match_at, comments. rewrite run_class_cat.
  destruct (in_class false [("#"%char, "#"%char)] x) eqn:E; [|reflexivity].
  apply in_class_single in E. contradiction.
Qed.

Lemma no_comment_at_end (pos : nat) : match_at false comments pos [] = None.
Proof. reflexivity. Qed.

Lemma find_no_comment (t : list ascii) : forall pos,
  List.Forall (fun x => x <> "#"%char) t ->
  find_from false comments pos t = None.
Proof.
  induction t as [|x t IH]; intros pos Ht; [reflexivity |].
  inversion Ht as [|? ? Hx Ht']; subst.
  cbn [find_from]. rewrite (no_comment_at pos x t Hx). now apply IH.
Qed.

Lemma find_comment (t c : list ascii) : forall pos,
  List.Forall (fun x => x <> "#"%char) t ->
  List.Forall (fun x => x <> "010"%char) c ->
  find_from false comments pos (t ++ "#"%char :: c) =
  Some (Found (pos + List.length t) (S (pos + List.length t) + List.length c) []).
Proof.
  induction t as [|x t IH]; intros pos Ht Hc.
  - cbn [app find_from List.length]. rewrite (match_comment pos c Hc).
    now rewrite Nat.add_0_r.
  - inversion Ht as [|? ? Hx Ht']; subst.
    cbn [app find_from]. rewrite (no_comment_at pos x _ Hx).
    rewrite (IH (S pos) Ht' Hc). cbn [List.length]. do 2 f_equal; lia.
Qed.

Lemma delete_comment_end (f pos : nat) : delete_all f comments pos [] = [].
Proof. destruct f; reflexivity. Qed.

(** [comments.ReplaceAllString] with the empty string on a line: what stands before
    the first [#]. *)
Lemma delete_comment (t c : list ascii) :
  List.Forall (fun x => x <> "#"%char) t ->
  List.Forall (fun x => x <> "010"%char) c ->
  delete_all (S (List.length (t ++ "#"%char :: c))) comments 0 (t ++ "#"%char :: c) = t /\
  delete_all (S (List.length t)) comments 0 t = t.
Proof.
  intros Ht Hc. split.
  - cbn [delete_all]. rewrite (find_comment t c 0 Ht Hc). cbn [m_start m_end Nat.add].
    rewrite !Nat.sub_0_r, firstn_pre.
    replace (Nat.ltb (List.length t) (S (List.length t + List.length c))) with true
      by (symmetry; apply Nat.ltb_lt; lia).
    replace (skipn (S (List.length t + List.length c)) (t ++ "#"%char :: c))
      with (@nil ascii).
    + rewrite delete_comment_end. apply app_nil_r.
    + symmetry. apply skipn_all2. rewrite length_app. cbn [List.length]. lia.
  - cbn [delete_all]. now rewrite (find_no_comment t 0 Ht).
Qed.

Lemma lower_not (c x : ascii) :
  is_upper c = false -> is_lower c = false -> x <> c -> lower_ascii x <> c.
Proof.
  intros Hu Hl Hx. unfold lower_ascii. destruct (is_upper x) eqn:E; [|exact Hx].
  intros <-. revert Hl. unfold is_lower, is_upper, in_range, code in *.
  cbn [fst snd] in *. apply andb_true_iff in E. destruct E as [E1 E2].
  apply N.leb_le in E1, E2.
  change (N_of_ascii "A") with 65%N in E1. change (N_of_ascii "Z") with 90%N in E2.
  rewrite N_ascii_embedding by lia.
  change (N_of_ascii "a") with 97%N. change (N_of_ascii "z") with 122%N.
  intros H. apply andb_false_iff in H.
  destruct H as [H|H]; apply N.leb_gt in H; lia.
Qed.

Lemma ToLower_no_byte (c : ascii) (s : string) :
  is_upper c = false -> is_lower c = false ->
  no_byte c s -> no_byte c (strings.ToLower s).
Proof.
  intros Hu Hl H. unfold no_byte, strings.ToLower, strings.map_string in *.
  rewrite list_ascii_of_string_of_list_ascii. apply List.Forall_map.
  eapply List.Forall_impl; [|exact H]. intros x Hx. now apply lower_not.
Qed.

(** X22. On a line of the blocklist file, what follows the first [#] is
    not read: the line with the comment adds to the lists what the line
    without it adds. *)
Theorem ReadBlocklist_skips_comments (text comment : string)
    (acc : list string * list Net.IPNet) :
  no_byte "#" text -> no_byte "010" comment ->
  ReadBlocklist_line (text ++ "#" ++ comment) acc = ReadBlocklist_line text acc.
Proof.
  intros Ht Hc.
  assert (DeleteAllString comments (strings.ToLower (text ++ "#" ++ comment)) =
          DeleteAllString comments (strings.ToLower text)) as E.
  { rewrite !ToLower_app. unfold DeleteAllString.
    rewrite !list_ascii_of_string_app.
    change (list_ascii_of_string (strings.ToLower "#")) with ["#"%char].
    cbn [app].
    destruct (delete_comment (list_ascii_of_string (strings.ToLower text))
                (list_ascii_of_string (strings.ToLower comment))) as [E1 E2].
    - now apply ToLower_no_byte.
    - now apply ToLower_no_byte.
    - now rewrite E1, E2. }
  unfold ReadBlocklist_line. now rewrite E.
Qed.

End Comments.

(** ** The bytes of the addresses read off a name *)

Section AddressBytes.

Import Net.

Lemma byte_range (n : Z) : 0 <= byte n < 256.
Proof.
  unfold byte. change 255 with (Z.ones 8). rewrite Z.land_ones by lia.
  apply Z.mod_pos_bound. lia.
Qed.

Lemma at_bytes (p : list Z) (i : nat) : is_bytes p -> 0 <= at_ p i < 256.
Proof.
  unfold is_bytes, at_. intros H. revert i.
  induction H as [|b p Hb _ IH]; intros [|i]; simpl; auto; lia.
Qed.

Lemma is_bytes_app (p q : list Z) : is_bytes p -> is_bytes q -> is_bytes (p ++ q).
Proof. intros Hp Hq. apply List.Forall_app. now split. Qed.

Lemma is_bytes_insert (p : list Z) (i : nat) (b : Z) :
  is_bytes p -> 0 <= b < 256 -> is_bytes (<[i := b]> p).
Proof. intros Hp Hb. now apply Forall_insert. Qed.

Lemma IPv4_bytes (a b c d : Z) :
  0 <= a < 256 -> 0 <= b < 256 -> 0 <= c < 256 -> 0 <= d < 256 ->
  is_bytes (IPv4 a b c d).
Proof.
  intros Ha Hb Hc Hd. unfold IPv4, v4InV6Prefix, is_bytes.
  repeat (apply List.Forall_cons; [lia |]).
  repeat (apply List.Forall_cons; [assumption |]). apply List.Forall_nil.
Qed.

Lemma parseIPv4_loop_bytes (k : nat) : forall i s p p' rest,
  is_bytes p -> parseIPv4_loop k i s p = Some (p', rest) -> is_bytes p'.
Proof.
  induction k as [|k IH]; intros i s p p' rest Hp H; cbn [parseIPv4_loop] in H.
  - now injection H as <- _.
  - destruct s as [|c0 s']; [discriminate |].
    destruct (if Nat.ltb 0 i then if Ascii.eqb c0 "." then Some s' else None
              else Some (c0 :: s')) as [s1|]; [|discriminate].
    destruct (dtoi s1) as [[n c]|]; [|discriminate].
    destruct (n >? 255); [discriminate |].
    destruct (_ && _); [discriminate |].
    apply IH in H; [exact H |].
    apply is_bytes_app; [exact Hp |].
    constructor; [apply byte_range | constructor].
Qed.

Lemma parseIPv4_bytes (s : list ascii) : is_bytes (parseIPv4 s).
Proof.
  unfold parseIPv4.
  destruct (parseIPv4_loop 4 0 s []) as [[p [|c rest]]|] eqn:E;
    [| apply List.Forall_nil | apply List.Forall_nil].
  apply parseIPv4_loop_bytes in E; [|apply List.Forall_nil].
  apply IPv4_bytes; now apply at_bytes.
Qed.

Lemma parseIPv6_step_bytes (st st' : v6state) (go : bool) :
  is_bytes (v6_ip st) -> parseIPv6_step st = Some (st', go) -> is_bytes (v6_ip st').
Proof.
  destruct st as [ip i s ellipsis]. cbn [v6_ip]. intros Hip H.
  unfold parseIPv6_step in H.
  destruct (xtoi s) as [[n c]|]; [|discriminate].
  destruct (n >? 65535); [discriminate |].
  destruct (Nat.ltb 4 c); [discriminate |].
  destruct (_ && _).
  - destruct (_ && _); [discriminate |].
    destruct (Nat.ltb IPv6len (i + IPv4len)); [discriminate |].
    destruct (is_nil (parseIPv4 s)); [discriminate |].
    injection H as <- _. cbn [v6_ip].
    pose proof (parseIPv4_bytes s) as H4.
    repeat apply is_bytes_insert; auto using at_bytes.
  - assert (is_bytes (<[S i := byte n]> (<[i := byte (Z.shiftr n 8)]> ip))) as Hip'
      by (repeat apply is_bytes_insert; auto using byte_range).
    destruct (skipn c s) as [|c0 s1]; [now injection H as <- _ |].
    destruct (_ || _); [discriminate |].
    destruct (Ascii.eqb (hd "000"%char s1) ":").
    + destruct ellipsis; [discriminate |].
      destruct (skipn 1 s1); now injection H as <- _.
    + now injection H as <- _.
Qed.

Lemma parseIPv6_loop_bytes (k : nat) : forall st st',
  is_bytes (v6_ip st) -> parseIPv6_loop k st = Some st' -> is_bytes (v6_ip st').
Proof.
  induction k as [|k IH]; intros st st' Hip H; cbn [parseIPv6_loop] in H.
  - now injection H as <-.
  - destruct (Nat.ltb (v6_i st) IPv6len); [|now injection H as <-].
    destruct (parseIPv6_step st) as [[st1 [|]]|] eqn:E; [| |discriminate].
    + apply (IH st1 st'); [|exact H]. eapply parseIPv6_step_bytes; eauto.
    + injection H as <-. eapply parseIPv6_step_bytes; eauto.
Qed.

Lemma move_up_bytes (cnt : nat) : forall j n ip,
  is_bytes ip -> is_bytes (move_up cnt j n ip).
Proof.
  induction cnt as [|cnt IH]; intros j n ip Hip; cbn [move_up]; [exact Hip |].
  apply IH. apply is_bytes_insert; auto using at_bytes.
Qed.

Lemma zero_fill_bytes (cnt : nat) : forall j ip,
  is_bytes ip -> is_bytes (zero_fill cnt j ip).
Proof.
  induction cnt as [|cnt IH]; intros j ip Hip; cbn [zero_fill]; [exact Hip |].
  apply IH. apply is_bytes_insert; [exact Hip | lia].
Qed.

Lemma zeros_bytes (n : nat) : is_bytes (repeat 0 n).
Proof. induction n; simpl; constructor; [lia | assumption]. Qed.

Lemma parseIPv6_bytes (s0 : list ascii) : is_bytes (parseIPv6 s0).
Proof.
  unfold parseIPv6.
  set (start := match s0 with
                | ":"%char :: ":"%char :: s => (Some 0%nat, s)
                | _ => (None, s0)
                end).
  destruct start as [ellipsis s].
  assert (forall e, is_bytes
            match parseIPv6_loop 8 (V6 (repeat 0 IPv6len) 0 s e) with
            | Some (V6 ip i [] ellipsis0) =>
                if Nat.ltb i IPv6len
                then match ellipsis0 with
                     | Some e0 =>
                         zero_fill (IPv6len - i) (e0 + (IPv6len - i) - 1)
                           (move_up (i - e0) (i - 1) (IPv6len - i) ip)
                     | None => []
                     end
                else match ellipsis0 with
                     | Some _ => []
                     | None => ip
                     end
            | Some (V6 ip i (_ :: _) ellipsis0) => []
            | None => []
            end) as Hloop.
  { intros e.
    destruct (parseIPv6_loop 8 (V6 (repeat 0 IPv6len) 0 s e)) as [[ip i s' e']|] eqn:E;
      [|constructor].
    apply parseIPv6_loop_bytes in E; [|apply zeros_bytes]. cbn [v6_ip] in E.
    destruct s'; [|constructor].
    destruct (Nat.ltb i IPv6len); destruct e'; try constructor; [|exact E].
    now apply zero_fill_bytes, move_up_bytes. }
  destruct ellipsis as [e|]; [destruct s; [apply zeros_bytes |] |]; apply Hloop.
Qed.

Lemma ParseIP_bytes (s : string) : is_bytes (ParseIP s).
Proof.
  unfold ParseIP. generalize (list_ascii_of_string s) at 1. intros whole.
  induction (list_ascii_of_string s) as [|c t IH]; cbn [ParseIP_scan]; [constructor |].
  destruct (Ascii.eqb c "."); [apply parseIPv4_bytes |].
  destruct (Ascii.eqb c ":"); [apply parseIPv6_bytes | exact IH].
Qed.

Lemma To4_bytes (ip : IP) : is_bytes ip -> is_bytes (To4 ip).
Proof.
  intros H. unfold To4. destruct (Nat.eqb _ _); [exact H |].
  destruct (_ && _); [|constructor].
  unfold is_bytes. apply Forall_take, Forall_drop. exact H.
Qed.

Lemma To16_bytes (ip : IP) : is_bytes ip -> is_bytes (To16 ip).
Proof.
  intros H. unfold To16. destruct (Nat.eqb _ _); [apply IPv4_bytes; now apply at_bytes |].
  destruct (Nat.eqb _ _); [exact H | constructor].
Qed.

Lemma To16_length (ip : IP) : is_nil (To16 ip) = false -> List.length (To16 ip) = 16%nat.
Proof.
  unfold To16. destruct (Nat.eqb (List.length ip) IPv4len); [reflexivity |].
  destruct (Nat.eqb_spec (List.length ip) IPv6len) as [E|E]; [intros _; exact E |].
  discriminate.
Qed.

(** X24. For a name without a customization [NameToA] returns no
    record or one record of four bytes, and [NameToAAAA] no record or one
    record of sixteen bytes, every byte between 0 and 255. *)
Theorem synthesized_records_are_addresses (cz : DomainCustomizations)
    (fqdnString : string) :
  cz !! strings.ToLower fqdnString = None ->
  (NameToA cz fqdnString = [] \/
   exists a b c d,
     NameToA cz fqdnString = [dnsmessage.mkA [a; b; c; d]] /\ is_bytes [a; b; c; d]) /\
  (NameToAAAA cz fqdnString = [] \/
   exists ip,
     NameToAAAA cz fqdnString = [dnsmessage.mkAAAA ip] /\
     List.length ip = 16%nat /\ is_bytes ip).
Proof.
  intros Hnone. unfold NameToA, NameToAAAA. rewrite Hnone. split.
  - assert (forall res,
              NameToA_regexps res fqdnString = [] \/
              exists a b c d,
                NameToA_regexps res fqdnString = [dnsmessage.mkA [a; b; c; d]] /\
                is_bytes [a; b; c; d]) as H.
    { induction res as [|r res IH]; cbn [NameToA_regexps]; [now left |].
      destruct (Regexp.MatchString r fqdnString); [|exact IH].
      destruct (Regexp.FindSubmatch false r fqdnString 2) as [m|]; [|now left].
      cbv zeta. set (v := To4 (ParseIP (strings.ReplaceByte m "-" "."))).
      destruct (is_nil v); [now left |]. right.
      assert (is_bytes v) as Hv by apply To4_bytes, ParseIP_bytes.
      exists (at_ v 0), (at_ v 1), (at_ v 2), (at_ v 3). split; [reflexivity |].
      repeat (apply List.Forall_cons; [now apply at_bytes |]). apply List.Forall_nil. }
    apply H.
  - unfold NameToAAAA_regexp.
    destruct (negb (Regexp.MatchString ipv6RE fqdnString)); [now left |].
    destruct (Regexp.FindSubmatch true ipv6RE fqdnString 2) as [m|]; [|now left].
    cbv zeta. set (v := To16 (ParseIP (strings.ReplaceByte m "-" ":"))).
    destruct (is_nil v) eqn:E; [now left |]. right.
    exists v. split; [reflexivity |].
    split; [now apply To16_length | apply To16_bytes, ParseIP_bytes].
Qed.

End AddressBytes.

(** ** What a question changes *)

Section ServerState.

Variable cz : DomainCustomizations.

Lemma counted_refl (x : Xip) : counted x x.
Proof. exists (Metrics_ x). destruct x. repeat split. Qed.

Lemma counted_trans (x y z : Xip) : counted x y -> counted y z -> counted x z.
Proof.
  intros (m1 & -> & Hs1 & Hq1) (m2 & -> & Hs2 & Hq2). exists m2.
  cbn [Metrics_ set_Metrics] in *. split; [reflexivity | split; congruence].
Qed.

Lemma counted_Answered (x : Xip) : counted x (incAnsweredQueries x).
Proof. eexists. repeat split. Qed.

Lemma counted_Blocked (x : Xip) : counted x (incAnsweredBlockedQueries x).
Proof. eexists. repeat split. Qed.

Lemma counted_A (x : Xip) : counted x (incAnsweredAQueries x).
Proof. eexists. repeat split. Qed.

Lemma counted_AAAA (x : Xip) : counted x (incAnsweredAAAAQueries x).
Proof. eexists. repeat split. Qed.

Lemma counted_DNS01 (x : Xip) : counted x (incAnsweredNSDNS01ChallengeQueries x).
Proof. eexists. repeat split. Qed.

Create HintDb counted.

#[local] Hint Resolve counted_refl counted_Answered counted_Blocked counted_A
  counted_AAAA counted_DNS01 : counted.

Lemma counted_Answered_then (x x' : Xip) :
  counted (incAnsweredQueries x) x' -> counted x x'.
Proof. apply counted_trans, counted_Answered. Qed.

Lemma NSResources_counted (x : Xip) (name : string) :
  counted x (fst (NSResources cz x name)).
Proof.
  unfold NSResources.
  destruct (blocklist cz x name); [apply counted_Answered_then; auto with counted |].
  destruct (IsAcmeChallenge cz name); auto with counted.
Qed.

Lemma NSResponse_counted (x : Xip) (name : string) (response : Response) :
  counted x (fst (NSResponse cz x name response)).
Proof.
  unfold NSResponse. pose proof (NSResources_counted x name) as H.
  destruct (NSResources cz x name) as [x' nameServers]. exact H.
Qed.

(** What a question leaves of the state when no TXT records are looked
    up. *)
Lemma processQuestion_state (st : State) (q : dnsmessage.Question) (srcAddr : Net.IP) :
  dnsmessage.QType q <> dnsmessage.TypeTXT \/
  IsAcmeChallenge cz (dnsmessage.QName q) = true ->
  st_kv (fst (processQuestion cz st q srcAddr)) = st_kv st /\
  counted (st_x st) (st_x (fst (processQuestion cz st q srcAddr))).
Proof.
  intros H. unfold processQuestion.
  destruct (IsAcmeChallenge cz (dnsmessage.QName q)
            && negb (blocklist cz (st_x st) (dnsmessage.QName q))).
  { unfold lift_x. cbn [fst st_kv st_x]. split; [reflexivity | apply NSResponse_counted]. }
  destruct (dnsmessage.QType q) eqn:Ht; unfold lift_x; cbn [fst snd st_kv st_x].
  - split; [reflexivity |]. unfold nameToAwithBlocklist.
    destruct (Nat.eqb _ 0); [apply counted_refl |].
    destruct (blocklist _ _ _); [destruct (sinkA cz) |]; cbn [fst];
      apply counted_Answered_then; auto with counted.
  - split; [reflexivity | apply NSResponse_counted].
  - destruct (CNAMEResource cz _); cbn [fst st_kv st_x];
      (split; [reflexivity |]); auto with counted.
  - split; [reflexivity | auto with counted].
  - destruct (Nat.eqb _ 0); cbn [fst st_kv st_x];
      (split; [reflexivity |]); auto with counted.
  - destruct H as [H|H]; [contradiction |]. rewrite H.
    pose proof (NSResources_counted (st_x st) (dnsmessage.QName q)) as Hc.
    destruct (NSResources cz (st_x st) (dnsmessage.QName q)) as [x' nameServers].
    cbn [fst st_kv st_x]. split; [reflexivity | exact Hc].
  - split; [reflexivity |]. unfold nameToAAAAwithBlocklist.
    destruct (Nat.eqb _ 0); [apply counted_refl |].
    destruct (blocklist _ _ _); [destruct (sinkAAAA cz) |]; cbn [fst];
      apply counted_Answered_then; auto with counted.
  - split; [reflexivity | apply counted_refl].
  - split; [reflexivity | apply counted_refl].
Qed.

Lemma QueryResponse_state (st : State) (queryHeader : dnsmessage.Header)
    (q : dnsmessage.Question) (srcAddr : Net.IP) :
  fst (QueryResponse cz st queryHeader q srcAddr) =
  match processQuestion cz st q srcAddr with
  | (st1, Ok _) => mkState (incQueries (st_x st1)) (st_kv st1)
  | (st1, _) => st1
  end.
Proof.
  pose proof (QueryResponse_cases cz st queryHeader q srcAddr) as H.
  destruct (processQuestion cz st q srcAddr) as [st1 [response|e|]].
  - destruct H as (b & -> & _). reflexivity.
  - now rewrite H.
  - now rewrite H.
Qed.

Lemma incr_neq (z : Z) : incr z <> z.
Proof.
  unfold incr, wrap64. intros E.
  pose proof (Z.mod_pos_bound (z + 1 + 2 ^ 63) (2 ^ 64) ltac:(lia)) as Hb.
  assert (0 <= z + 2 ^ 63 < 2 ^ 64) as Hz by lia.
  destruct (Z.eq_dec (z + 1 + 2 ^ 63) (2 ^ 64)) as [E1|E1].
  - rewrite E1, Z.mod_same in E by lia. lia.
  - rewrite Z.mod_small in E by lia. lia.
Qed.

(** X25. The package-level key-value map changes by TXT questions for
    key-value names only: a question of another type, for an ACME
    challenge name, or for a name that does not end in [.k-v.io.] leaves
    it as it was. *)
Theorem only_key_value_names_change_the_map (st : State)
    (queryHeader : dnsmessage.Header) (q : dnsmessage.Question) (srcAddr : Net.IP) :
  dnsmessage.QType q <> dnsmessage.TypeTXT \/
  IsAcmeChallenge cz (dnsmessage.QName q) = true \/
  Regexp.MatchString kvRE (dnsmessage.QName q) = false ->
  st_kv (fst (QueryResponse cz st queryHeader q srcAddr)) = st_kv st.
Proof.
  intros H. rewrite QueryResponse_state.
  assert (st_kv (fst (processQuestion cz st q srcAddr)) = st_kv st) as Hp.
  { destruct H as [H | [H | H]].
    - now apply processQuestion_state; left.
    - now apply processQuestion_state; right.
    - destruct (dnsmessage.QType q) eqn:Ht;
        try (apply processQuestion_state; left; rewrite Ht; discriminate).
      destruct (IsAcmeChallenge cz (dnsmessage.QName q)) eqn:Hacme;
        [now apply processQuestion_state; right |].
      unfold processQuestion. rewrite Hacme, Ht. cbn [andb].
      unfold TXTResources. rewrite H.
      destruct (cz !! strings.ToLower (dnsmessage.QName q)) as [domain|];
        [destruct (TXT domain) as [f|]; [destruct (f (st_x st) srcAddr) as [x' [txts|e|]] |]
        |]; cbn [fst st_kv]; try reflexivity.
      all: destruct (Nat.ltb 0 _); reflexivity. }
  destruct (processQuestion cz st q srcAddr) as [st1 [response|e|]];
    cbn [fst st_kv] in *; exact Hp.
Qed.

(** X26. A question that looks up no TXT records changes nothing of the
    server but its counters, the start time aside.  When a message is
    returned the counter of queries is one up, so that [MostlyEquals]
    tells the metrics before from the metrics after; when
    [processQuestion] ends with an error or a panic, the counter of
    queries stays.  (The query is counted before the message is built,
    so nothing is said of the counter when the message fails to build.) *)
Theorem questions_change_counters_only (st : State)
    (queryHeader : dnsmessage.Header) (q : dnsmessage.Question) (srcAddr : Net.IP) :
  dnsmessage.QType q <> dnsmessage.TypeTXT \/
  IsAcmeChallenge cz (dnsmessage.QName q) = true ->
  exists m,
    st_x (fst (QueryResponse cz st queryHeader q srcAddr)) = set_Metrics (st_x st) m /\
    Start m = Start (Metrics_ (st_x st)) /\
    match snd (QueryResponse cz st queryHeader q srcAddr) with
    | Ok _ =>
        Queries m = incr (Queries (Metrics_ (st_x st))) /\
        MostlyEquals (Metrics_ (st_x st)) m = false
    | _ => True
    end /\
    match snd (processQuestion cz st q srcAddr) with
    | Ok _ => True
    | _ => Queries m = Queries (Metrics_ (st_x st))
    end.
Proof.
  intros H. destruct (processQuestion_state st q srcAddr H) as [_ (m & Hm & Hs & Hq)].
  pose proof (QueryResponse_cases cz st queryHeader q srcAddr) as HQ.
  destruct (processQuestion cz st q srcAddr) as [st1 [response|e|]];
    cbn [fst snd] in *.
  - destruct HQ as (b & -> & _). cbn [fst snd st_x]. rewrite Hm.
    eexists. split; [reflexivity |]. cbn [Start Queries Metrics_ set_Metrics].
    split; [exact Hs |]. split; [|exact I]. split; [now rewrite Hq |].
    unfold MostlyEquals. cbn [Queries]. rewrite Hq.
    destruct (Z.eqb_spec (Queries (Metrics_ (st_x st)))
                (incr (Queries (Metrics_ (st_x st))))) as [E|E]; [|reflexivity].
    symmetry in E. now apply incr_neq in E.
  - rewrite HQ. cbn [fst snd]. exists m. auto.
  - rewrite HQ. cbn [fst snd]. exists m. auto.
Qed.

End ServerState.

(** ** The table of the package *)

Section PackageTable.

Variable ipString : Net.IP -> string.
Variable metricsSslipIo : TXTFunc.

Lemma package_sinks :
  sinkA (Customizations ipString metricsSslipIo) = Some (dnsmessage.mkA [52; 0; 56; 137]) /\
  sinkAAAA (Customizations ipString metricsSslipIo) =
    Some (dnsmessage.mkAAAA [38; 0; 31; 24; 10; 175; 105; 0; 0; 0; 0; 0; 0; 0; 0; 10]).
Proof. split; reflexivity. Qed.

(** The TXT functions of the table return records; that of
    [metrics.status.sslip.io.], which waits for its turn before it
    answers, is left aside. *)
Lemma package_TXT (name : string) (domain : DomainCustomization) (f : TXTFunc) :
  name <> "metrics.status.sslip.io."%string ->
  Customizations ipString metricsSslipIo !! name = Some domain ->
  TXT domain = Some f ->
  forall x ip, exists x' txts, f x ip = (x', Ok txts).
Proof.
  intros Hne Hl Hf. unfold Customizations in Hl.
  apply elem_of_list_to_map_2 in Hl.
  repeat (apply elem_of_cons in Hl;
          destruct Hl as [Hl|Hl];
          [injection Hl as -> ->; cbn [TXT] in Hf;
           first [discriminate Hf
                 | injection Hf as <-; intros x ip;
                   first [eexists _, _; reflexivity
                         | exfalso; apply Hne; reflexivity]] |]).
  now apply elem_of_nil in Hl.
Qed.

Lemma kv_builtin_Ok (st : State) (fqdn : string) :
  Etcd (st_x st) = None ->
  Regexp.MatchString kvRE fqdn = true ->
  exists st1 txts, kvTXTResources st fqdn = (st1, Ok txts).
Proof.
  intros Hlocal Hm. apply kvRE_match in Hm. destruct Hm as [p ->].
  destruct (kvTXTResources_cases st p) as (key & value & [H | [H | [H | [H | H]]]]);
    rewrite H; try (eexists _, _; reflexivity).
  - unfold getKv. rewrite Hlocal. destruct (st_kv st !! key); eexists _, _; reflexivity.
  - unfold putKv. rewrite Hlocal. eexists _, _; reflexivity.
  - unfold deleteKv. rewrite Hlocal. destruct (st_kv st !! key); eexists _, _; reflexivity.
Qed.

(** X27. With the table of the package and the built-in store,
    [processQuestion] returns a response for every question, whatever its
    type, whose name is of 7-bit bytes and is not
    [metrics.status.sslip.io.] in any letter case: it returns no error,
    and it does not panic, neither for want of a sink record nor on the
    labels of a key-value name. *)
Theorem builtin_store_never_fails (st : State) (q : dnsmessage.Question)
    (srcAddr : Net.IP) :
  Etcd (st_x st) = None ->
  is_ascii (dnsmessage.QName q) = true ->
  strings.ToLower (dnsmessage.QName q) <> "metrics.status.sslip.io."%string ->
  exists st1 response,
    processQuestion (Customizations ipString metricsSslipIo) st q srcAddr =
    (st1, Ok response).
Proof.
  intros Hlocal _ Hne. set (cz := Customizations ipString metricsSslipIo).
  unfold processQuestion.
  destruct (IsAcmeChallenge cz (dnsmessage.QName q)
            && negb (blocklist cz (st_x st) (dnsmessage.QName q))).
  { match goal with
    | |- context [NSResponse cz ?x ?n ?r] =>
        destruct (NSResponse_Ok cz x n r) as (x' & response' & ->)
    end.
    eexists _, _. reflexivity. }
  destruct (dnsmessage.QType q) eqn:Ht.
  - unfold nameToAwithBlocklist.
    destruct (Nat.eqb _ 0); [eexists _, _; reflexivity |].
    destruct (blocklist _ _ _); [|eexists _, _; reflexivity].
    subst cz. rewrite (proj1 package_sinks). eexists _, _; reflexivity.
  - match goal with
    | |- context [NSResponse cz ?x ?n ?r] =>
        destruct (NSResponse_Ok cz x n r) as (x' & response' & ->)
    end.
    eexists _, _. reflexivity.
  - destruct (CNAMEResource cz _); eexists _, _; reflexivity.
  - eexists _, _; reflexivity.
  - rewrite MXResources_length. eexists _, _; reflexivity.
  - destruct (IsAcmeChallenge cz (dnsmessage.QName q)).
    + destruct (NSResources cz (st_x st) (dnsmessage.QName q)) as [x' nameServers].
      eexists _, _; reflexivity.
    + assert (exists st1 txts,
                TXTResources cz st (dnsmessage.QName q) srcAddr = (st1, Ok txts))
        as (st1 & txts & ->).
      { unfold TXTResources.
        destruct (Regexp.MatchString kvRE (dnsmessage.QName q)) eqn:Hkv;
          [now apply kv_builtin_Ok |].
        destruct (cz !! strings.ToLower (dnsmessage.QName q)) as [domain|] eqn:Hl;
          [|eexists _, _; reflexivity].
        destruct (TXT domain) as [f|] eqn:Hf; [|eexists _, _; reflexivity].
        destruct (package_TXT _ _ _ Hne Hl Hf (st_x st) srcAddr) as (x' & txts & ->).
        eexists _, _; reflexivity. }
      eexists _, _; reflexivity.
  - unfold nameToAAAAwithBlocklist.
    destruct (Nat.eqb _ 0); [eexists _, _; reflexivity |].
    destruct (blocklist _ _ _); [|eexists _, _; reflexivity].
    subst cz. rewrite (proj2 package_sinks). eexists _, _; reflexivity.
  - eexists _, _; reflexivity.
  - eexists _, _; reflexivity.
Qed.

End PackageTable.

(** ** The prefix of a challenge name *)

Section ChallengePrefix.

Import Regexp.

Lemma in_all_ascii (x : ascii) : In x all_ascii.
Proof.
  unfold all_ascii. apply List.in_map_iff. exists (nat_of_ascii x).
  split; [apply ascii_nat_embedding |]. apply List.in_seq.
  pose proof (nat_ascii_bounded x). lia.
Qed.

(** A byte whose lower case is [c] is in the class, when this holds of
    all 256 bytes. *)
Lemma lower_in_class (c : ascii) (rs : list (ascii * ascii)) :
  forallb (fun x => implb (Ascii.eqb (lower_ascii x) c) (in_class false rs x)) all_ascii
    = true ->
  forall x, lower_ascii x = c -> in_class false rs x = true.
Proof.
  intros H x Hx. rewrite forallb_forall in H. specialize (H x (in_all_ascii x)).
  rewrite Hx, Ascii.eqb_refl in H. exact H.
Qed.

Lemma dns01ChallengeRE_classes : dns01ChallengeRE = classes dns01Classes.
Proof. reflexivity. Qed.

Lemma run_classes (rss : list (list (ascii * ascii))) :
  rss <> [] ->
  forall (pos : nat) (rest : list ascii) (cs : list (nat * (nat * nat))),
    run (classes rss) (pos, rest, cs) =
    if class_prefix rss rest
    then [((pos + List.length rss)%nat, skipn (List.length rss) rest, cs)]
    else [].
Proof.
  induction rss as [|rs rss IH]; [contradiction |]. intros _ pos rest cs.
  destruct rss as [|rs' rss'].
  - cbn [classes run class_prefix List.length]. destruct rest as [|c rest]; [reflexivity |].
    rewrite andb_true_r. destruct (in_class false rs c); [|reflexivity].
    cbn [skipn]. now rewrite Nat.add_1_r.
  - change (classes (rs :: rs' :: rss'))
      with (ReCat (ReClass false rs) (classes (rs' :: rss'))).
    cbn [run]. destruct rest as [|c rest]; [reflexivity |].
    change (class_prefix (rs :: rs' :: rss') (c :: rest))
      with (in_class false rs c && class_prefix (rs' :: rss') rest).
    destruct (in_class false rs c); cbn [andb]; [|reflexivity].
    unfold bind. cbn [flat_map]. rewrite app_nil_r, IH by discriminate.
    destruct (class_prefix (rs' :: rss') rest); [|reflexivity].
    change (List.length (rs :: rs' :: rss')) with (S (List.length (rs' :: rss'))).
    rewrite skipn_cons. do 3 f_equal. lia.
Qed.

Lemma match_at_classes (rss : list (list (ascii * ascii))) (pos : nat)
    (rest : list ascii) :
  rss <> [] ->
  match_at false (classes rss) pos rest =
  if class_prefix rss rest then Some (Found pos (pos + List.length rss) []) else None.
Proof.
  intros H. unfold match_at. rewrite (run_classes rss H pos rest []).
  destruct (class_prefix rss rest); reflexivity.
Qed.

(** Whether a literal pattern matches somewhere does not depend on where
    the text starts. *)
Lemma find_classes_None (rss : list (list (ascii * ascii))) (rest : list ascii) :
  rss <> [] ->
  forall pos pos',
    find_from false (classes rss) pos rest = None ->
    find_from false (classes rss) pos' rest = None.
Proof.
  intros H. induction rest as [|c rest IH]; intros pos pos'; cbn [find_from];
    rewrite !(match_at_classes rss _ _ H).
  - destruct (class_prefix rss []); [discriminate | reflexivity].
  - destruct (class_prefix rss (c :: rest)); [discriminate |]. apply IH.
Qed.

Lemma find_from_head (longest : bool) (r : re) (pos : nat) (rest : list ascii)
    (m : found) :
  match_at longest r pos rest = Some m -> find_from longest r pos rest = Some m.
Proof. intros H. destruct rest; cbn [find_from]; now rewrite H. Qed.

Lemma delete_all_no_match (f : nat) (r : re) (pos : nat) (rest : list ascii) :
  find_from false r pos rest = None -> delete_all f r pos rest = rest.
Proof. intros H. destruct f; cbn [delete_all]; [reflexivity | now rewrite H]. Qed.

Lemma delete_all_prefix (f : nat) (r : re) (p rest : list ascii)
    (cs : list (nat * (nat * nat))) :
  p <> [] ->
  match_at false r 0 (p ++ rest) = Some (Found 0 (List.length p) cs) ->
  delete_all (S f) r 0 (p ++ rest) = delete_all f r (List.length p) rest.
Proof.
  intros Hp Hm. cbn [delete_all]. rewrite (find_from_head _ _ _ _ _ Hm).
  cbn [m_start m_end]. rewrite !Nat.sub_0_r.
  replace (Nat.ltb 0 (List.length p)) with true
    by (symmetry; apply Nat.ltb_lt; destruct p; [contradiction | simpl; lia]).
  now rewrite skipn_pre0.
Qed.

Lemma challenge_prefix_classes (prefix rest : list ascii) :
  map lower_ascii prefix = list_ascii_of_string "_acme-challenge." ->
  class_prefix dns01Classes (prefix ++ rest) = true /\ List.length prefix = 16%nat.
Proof.
  intros H.
  do 16 (destruct prefix as [|? prefix]; [discriminate H |]).
  destruct prefix; [|discriminate H].
  cbn [map list_ascii_of_string] in H.
  injection H as H0 H1 H2 H3 H4 H5 H6 H7 H8 H9 H10 H11 H12 H13 H14 H15.
  split; [|reflexivity].
  cbn [app class_prefix dns01Classes].
  repeat match goal with
         | Hx : lower_ascii ?x = ?c |- context [in_class false ?rs ?x] =>
             rewrite (lower_in_class c rs ltac:(vm_compute; reflexivity) x Hx);
             clear Hx
         end.
  reflexivity.
Qed.

(** X28. The name server of a delegated challenge is the queried name
    without its prefix: for a name that starts with [_acme-challenge.],
    in any letter case, and holds it nowhere else, that is an ACME
    challenge and is not blocked, [NSResources] returns the one name
    server named by the rest of the name, and counts a DNS-01
    challenge. *)
Theorem challenge_prefix_is_stripped (cz : DomainCustomizations) (x : Xip)
    (prefix rest : string) :
  strings.ToLower prefix = "_acme-challenge."%string ->
  MatchString dns01ChallengeRE rest = false ->
  (String.length rest <= 255)%nat ->
  IsAcmeChallenge cz (prefix ++ rest) = true ->
  blocklist cz x (prefix ++ rest) = false ->
  DeleteAllString dns01ChallengeRE (prefix ++ rest) = rest /\
  NSResources cz x (prefix ++ rest) =
    (incAnsweredNSDNS01ChallengeQueries x, [dnsmessage.mkNS rest]).
Proof.
  intros Hp Hrest Hlen Hacme Hblock.
  assert (DeleteAllString dns01ChallengeRE (prefix ++ rest) = rest) as Hdel.
  { unfold DeleteAllString. rewrite list_ascii_of_string_app, dns01ChallengeRE_classes.
    assert (map lower_ascii (list_ascii_of_string prefix) =
            list_ascii_of_string "_acme-challenge.") as Hp'.
    { rewrite <- Hp. unfold strings.ToLower, strings.map_string.
      now rewrite list_ascii_of_string_of_list_ascii. }
    destruct (challenge_prefix_classes _ (list_ascii_of_string rest) Hp') as [Hc Hl].
    assert (find_from false (classes dns01Classes) (List.length (list_ascii_of_string prefix))
              (list_ascii_of_string rest) = None) as Hnone.
    { apply (find_classes_None dns01Classes _ ltac:(discriminate) 0%nat).
      unfold MatchString, find in Hrest. rewrite dns01ChallengeRE_classes in Hrest.
      destruct (find_from false (classes dns01Classes) 0 (list_ascii_of_string rest));
        [discriminate | reflexivity]. }
    rewrite (delete_all_prefix _ _ _ _ []).
    - rewrite (delete_all_no_match _ _ _ _ Hnone).
      apply string_of_list_ascii_of_string.
    - intros E. rewrite E in Hl. discriminate Hl.
    - rewrite (match_at_classes dns01Classes 0 _ ltac:(discriminate)), Hc, Hl.
      reflexivity. }
  split; [exact Hdel |].
  unfold NSResources. rewrite Hblock, Hacme, Hdel.
  now rewrite (NewName_short rest Hlen).
Qed.

End ChallengePrefix.

(** ** Key-value names with etcd *)

Section EtcdStore.

Variable cz : DomainCustomizations.

(** X29. With an etcd that behaves as a map and never fails, the names
    of the key-value protocol read and write that map: a put stores the
    value, cut to 63 bytes, under the lower-cased key and returns it; a
    get returns the value stored, or nothing; a delete removes it. *)
Theorem kv_names_drive_etcd (x : Xip) (kv : KvCustomizations)
    (m : gmap string string) (K V : string) (ip : Net.IP) :
  Etcd x = Some (mapEtcd m) ->
  is_label K = true ->
  TXTResources cz (mkState x kv) ("put." ++ V ++ "." ++ K ++ ".k-v.io.") ip =
    (mkState (set_Etcd x (Some (mapEtcd (<[strings.ToLower K := truncate63 V]> m)))) kv,
     Ok [txt1 (truncate63 V)]) /\
  TXTResources cz (mkState x kv) (K ++ ".k-v.io.") ip =
    (mkState (set_Etcd x (Some (mapEtcd m))) kv,
     Ok match m !! strings.ToLower K with Some v => [txt1 v] | None => [] end) /\
  TXTResources cz (mkState x kv) ("delete." ++ K ++ ".k-v.io.") ip =
    (mkState (set_Etcd x (Some (mapEtcd (delete (strings.ToLower K) m)))) kv, Ok []).
Proof.
  intros Hcli HK.
  rewrite (TXT_put cz _ K V ip HK), (TXT_get cz _ K ip HK), (TXT_delete cz _ K ip HK).
  unfold putKv, getKv, deleteKv. cbn [st_x st_kv]. rewrite Hcli.
  cbn. repeat split. destruct (m !! strings.ToLower K); reflexivity.
Qed.

End EtcdStore.

(** ** The TXT names that count their queries *)

Section SpecialNames.

Import Regexp.

Variable ipString : Net.IP -> string.
Variable metricsSslipIo : TXTFunc.

Lemma dns01Classes_fold_case (rs : list (ascii * ascii)) (x : ascii) :
  In rs dns01Classes -> in_class false rs (lower_ascii x) = in_class false rs x.
Proof.
  intros Hrs.
  assert (forallb
            (fun rs => forallb
               (fun x => Bool.eqb (in_class false rs (lower_ascii x)) (in_class false rs x))
               all_ascii)
            dns01Classes = true) as H by (vm_compute; reflexivity).
  rewrite forallb_forall in H. specialize (H rs Hrs).
  rewrite forallb_forall in H. specialize (H x (in_all_ascii x)).
  now apply Bool.eqb_prop in H.
Qed.

Lemma class_prefix_lower (rss : list (list (ascii * ascii))) :
  (forall rs, In rs rss -> In rs dns01Classes) ->
  forall s, class_prefix rss (map lower_ascii s) = class_prefix rss s.
Proof.
  induction rss as [|rs rss IH]; intros Hin s; [reflexivity |].
  destruct s as [|c s]; [reflexivity |]. cbn [map class_prefix].
  rewrite dns01Classes_fold_case by (apply Hin; now left).
  rewrite IH by (intros rs' H'; apply Hin; now right). reflexivity.
Qed.

Lemma find_dns01_lower (l : list ascii) : forall pos,
  find_from false (classes dns01Classes) pos (map lower_ascii l) = None ->
  find_from false (classes dns01Classes) pos l = None.
Proof.
  induction l as [|c l IH]; intros pos; cbn [map find_from];
    rewrite !(match_at_classes dns01Classes _ _ ltac:(discriminate)).
  - trivial.
  - change (lower_ascii c :: map lower_ascii l) with (map lower_ascii (c :: l)).
    rewrite (class_prefix_lower dns01Classes (fun rs H => H)).
    destruct (class_prefix dns01Classes (c :: l)); [discriminate | apply IH].
Qed.

(** A name whose lower case holds no [_acme-challenge.] holds none. *)
Lemma no_challenge_lower (name : string) :
  MatchString dns01ChallengeRE (strings.ToLower name) = false ->
  MatchString dns01ChallengeRE name = false.
Proof.
  unfold MatchString, find, strings.ToLower, strings.map_string.
  rewrite list_ascii_of_string_of_list_ascii, dns01ChallengeRE_classes.
  destruct (find_from false (classes dns01Classes) 0
              (map lower_ascii (list_ascii_of_string name))) eqn:E; [discriminate |].
  intros _. now rewrite (find_dns01_lower _ _ E).
Qed.

(** A name whose lower case is no key-value name is none. *)
Lemma no_kv_lower (name : string) :
  MatchString kvRE (strings.ToLower name) = false -> MatchString kvRE name = false.
Proof.
  intros H. destruct (MatchString kvRE name) eqn:E; [|reflexivity].
  apply kvRE_match in E. destruct E as [p ->].
  rewrite ToLower_app in H.
  change (strings.ToLower ".k-v.io.") with ".k-v.io."%string in H.
  now rewrite kvRE_suffix in H.
Qed.

(** X30. The two TXT names of the table that count their queries, in any
    letter case: [ip.sslip.io.] is answered with one TXT record, the
    source address of the query in text, and counts a source-address
    query; [version.status.sslip.io.] is answered with the three version
    strings and counts a version query.  Both are counted as answered,
    and the records have 180 seconds to live. *)
Theorem ip_and_version_names_are_answered (st : State) (queryHeader : dnsmessage.Header)
    (name : string) (class : Z) (srcAddr : Net.IP) :
  let q := dnsmessage.mkQuestion name dnsmessage.TypeTXT class in
  let answered x txts :=
    QueryResponse (Customizations ipString metricsSslipIo) st queryHeader q srcAddr =
    (mkState (incQueries (incAnsweredQueries x)) (st_kv st),
     Ok (dnsmessage.mkBuilder
           (dnsmessage.mkHeader (dnsmessage.ID queryHeader) true 0 true false
              (dnsmessage.RecursionDesired queryHeader) false dnsmessage.RCodeSuccess)
           dnsmessage.sectionDone [q]
           (map (fun txt => record name 180 (dnsmessage.BodyTXT (txt1 txt))) txts)
           [] [])) in
  (strings.ToLower name = "ip.sslip.io."%string ->
   answered (incAnsweredTXTSrcIPQueries (st_x st)) [ipString srcAddr]) /\
  (strings.ToLower name = "version.status.sslip.io."%string ->
   answered (incAnsweredXTVersionQueries (st_x st))
     [VersionSemantic; VersionDate; VersionGitHash]).
Proof.
  intros q answered. subst q answered. cbv beta.
  split; intros Hname.
  - assert (MatchString dns01ChallengeRE name = false) as Hre
      by (apply no_challenge_lower; rewrite Hname; vm_compute; reflexivity).
    assert (MatchString kvRE name = false) as Hkv
      by (apply no_kv_lower; rewrite Hname; vm_compute; reflexivity).
    unfold QueryResponse, processQuestion, IsAcmeChallenge, TXTResources.
    cbn [dnsmessage.QName dnsmessage.QType]. rewrite Hre, Hkv, Hname. reflexivity.
  - assert (MatchString dns01ChallengeRE name = false) as Hre
      by (apply no_challenge_lower; rewrite Hname; vm_compute; reflexivity).
    assert (MatchString kvRE name = false) as Hkv
      by (apply no_kv_lower; rewrite Hname; vm_compute; reflexivity).
    unfold QueryResponse, processQuestion, IsAcmeChallenge, TXTResources.
    cbn [dnsmessage.QName dnsmessage.QType]. rewrite Hre, Hkv, Hname. reflexivity.
Qed.

End SpecialNames.

(** ** The further properties at concrete questions *)

Section MoreInstances.

Lemma response_header_example :
  exists st' b,
    QueryResponse packageCustomizations (stateWith (serverWith [] [])) queryHeader0
      (question "_acme-challenge.127-0-0-1.sslip.io." dnsmessage.TypeTXT) srcAddr0 =
      (st', Ok b) /\
    dnsmessage.b_header b =
      dnsmessage.mkHeader 4660 true 0 false false true false dnsmessage.RCodeSuccess.
Proof.
  destruct (QueryResponse packageCustomizations (stateWith (serverWith [] []))
              queryHeader0
              (question "_acme-challenge.127-0-0-1.sslip.io." dnsmessage.TypeTXT)
              srcAddr0) as [st' [b|e|]] eqn:E;
    [| vm_compute in E; discriminate E | vm_compute in E; discriminate E].
  exists st', b. split; [reflexivity |].
  rewrite (response_header _ _ _ _ _ _ _ E). vm_compute. reflexivity.
Defined.

Lemma response_records_example :
  exists st' b,
    QueryResponse packageCustomizations (stateWith (serverWith [] [])) queryHeader0
      (question "ns.sslip.io." dnsmessage.TypeNS) srcAddr0 = (st', Ok b) /\
    Forall (owned "ns.sslip.io.") (dnsmessage.b_answers b) /\
    Forall (owned "ns.sslip.io.") (dnsmessage.b_authorities b) /\
    Forall address_record (dnsmessage.b_additionals b) /\
    (dnsmessage.b_answers b = [] \/ dnsmessage.b_authorities b = []).
Proof.
  destruct (QueryResponse packageCustomizations (stateWith (serverWith [] []))
              queryHeader0 (question "ns.sslip.io." dnsmessage.TypeNS) srcAddr0)
    as [st' [b|e|]] eqn:E;
    [| vm_compute in E; discriminate E | vm_compute in E; discriminate E].
  exists st', b. split; [reflexivity |].
  exact (response_records _ _ _ _ _ _ _ E).
Defined.

Lemma A_question_example :
  snd (QueryResponse packageCustomizations (stateWith (serverWith [] [])) queryHeader0
         (question "127-0-0-1.sslip.io." dnsmessage.TypeA) srcAddr0) =
  Ok (dnsmessage.mkBuilder
        (dnsmessage.mkHeader 4660 true 0 true false true false dnsmessage.RCodeSuccess)
        dnsmessage.sectionDone [question "127-0-0-1.sslip.io." dnsmessage.TypeA]
        [record "127-0-0-1.sslip.io." 604800
           (dnsmessage.BodyA (dnsmessage.mkA [127; 0; 0; 1]))] [] []).
Proof.
  rewrite (A_question_is_answered packageCustomizations (stateWith (serverWith [] []))
             queryHeader0 (question "127-0-0-1.sslip.io." dnsmessage.TypeA) srcAddr0).
  - vm_compute. reflexivity.
  - reflexivity.
  - vm_compute. reflexivity.
  - vm_compute. discriminate.
  - vm_compute. reflexivity.
Defined.

Lemma AAAA_question_example :
  snd (QueryResponse packageCustomizations (stateWith (serverWith [] [])) queryHeader0
         (question "2001-4860-4860--8888.sslip.io." dnsmessage.TypeAAAA) srcAddr0) =
  Ok (dnsmessage.mkBuilder
        (dnsmessage.mkHeader 4660 true 0 true false true false dnsmessage.RCodeSuccess)
        dnsmessage.sectionDone
        [question "2001-4860-4860--8888.sslip.io." dnsmessage.TypeAAAA]
        [record "2001-4860-4860--8888.sslip.io." 604800
           (dnsmessage.BodyAAAA
              (dnsmessage.mkAAAA [32; 1; 72; 96; 72; 96; 0; 0; 0; 0; 0; 0; 0; 0; 136; 136]))]
        [] []).
Proof.
  rewrite (AAAA_question_is_answered packageCustomizations
             (stateWith (serverWith [] [])) queryHeader0
             (question "2001-4860-4860--8888.sslip.io." dnsmessage.TypeAAAA) srcAddr0).
  - vm_compute. reflexivity.
  - reflexivity.
  - vm_compute. reflexivity.
  - vm_compute. discriminate.
  - vm_compute. reflexivity.
Defined.

Lemma blocked_A_example :
  snd (QueryResponse packageCustomizations
         (stateWith (serverWith ["raiffeisen"%string] [])) queryHeader0
         (question "raiffeisen.8-8-8-8.sslip.io." dnsmessage.TypeA) srcAddr0) =
  Ok (dnsmessage.mkBuilder
        (dnsmessage.mkHeader 4660 true 0 true false true false dnsmessage.RCodeSuccess)
        dnsmessage.sectionDone [question "raiffeisen.8-8-8-8.sslip.io." dnsmessage.TypeA]
        [record "raiffeisen.8-8-8-8.sslip.io." 604800
           (dnsmessage.BodyA (dnsmessage.mkA [52; 0; 56; 137]))] [] []).
Proof.
  rewrite (blocked_A_answers_sink packageCustomizations
             (stateWith (serverWith ["raiffeisen"%string] [])) queryHeader0
             (question "raiffeisen.8-8-8-8.sslip.io." dnsmessage.TypeA) srcAddr0
             (dnsmessage.mkA [52; 0; 56; 137])).
  - reflexivity.
  - reflexivity.
  - vm_compute. discriminate.
  - vm_compute. reflexivity.
  - vm_compute. reflexivity.
Defined.

Lemma no_data_example :
  snd (QueryResponse packageCustomizations (stateWith (serverWith [] [])) queryHeader0
         (question "example.com." dnsmessage.TypeA) srcAddr0) =
  Ok (dnsmessage.mkBuilder
        (dnsmessage.mkHeader 4660 true 0 true false true false dnsmessage.RCodeSuccess)
        dnsmessage.sectionDone [question "example.com." dnsmessage.TypeA] []
        [record "example.com." 604800
           (dnsmessage.BodySOA
              (dnsmessage.mkSOA "example.com." mbox 2022020800 900 900 1800 180))]
        []).
Proof.
  rewrite (no_data_gets_SOA_authority packageCustomizations
             (stateWith (serverWith [] [])) queryHeader0
             (question "example.com." dnsmessage.TypeA) srcAddr0).
  - reflexivity.
  - vm_compute. reflexivity.
  - left. split; [reflexivity | vm_compute; reflexivity].
Defined.

Lemma blocked_challenge_TXT_example :
  snd (QueryResponse packageCustomizations
         (stateWith (serverWith ["raiffeisen"%string] [])) queryHeader0
         (question "_acme-challenge.raiffeisen.8-8-8-8.sslip.io." dnsmessage.TypeTXT)
         srcAddr0) =
  Ok (dnsmessage.mkBuilder
        (dnsmessage.mkHeader 4660 true 0 false false true false dnsmessage.RCodeSuccess)
        dnsmessage.sectionDone
        [question "_acme-challenge.raiffeisen.8-8-8-8.sslip.io." dnsmessage.TypeTXT] []
        (map (fun ns =>
                record "_acme-challenge.raiffeisen.8-8-8-8.sslip.io." 604800
                  (dnsmessage.BodyNS ns))
             NameServers)
        []).
Proof.
  rewrite (blocked_challenge_TXT_is_referred packageCustomizations
             (stateWith (serverWith ["raiffeisen"%string] [])) queryHeader0
             (question "_acme-challenge.raiffeisen.8-8-8-8.sslip.io." dnsmessage.TypeTXT)
             srcAddr0).
  - reflexivity.
  - reflexivity.
  - vm_compute. reflexivity.
  - vm_compute. reflexivity.
Defined.

Lemma NS_question_example :
  snd (QueryResponse packageCustomizations (stateWith (serverWith [] [])) queryHeader0
         (question "example.com." dnsmessage.TypeNS) srcAddr0) =
  Ok (dnsmessage.mkBuilder
        (dnsmessage.mkHeader 4660 true 0 true false true false dnsmessage.RCodeSuccess)
        dnsmessage.sectionDone [question "example.com." dnsmessage.TypeNS]
        (map (fun ns => record "example.com." 604800 (dnsmessage.BodyNS ns)) NameServers)
        []
        [record "ns-aws.sslip.io." 604800
           (dnsmessage.BodyA (dnsmessage.mkA [52; 0; 56; 137]));
         record "ns-aws.sslip.io." 604800
           (dnsmessage.BodyAAAA
              (dnsmessage.mkAAAA [38; 0; 31; 24; 10; 175; 105; 0; 0; 0; 0; 0; 0; 0; 0; 10]));
         record "ns-azure.sslip.io." 604800
           (dnsmessage.BodyA (dnsmessage.mkA [52; 187; 42; 158]));
         record "ns-gce.sslip.io." 604800
           (dnsmessage.BodyA (dnsmessage.mkA [104; 155; 144; 4]))]).
Proof.
  rewrite (NS_question_is_answered packageCustomizations
             (stateWith (serverWith [] [])) queryHeader0
             (question "example.com." dnsmessage.TypeNS) srcAddr0).
  - vm_compute. reflexivity.
  - reflexivity.
  - left. vm_compute. reflexivity.
Defined.


Lemma ANY_question_example :
  snd (QueryResponse packageCustomizations (stateWith (serverWith [] [])) queryHeader0
         (question "sslip.io." dnsmessage.TypeALL) srcAddr0) =
  Ok (dnsmessage.mkBuilder
        (dnsmessage.mkHeader 4660 true 0 true false true false
           dnsmessage.RCodeNotImplemented)
        dnsmessage.sectionDone [question "sslip.io." dnsmessage.TypeALL] [] [] []).
Proof.
  rewrite (ANY_question_is_not_implemented packageCustomizations
             (stateWith (serverWith [] [])) queryHeader0
             (question "sslip.io." dnsmessage.TypeALL) srcAddr0).
  - reflexivity.
  - reflexivity.
  - left. vm_compute. reflexivity.
Defined.


Lemma kv_root_name_does_not_panic :
  TXTResources packageCustomizations (stateWith (serverWith [] [])) ".k-v.io." srcAddr0 =
    kvTXTResources (stateWith (serverWith [] [])) ".k-v.io." /\
  snd (kvTXTResources (stateWith (serverWith [] [])) ".k-v.io.") <> Panic.
Proof.
  apply (kv_names_never_panic packageCustomizations (stateWith (serverWith [] []))
           ".k-v.io." srcAddr0).
  vm_compute. reflexivity.
Defined.

Lemma kv_short_answer_example :
  exists kv txts,
    TXTResources packageCustomizations (stateWith (serverWith [] []))
      "put.hello.world.my-key.k-v.io." srcAddr0 =
      (mkState (serverWith [] []) kv, Ok txts) /\
    short_txt txts /\ kv_short kv.
Proof.
  apply (kv_answers_are_short packageCustomizations (stateWith (serverWith [] []))
           "put.hello.world.my-key.k-v.io." srcAddr0).
  - reflexivity.
  - intros key txts H. vm_compute in H. discriminate H.
  - vm_compute. reflexivity.
Defined.

Lemma kv_fold_case_example :
  TXTResources packageCustomizations (stateWith (serverWith [] []))
    ("My-Key" ++ ".k-v.io.") srcAddr0 =
  TXTResources packageCustomizations (stateWith (serverWith [] []))
    ("my-key" ++ ".k-v.io.") srcAddr0 /\
  TXTResources packageCustomizations (stateWith (serverWith [] []))
    ("Put" ++ "." ++ "My-Key" ++ ".k-v.io.") srcAddr0 =
  TXTResources packageCustomizations (stateWith (serverWith [] []))
    ("put" ++ "." ++ "my-key" ++ ".k-v.io.") srcAddr0 /\
  TXTResources packageCustomizations (stateWith (serverWith [] []))
    ("Put" ++ "." ++ "MyValue" ++ "." ++ "My-Key" ++ ".k-v.io.") srcAddr0 =
  TXTResources packageCustomizations (stateWith (serverWith [] []))
    ("put" ++ "." ++ "MyValue" ++ "." ++ "my-key" ++ ".k-v.io.") srcAddr0.
Proof.
  apply (kv_names_fold_case packageCustomizations (stateWith (serverWith [] []))
           "Put" "put" "My-Key" "my-key" "MyValue" srcAddr0);
    vm_compute; reflexivity.
Defined.

Lemma kv_last_put_example :
  TXTResources packageCustomizations
    (fst (TXTResources packageCustomizations
            (fst (TXTResources packageCustomizations (stateWith (serverWith [] []))
                    ("put." ++ "one" ++ "." ++ "a" ++ ".k-v.io.") srcAddr0))
            ("put." ++ "two" ++ "." ++ "a" ++ ".k-v.io.") srcAddr0))
    ("a" ++ ".k-v.io.") srcAddr0 =
  (fst (TXTResources packageCustomizations
          (fst (TXTResources packageCustomizations (stateWith (serverWith [] []))
                  ("put." ++ "one" ++ "." ++ "a" ++ ".k-v.io.") srcAddr0))
          ("put." ++ "two" ++ "." ++ "a" ++ ".k-v.io.") srcAddr0),
   Ok [txt1 (truncate63 "two")]).
Proof.
  apply (kv_last_put_wins packageCustomizations (stateWith (serverWith [] []))
           "a" "b" "one" "two" srcAddr0).
  - reflexivity.
  - vm_compute. reflexivity.
  - vm_compute. reflexivity.
  - vm_compute. reflexivity.
  - vm_compute. reflexivity.
  - vm_compute. discriminate.
Defined.

Lemma kv_delete_example :
  snd (TXTResources packageCustomizations (stateWith (serverWith [] []))
         ("delete." ++ "a" ++ ".k-v.io.") srcAddr0) = Ok [].
Proof.
  apply (kv_delete_is_idempotent packageCustomizations (stateWith (serverWith [] []))
           "a" srcAddr0).
  - reflexivity.
  - vm_compute. reflexivity.
Defined.

Lemma kv_etcd_example :
  st_kv (fst (TXTResources packageCustomizations (stateWith etcdServer)
                "put.my-value.my-key.k-v.io." srcAddr0)) =
  st_kv (stateWith etcdServer).
Proof.
  apply (kv_with_etcd_leaves_map packageCustomizations (stateWith etcdServer) emptyEtcd
           "put.my-value.my-key.k-v.io." srcAddr0).
  - reflexivity.
  - vm_compute. reflexivity.
Defined.

Lemma blocklist_grows_example :
  blocklist packageCustomizations
    (serverWith ["raiffeisen"%string; "phish"%string] [cidr "43.134.66.67/24"])
    "raiffeisen.8-8-8-8.sslip.io." = true /\
  (BlocklistStrings (serverWith ["raiffeisen"%string] []) <> [] \/
   BlocklistCDIRs (serverWith ["raiffeisen"%string] []) <> []).
Proof.
  apply (blocklist_grows_with_its_lists packageCustomizations
           (serverWith ["raiffeisen"%string] [])
           (serverWith ["raiffeisen"%string; "phish"%string] [cidr "43.134.66.67/24"])
           "raiffeisen.8-8-8-8.sslip.io.").
  - intros s [<- | []]. left. reflexivity.
  - intros c [].
  - vm_compute. reflexivity.
Defined.

Lemma comment_example :
  ReadBlocklist_line ("raiffeisen " ++ "#" ++ " phishing, 2024") ([], []) =
  ReadBlocklist_line "raiffeisen " ([], []).
Proof.
  apply (ReadBlocklist_skips_comments "raiffeisen " " phishing, 2024" ([], []));
    unfold no_byte; simpl;
    repeat (apply List.Forall_cons; [discriminate |]); apply List.Forall_nil.
Defined.

Lemma failed_download_example :
  readBlocklist (fun _ => inl (404, "raiffeisen"%string)) "https://example.com/blocklist" =
    ([], [], None) /\
  NewXip_blocklist_pass (fun _ => inl (404, "raiffeisen"%string))
    "https://example.com/blocklist" 1700000000 (serverWith ["raiffeisen"%string] []) =
    mkXip None 0 noMetrics [] [] 1700000000 /\
  forall cz hostname,
    blocklist cz
      (NewXip_blocklist_pass (fun _ => inl (404, "raiffeisen"%string))
         "https://example.com/blocklist" 1700000000 (serverWith ["raiffeisen"%string] []))
      hostname = false.
Proof.
  apply (failed_download_empties_blocklist (fun _ => inl (404, "raiffeisen"%string))
           "https://example.com/blocklist" 1700000000 (serverWith ["raiffeisen"%string] [])
           404 "raiffeisen").
  - reflexivity.
  - lia.
Defined.

Lemma synthesized_records_example :
  (NameToA packageCustomizations "127-0-0-1.sslip.io." = [] \/
   exists a b c d,
     NameToA packageCustomizations "127-0-0-1.sslip.io." = [dnsmessage.mkA [a; b; c; d]] /\
     is_bytes [a; b; c; d]) /\
  (NameToAAAA packageCustomizations "127-0-0-1.sslip.io." = [] \/
   exists ip,
     NameToAAAA packageCustomizations "127-0-0-1.sslip.io." = [dnsmessage.mkAAAA ip] /\
     List.length ip = 16%nat /\ is_bytes ip).
Proof.
  apply (synthesized_records_are_addresses packageCustomizations "127-0-0-1.sslip.io.").
  vm_compute. reflexivity.
Defined.

Lemma map_unchanged_example :
  st_kv (fst (QueryResponse packageCustomizations (stateWith (serverWith [] []))
                queryHeader0 (question "put.a.b.k-v.io." dnsmessage.TypeA) srcAddr0)) =
  st_kv (stateWith (serverWith [] [])).
Proof.
  apply (only_key_value_names_change_the_map packageCustomizations
           (stateWith (serverWith [] [])) queryHeader0
           (question "put.a.b.k-v.io." dnsmessage.TypeA) srcAddr0).
  left. discriminate.
Defined.

Lemma counters_example :
  exists m,
    st_x (fst (QueryResponse packageCustomizations (stateWith (serverWith [] []))
                 queryHeader0 (question "127-0-0-1.sslip.io." dnsmessage.TypeA) srcAddr0)) =
      set_Metrics (serverWith [] []) m /\
    Start m = 0 /\
    match snd (QueryResponse packageCustomizations (stateWith (serverWith [] []))
                 queryHeader0 (question "127-0-0-1.sslip.io." dnsmessage.TypeA) srcAddr0)
    with
    | Ok _ => Queries m = incr 0 /\ MostlyEquals noMetrics m = false
    | _ => True
    end /\
    match snd (processQuestion packageCustomizations (stateWith (serverWith [] []))
                 (question "127-0-0-1.sslip.io." dnsmessage.TypeA) srcAddr0)
    with
    | Ok _ => True
    | _ => Queries m = 0
    end.
Proof.
  apply (questions_change_counters_only packageCustomizations
           (stateWith (serverWith [] [])) queryHeader0
           (question "127-0-0-1.sslip.io." dnsmessage.TypeA) srcAddr0).
  left. discriminate.
Defined.

Lemma written_response_example :
  exists st' b st1 response an au ad,
    QueryResponse packageCustomizations (stateWith (serverWith [] [])) queryHeader0
      (question "sslip.io." dnsmessage.TypeMX) srcAddr0 = (st', Ok b) /\
    processQuestion packageCustomizations (stateWith (serverWith [] []))
      (question "sslip.io." dnsmessage.TypeMX) srcAddr0 = (st1, Ok response) /\
    writes an (write_all (Answers response)) /\
    writes au (write_all (Authorities response)) /\
    writes ad (write_all (Additionals response)) /\
    st' = mkState (incQueries (st_x st1)) (st_kv st1) /\
    b = dnsmessage.mkBuilder
          (set_ID_RD (Header response) 4660 true)
          dnsmessage.sectionDone [question "sslip.io." dnsmessage.TypeMX] an au ad.
Proof.
  assert (exists st' b,
            QueryResponse packageCustomizations (stateWith (serverWith [] []))
              queryHeader0 (question "sslip.io." dnsmessage.TypeMX) srcAddr0 =
            (st', Ok b)) as (st' & b & E)
    by (eexists _, _; vm_compute; reflexivity).
  assert (Forall (fun mx => dnsmessage.Name_pack (dnsmessage.MX mx) = None)
            (MXResources packageCustomizations "sslip.io.")) as HMX.
  { change (MXResources packageCustomizations "sslip.io.")
      with [dnsmessage.mkMX 10 mx1; dnsmessage.mkMX 20 mx2].
    repeat (apply List.Forall_cons; [vm_compute; reflexivity |]).
    apply List.Forall_nil. }
  destruct (proj1 (QueryResponse_writes_the_response packageCustomizations
                     (stateWith (serverWith [] [])) queryHeader0
                     (question "sslip.io." dnsmessage.TypeMX) srcAddr0 HMX)
              st' b E)
    as (st1 & response & an & au & ad & Hp & Han & Hau & Had & Hst & Hb).
  exists st', b, st1, response, an, au, ad.
  repeat (split; [assumption |]). exact Hb.
Defined.

Lemma never_fails_example :
  exists st1 response,
    processQuestion packageCustomizations (stateWith (serverWith [] []))
      (question "put.MyValue.My-Key.k-v.io." dnsmessage.TypeTXT) srcAddr0 =
    (st1, Ok response).
Proof.
  apply (builtin_store_never_fails (fun _ => EmptyString) (fun x _ => (x, Ok []))).
  - reflexivity.
  - vm_compute. reflexivity.
  - vm_compute. discriminate.
Defined.

Lemma challenge_prefix_example :
  Regexp.DeleteAllString dns01ChallengeRE ("_ACME-Challenge." ++ "127-0-0-1.sslip.io.") =
    "127-0-0-1.sslip.io."%string /\
  NSResources packageCustomizations (serverWith [] [])
    ("_ACME-Challenge." ++ "127-0-0-1.sslip.io.") =
    (incAnsweredNSDNS01ChallengeQueries (serverWith [] []),
     [dnsmessage.mkNS "127-0-0-1.sslip.io."]).
Proof.
  apply (challenge_prefix_is_stripped packageCustomizations (serverWith [] [])
           "_ACME-Challenge." "127-0-0-1.sslip.io.").
  - vm_compute. reflexivity.
  - vm_compute. reflexivity.
  - vm_compute. lia.
  - vm_compute. reflexivity.
  - vm_compute. reflexivity.
Defined.

Lemma kv_etcd_put_example :
  TXTResources packageCustomizations
    (mkState (mkXip (Some (mapEtcd ∅)) 0 noMetrics [] [] 0) ∅)
    ("put." ++ "MyValue" ++ "." ++ "My-Key" ++ ".k-v.io.") srcAddr0 =
  (mkState
     (set_Etcd (mkXip (Some (mapEtcd ∅)) 0 noMetrics [] [] 0)
        (Some (mapEtcd (<[strings.ToLower "My-Key" := truncate63 "MyValue"]> ∅))))
     ∅,
   Ok [txt1 (truncate63 "MyValue")]).
Proof.
  apply (kv_names_drive_etcd packageCustomizations
           (mkXip (Some (mapEtcd ∅)) 0 noMetrics [] [] 0) ∅ ∅ "My-Key" "MyValue" srcAddr0).
  - reflexivity.
  - vm_compute. reflexivity.
Defined.

Lemma ip_name_example :
  QueryResponse packageCustomizations (stateWith (serverWith [] [])) queryHeader0
    (dnsmessage.mkQuestion "IP.sslip.io." dnsmessage.TypeTXT 1) srcAddr0 =
  (mkState (incQueries (incAnsweredQueries (incAnsweredTXTSrcIPQueries (serverWith [] []))))
     ∅,
   Ok (dnsmessage.mkBuilder
         (dnsmessage.mkHeader 4660 true 0 true false true false dnsmessage.RCodeSuccess)
         dnsmessage.sectionDone
         [dnsmessage.mkQuestion "IP.sslip.io." dnsmessage.TypeTXT 1]
         [record "IP.sslip.io." 180 (dnsmessage.BodyTXT (txt1 EmptyString))] [] [])).
Proof.
  apply (proj1 (ip_and_version_names_are_answered (fun _ => EmptyString)
                  (fun x _ => (x, Ok [])) (stateWith (serverWith [] [])) queryHeader0
                  "IP.sslip.io." 1 srcAddr0)).
  vm_compute. reflexivity.
Defined.

End MoreInstances.
